(** * SuperTickets.AI: the triage pipeline, embedded and verified

    A shallow embedding of the classification-and-orchestration core of
    the repository:

    - [Rule]      : [mcp_service/services/ai_email_processor.py]
    - [Bedrock]   : [mcp_service/services/bedrock_ai_processor.py]
    - [Matcher]   : [mcp_service/utils/embedding_search.py]
    - [Automation]: [mcp_service/services/email_automation_service.py]

    Conventions.  Python [str] values are [string]s (sequences of bytes;
    the text functions below are those of Python on ASCII text).  Python
    [float]s are exact rationals, extended with the infinities and NaN;
    rounding is not modelled.  A [try]/[except] is a [result] and its
    handler; a coroutine touching a collaborator is a function of the
    [World] it runs in. *)

From Stdlib Require Import String Ascii List ZArith QArith Lia Bool Sorted.
From stdpp Require Import gmap strings list.

Local Open Scope string_scope.
Set Warnings "-register-all".

(* ===================================================================== *)
(** ** Exceptions and results *)
(* ===================================================================== *)

Inductive exn : Type :=
| ValueError (msg : string)
| KeyError (key : string)
| TypeError (msg : string)
| AttributeError (msg : string)
| OverflowError (msg : string)
| JSONDecodeError (msg : string)
| ServiceError (msg : string).

Inductive result (A : Type) : Type :=
| Ok (a : A)
| Raise (e : exn).

Arguments Ok {A} a.
Arguments Raise {A} e.

Definition is_ok {A} (r : result A) : bool :=
  match r with Ok _ => true | Raise _ => false end.

(** [str(e)], as interpolated into the logger's messages. *)
Definition exn_message (e : exn) : string :=
  match e with
  | ValueError m | TypeError m | AttributeError m
  | OverflowError m | JSONDecodeError m | ServiceError m => m
  | KeyError k => "'" +:+ k +:+ "'"
  end.

(* ===================================================================== *)
(** ** Python text primitives *)
(* ===================================================================== *)

Module Py.

Definition code (c : ascii) : nat := nat_of_ascii c.

Definition between (lo hi : nat) (c : ascii) : bool :=
  (lo <=? code c)%nat && (code c <=? hi)%nat.

Definition is_upper : ascii -> bool := between 65 90.
Definition is_lower : ascii -> bool := between 97 122.
Definition is_digit : ascii -> bool := between 48 57.

(** [str.isspace] on ASCII: TAB..CR, FS..US and the blank. *)
Definition is_space (c : ascii) : bool := between 9 13 c || between 28 32 c.

(** The class [\w] of [re] on ASCII. *)
Definition is_word (c : ascii) : bool :=
  is_upper c || is_lower c || is_digit c || (code c =? 95)%nat.

Definition lower_ascii (c : ascii) : ascii :=
  if is_upper c then ascii_of_nat (code c + 32) else c.

(** [s.lower()] *)
Fixpoint lower (s : string) : string :=
  match s with
  | EmptyString => EmptyString
  | String c s' => String (lower_ascii c) (lower s')
  end.

(** [sub in s] *)
Definition contains (sub s : string) : bool :=
  match String.index 0 sub s with Some _ => true | None => false end.

(** [s.find(sub)] *)
Definition find (sub s : string) : Z :=
  match String.index 0 sub s with Some i => Z.of_nat i | None => (-1)%Z end.

Fixpoint rindex (sub s : string) : option nat :=
  match s with
  | EmptyString => if String.prefix sub EmptyString then Some 0 else None
  | String _ s' =>
      match rindex sub s' with
      | Some i => Some (S i)
      | None => if String.prefix sub s then Some 0 else None
      end
  end.

(** [s.rfind(sub)] *)
Definition rfind (sub s : string) : Z :=
  match rindex sub s with Some i => Z.of_nat i | None => (-1)%Z end.

(** [s[a:b]] for indices [0 <= a], [0 <= b]. *)
Definition slice (s : string) (a b : Z) : string :=
  substring (Z.to_nat a) (Z.to_nat (b - a)) s.

(** [s[:n]] *)
Definition take (n : nat) (s : string) : string := substring 0 n s.

Fixpoint lstrip (s : string) : string :=
  match s with
  | EmptyString => EmptyString
  | String c s' => if is_space c then lstrip s' else s
  end.

Fixpoint rstrip (s : string) : string :=
  match s with
  | EmptyString => EmptyString
  | String c s' =>
      match rstrip s' with
      | EmptyString => if is_space c then EmptyString else String c EmptyString
      | r => String c r
      end
  end.

(** [s.strip()] *)
Definition strip (s : string) : string := rstrip (lstrip s).

(** [s.endswith(suffix)] *)
Definition endswith (s suffix : string) : bool :=
  let n := String.length s in
  let k := String.length suffix in
  (k <=? n)%nat && String.eqb (substring (n - k) k s) suffix.

(** [re.findall(r'\b\w+\b', s)]: the maximal runs of word characters.
    [cur] is the run being read, reversed. *)
Fixpoint words_from (cur : list ascii) (s : string) : list string :=
  let flush := match cur with
               | [] => []
               | _ => [string_of_list_ascii (rev cur)]
               end in
  match s with
  | EmptyString => flush
  | String c s' =>
      if is_word c then words_from (c :: cur) s'
      else flush ++ words_from [] s'
  end.

Definition findall_words (s : string) : list string := words_from [] s.

(** [x in l] for a list of strings. *)
Definition mem (x : string) (l : list string) : bool :=
  existsb (String.eqb x) l.

(** [any(k in text for k in keywords)] *)
Definition any_in (keywords : list string) (text : string) : bool :=
  existsb (fun k => contains k text) keywords.

(** [sum(1 for k in keywords if k in text)] *)
Definition hits (keywords : list string) (text : string) : nat :=
  length (List.filter (fun k => contains k text) keywords).

(** [max(d, key=d.get)] over the items of a dict in insertion order:
    the first key whose value is maximal. *)
Fixpoint first_max (best : string * nat) (items : list (string * nat)) : string :=
  match items with
  | [] => fst best
  | kv :: rest =>
      if (snd best <? snd kv)%nat then first_max kv rest else first_max best rest
  end.

Definition max_key (items : list (string * nat)) : option string :=
  match items with
  | [] => None
  | kv :: rest => Some (first_max kv rest)
  end.

Fixpoint decimal (fuel : nat) (n : N) (acc : string) : string :=
  match fuel with
  | O => acc
  | S fuel' =>
      let acc' := String (ascii_of_N (48 + n mod 10)) acc in
      if (n <? 10)%N then acc' else decimal fuel' (n / 10)%N acc'
  end.

(** [str(z)] for an [int]. *)
Definition str_of_int (z : Z) : string :=
  let n := Z.to_N (Z.abs z) in
  let digits := decimal (S (N.to_nat (N.log2 n))) n EmptyString in
  if (z <? 0)%Z then "-" +:+ digits else digits.

End Py.

(* ===================================================================== *)
(** ** Python values *)
(* ===================================================================== *)

Inductive pyfloat : Type :=
| Finite (q : Q)
| Infinity (negative : bool)
| NaN.

(** The values [json.loads] produces.  A dict is the list of its items in
    insertion order. *)
Inductive json : Type :=
| JNull
| JBool (b : bool)
| JInt (n : Z)
| JFloat (x : pyfloat)
| JStr (s : string)
| JList (l : list json)
| JDict (items : list (string * json)).

Module Value.

Fixpoint assoc (k : string) (items : list (string * json)) : option json :=
  match items with
  | [] => None
  | (k', v) :: rest => if String.eqb k k' then Some v else assoc k rest
  end.

(** [d.get(k, default)]; on a value that is not a dict there is no
    [get] attribute. *)
Definition get (d : json) (k : string) (default : json) : result json :=
  match d with
  | JDict items => Ok (match assoc k items with Some v => v | None => default end)
  | _ => Raise (AttributeError "object has no attribute 'get'")
  end.

(** Truth value of an object, as tested by [if x:]. *)
Definition truthy (v : json) : bool :=
  match v with
  | JNull => false
  | JBool b => b
  | JInt n => negb (n =? 0)%Z
  | JFloat (Finite q) => negb (Qeq_bool q 0)
  | JFloat _ => true
  | JStr s => negb (String.eqb s "")
  | JList l => match l with [] => false | _ => true end
  | JDict d => match d with [] => false | _ => true end
  end.

(** [min(a, b)] on two finite floats. *)
Definition min (a b : Q) : Q := if Qle_bool a b then a else b.

(** The largest magnitude [float(int)] converts: above it the nearest
    double is out of range. *)
Definition float_int_bound : Z := (2 ^ 1024 - 2 ^ 970)%Z.

End Value.

(** What the interpreter and its standard library contribute: the JSON
    decoder, [float] on text, [str] on a value and the iteration order of
    a [set] of strings. *)
Record Runtime : Type := {
  json_loads : string -> result json;
  float_of_str : string -> result pyfloat;
  py_str : json -> string;
  set_order : list string -> list string
}.

(** [float(v)] *)
Definition py_float (rt : Runtime) (v : json) : result pyfloat :=
  match v with
  | JBool b => Ok (Finite (if b then 1 else 0))
  | JInt n =>
      if (Z.abs n <? Value.float_int_bound)%Z then Ok (Finite (inject_Z n))
      else Raise (OverflowError "int too large to convert to float")
  | JFloat x => Ok x
  | JStr s => float_of_str rt s
  | _ => Raise (TypeError "float() argument must be a string or a real number")
  end.

(** [0 <= x <= 1] on floats; false on NaN and the infinities. *)
Definition in_unit_interval (x : pyfloat) : Prop :=
  match x with
  | Finite q => (0 <= q /\ q <= 1)%Q
  | _ => False
  end.

Definition dq : string := String (ascii_of_nat 34) EmptyString.
Definition nl : string := String (ascii_of_nat 10) EmptyString.

(** The closing lines every composed reply ends with. *)
Definition signature : string :=
  "Best regards," +:+ nl +:+ "SuperTickets.AI Support Team".

(** A knowledge-base hit as the processors pass it around. *)
Record KBResult : Type := {
  kb_title : string;
  kb_content : string;
  kb_similarity : Q
}.

(* ===================================================================== *)
(** ** The keyword-rule classifier ([ai_email_processor.py]) *)
(* ===================================================================== *)

Module Rule.

Record EmailAnalysis : Type := {
  category : string;
  priority : string;
  sentiment : string;
  intent : string;
  confidence : Q;
  keywords : list string;
  requires_human : bool;
  suggested_response : option string;
  ticket_needed : bool
}.

(** The three tables of [AIEmailProcessor.__init__], in declaration
    order (the iteration order of a dict). *)
Definition categories : list (string * list string) :=
  [ ("technical", ["error"; "bug"; "crash"; "not working"; "broken"; "issue"; "problem"]);
    ("billing", ["payment"; "invoice"; "charge"; "refund"; "subscription"; "billing"]);
    ("account", ["login"; "password"; "access"; "account"; "profile"; "settings"]);
    ("general", ["question"; "help"; "how to"; "information"; "support"]);
    ("complaint", ["angry"; "frustrated"; "terrible"; "awful"; "disappointed"]);
    ("feature_request", ["feature"; "enhancement"; "suggestion"; "improve"; "add"]) ].

Definition priority_keywords : list (string * list string) :=
  [ ("high", ["urgent"; "critical"; "emergency"; "asap"; "immediately"; "down"; "outage"]);
    ("medium", ["important"; "soon"; "needed"; "issue"; "problem"]);
    ("low", ["question"; "when possible"; "eventually"; "minor"]) ].

Definition sentiment_keywords : list (string * list string) :=
  [ ("positive", ["thank"; "great"; "excellent"; "love"; "amazing"; "perfect"]);
    ("negative", ["angry"; "frustrated"; "terrible"; "awful"; "hate"; "worst"]);
    ("neutral", ["question"; "help"; "information"; "please"; "need"]) ].

(** The dict of positive scores the two scoring loops build. *)
Fixpoint scores (table : list (string * list string)) (text : string)
  : list (string * nat) :=
  match table with
  | [] => []
  | (name, kws) :: rest =>
      let score := Py.hits kws text in
      if (0 <? score)%nat then (name, score) :: scores rest text
      else scores rest text
  end.

Definition _categorize_email (text : string) : string :=
  match Py.max_key (scores categories text) with
  | Some c => c
  | None => "general"
  end.

Fixpoint first_matching (table : list (string * list string)) (text : string)
  : option string :=
  match table with
  | [] => None
  | (name, kws) :: rest =>
      if Py.any_in kws text then Some name else first_matching rest text
  end.

Definition _determine_priority (text : string) : string :=
  match first_matching priority_keywords text with
  | Some p => p
  | None => "medium"
  end.

Definition _analyze_sentiment (text : string) : string :=
  match Py.max_key (scores sentiment_keywords text) with
  | Some s => s
  | None => "neutral"
  end.

Definition _determine_intent (text category : string) : string :=
  if Py.any_in ["how"; "what"; "when"; "where"; "why"; "?"] text then "question"
  else if Py.any_in ["fix"; "solve"; "help"; "support"] text then "support_request"
  else if Py.any_in ["refund"; "cancel"; "return"] text then "refund_request"
  else if String.eqb category "complaint" then "complaint"
  else "support_request".

Definition stop_words : list string :=
  [ "the"; "and"; "or"; "but"; "in"; "on"; "at"; "to"; "for"; "of"; "with";
    "by"; "is"; "are"; "was"; "were"; "be"; "been"; "have"; "has"; "had";
    "do"; "does"; "did"; "will"; "would"; "could"; "should"; "may"; "might";
    "can"; "cannot"; "cant"; "wont"; "dont"; "doesnt"; "didnt"; "havent";
    "hasnt"; "hadnt"; "isnt"; "arent"; "wasnt"; "werent"; "i"; "you"; "he";
    "she"; "it"; "we"; "they"; "me"; "him"; "her"; "us"; "them"; "my";
    "your"; "his"; "her"; "its"; "our"; "their"; "this"; "that"; "these";
    "those"; "a"; "an" ].

Definition _extract_keywords (rt : Runtime) (text : string) : list string :=
  let words := Py.findall_words text in
  let kept :=
    List.filter
      (fun word => (3 <? String.length word)%nat
                   && negb (Py.mem (Py.lower word) stop_words))
      words in
  firstn 10 (set_order rt kept).

Definition _calculate_confidence (category priority sentiment : string) : Q :=
  let base_confidence := (7 # 10)%Q in
  let base_confidence :=
    if Py.mem category ["technical"; "billing"] then (base_confidence + (1 # 10))%Q
    else if String.eqb category "general" then (base_confidence - (1 # 10))%Q
    else base_confidence in
  let base_confidence :=
    if Py.mem priority ["high"; "low"] then (base_confidence + (1 # 10))%Q
    else base_confidence in
  let base_confidence :=
    if Py.mem sentiment ["positive"; "negative"] then (base_confidence + (1 # 10))%Q
    else base_confidence in
  Value.min base_confidence 1.

Definition _requires_human_review
    (category priority sentiment : string) (keywords : list string) : bool :=
  if String.eqb priority "high" || String.eqb sentiment "negative" then true
  else if String.eqb category "complaint" then true
  else if String.eqb category "technical"
          && existsb (fun word => Py.mem word keywords)
                     ["crash"; "data"; "security"; "breach"] then true
  else if String.eqb category "billing" then true
  else false.

Definition _needs_ticket (category priority intent : string) : bool :=
  if String.eqb priority "high" then true
  else if String.eqb category "technical" then true
  else if String.eqb category "complaint" then true
  else if String.eqb intent "support_request"
          && negb (String.eqb category "general") then true
  else false.

(** The value of the [except] branch of [analyze_email]. *)
Definition safe_defaults : EmailAnalysis :=
  {| category := "general";
     priority := "medium";
     sentiment := "neutral";
     intent := "support_request";
     confidence := (5 # 10)%Q;
     keywords := [];
     requires_human := true;
     suggested_response := None;
     ticket_needed := true |}.

(** The fixed fail-safe analysis of the contract. *)
Definition is_fail_safe (a : EmailAnalysis) : Prop :=
  category a = "general" /\ priority a = "medium" /\ sentiment a = "neutral"
  /\ (confidence a == 5 # 10)%Q /\ requires_human a = true /\ ticket_needed a = true.

(** The [try] block of [analyze_email]. *)
Definition analyze_body (rt : Runtime) (email_content subject sender : string)
  : result EmailAnalysis :=
  let full_text := Py.lower (subject +:+ " " +:+ email_content) in
  let category := _categorize_email full_text in
  let priority := _determine_priority full_text in
  let sentiment := _analyze_sentiment full_text in
  let intent := _determine_intent full_text category in
  let keywords := _extract_keywords rt full_text in
  let confidence := _calculate_confidence category priority sentiment in
  let requires_human := _requires_human_review category priority sentiment keywords in
  let ticket_needed := _needs_ticket category priority intent in
  Ok {| category := category;
        priority := priority;
        sentiment := sentiment;
        intent := intent;
        confidence := confidence;
        keywords := keywords;
        requires_human := requires_human;
        suggested_response := None;
        ticket_needed := ticket_needed |}.

(** The [except Exception] clause of [analyze_email]: whatever the
    [try] block raised, the safe defaults are returned. *)
Definition except_Exception (body : result EmailAnalysis) : result EmailAnalysis :=
  match body with
  | Ok analysis => Ok analysis
  | Raise _ => Ok safe_defaults
  end.

Definition analyze_email (rt : Runtime) (email_content subject sender : string)
  : result EmailAnalysis :=
  except_Exception (analyze_body rt email_content subject sender).

Definition _generate_solution_response (analysis : EmailAnalysis) (kb_result : KBResult)
  : string :=
"Hello,

Thank you for contacting our support team. I found a solution that should help with your " +:+ category analysis +:+ " issue.

**Solution:**
" +:+ kb_content kb_result +:+ "

If this doesn't resolve your issue, I've created a support ticket for further assistance. Our team will follow up with you shortly.

" +:+ signature.

Definition _generate_technical_response (analysis : EmailAnalysis) : string :=
  if String.eqb (priority analysis) "high" then
"Hello,

Thank you for reporting this technical issue. I understand this is urgent and I've immediately escalated your case to our technical team.

A support ticket has been created and you should expect a response within 2 hours.

In the meantime, please try:
1. Clearing your browser cache
2. Trying a different browser
3. Checking our status page for any known issues

" +:+ signature
  else
"Hello,

Thank you for contacting us about this technical issue. I've created a support ticket and our technical team will investigate this for you.

You can expect a response within 24 hours. We'll keep you updated on our progress.

" +:+ signature.

Definition _generate_billing_response (analysis : EmailAnalysis) : string :=
"Hello,

Thank you for contacting us regarding your billing inquiry. I've created a support ticket and forwarded your case to our billing department.

Our billing team will review your account and respond within 24 hours with a detailed explanation.

If you need immediate assistance, please call our billing hotline at [PHONE_NUMBER].

" +:+ signature.

Definition _generate_account_response (analysis : EmailAnalysis) : string :=
"Hello,

Thank you for contacting us about your account. For security reasons, I've created a support ticket and our account specialists will assist you.

Please have your account information ready when they contact you. You should receive a response within 12 hours.

For immediate password resets, you can use the " +:+ dq +:+ "Forgot Password" +:+ dq +:+ " link on our login page.

" +:+ signature.

Definition _generate_complaint_response (analysis : EmailAnalysis) : string :=
"Hello,

Thank you for taking the time to share your feedback with us. I sincerely apologize for any inconvenience you've experienced.

I've immediately escalated your concerns to our management team and created a priority support ticket. A senior team member will personally review your case and contact you within 4 hours.

We value your business and are committed to resolving this matter to your satisfaction.

" +:+ signature.

Definition _generate_feature_request_response (analysis : EmailAnalysis) : string :=
"Hello,

Thank you for your feature suggestion! We appreciate customers who help us improve our product.

I've forwarded your request to our product development team for consideration. While I can't guarantee implementation, all suggestions are carefully reviewed.

You'll receive updates if your feature is added to our development roadmap.

" +:+ signature.

Definition _generate_general_response (analysis : EmailAnalysis) : string :=
"Hello,

Thank you for contacting SuperTickets.AI support. I've received your message and created a support ticket for you.

Our support team will review your request and respond within 24 hours with the information you need.

If you have any urgent concerns, please don't hesitate to contact us directly.

" +:+ signature.

Definition _generate_fallback_response : string :=
"Hello,

Thank you for contacting SuperTickets.AI support. I've received your message and our team will review it shortly.

You can expect a response within 24 hours. If you need immediate assistance, please contact our support hotline.

" +:+ signature.

(** The [try] block of [generate_response]. *)
Definition generate_body (analysis : EmailAnalysis) (email_content : string)
    (kb_results : list KBResult) : result string :=
  let solution :=
    match kb_results with
    | best_result :: _ =>
        if Qle_bool (kb_similarity best_result) (7 # 10) then None
        else Some (_generate_solution_response analysis best_result)
    | [] => None
    end in
  match solution with
  | Some response => Ok response
  | None =>
      if String.eqb (category analysis) "technical"
      then Ok (_generate_technical_response analysis)
      else if String.eqb (category analysis) "billing"
      then Ok (_generate_billing_response analysis)
      else if String.eqb (category analysis) "account"
      then Ok (_generate_account_response analysis)
      else if String.eqb (category analysis) "complaint"
      then Ok (_generate_complaint_response analysis)
      else if String.eqb (category analysis) "feature_request"
      then Ok (_generate_feature_request_response analysis)
      else Ok (_generate_general_response analysis)
  end.

Definition generate_response (analysis : EmailAnalysis) (email_content : string)
    (kb_results : list KBResult) : string :=
  match generate_body analysis email_content kb_results with
  | Ok response => response
  | Raise _ => _generate_fallback_response
  end.

End Rule.

(* ===================================================================== *)
(** ** The world of collaborators *)
(* ===================================================================== *)

(** A parsed mail, the dict built by [_parse_email_message] or handed to
    the manual entry point: keys ["id"], ["thread_id"], ["subject"],
    ["sender"], ["body"], ... *)
Abbreviation Email := (gmap string string).

(** [email[key]] *)
Definition getitem (email : Email) (key : string) : result string :=
  match email !! key with
  | Some v => Ok v
  | None => Raise (KeyError key)
  end.

(** A row returned by the [match_knowledge_base] function of the store.
    A key the row lacks is [None]; a score, when present, is a finite
    number. *)
Record Candidate : Type := {
  c_id : string;
  c_title : string;
  c_content : string;
  c_category : option string;
  c_similarity_score : option Q;
  c_solution_steps : list string
}.

(** The [email_data] dict given to [GmailClient.send_email]. *)
Record EmailData : Type := {
  ed_to : string;
  ed_subject : string;
  ed_body : string;
  ed_thread_id : string
}.

(** What [send_email] returns. *)
Record SendResult : Type := {
  sr_message_id : string;
  sr_thread_id : string
}.

Record AnalysisSummary : Type := {
  as_category : json;
  as_priority : json;
  as_sentiment : json;
  as_confidence : pyfloat;
  as_keywords : json
}.

(** A row of the [support_tickets] table. *)
Record TicketData : Type := {
  td_id : string;
  td_title : string;
  td_description : string;
  td_priority : json;
  td_category : json;
  td_status : string;
  td_customer_email : string;
  td_source : string;
  td_created_at : string;
  td_email_id : string;
  td_thread_id : string;
  td_ai_analysis : AnalysisSummary
}.

(** The two kinds of rows written to [support_interactions]. *)
Record ProcessedRow : Type := {
  pr_id : string;
  pr_email_id : string;
  pr_sender_email : string;
  pr_subject : string;
  pr_category : json;
  pr_priority : json;
  pr_sentiment : json;
  pr_confidence : pyfloat;
  pr_ticket_created : bool;
  pr_ticket_id : option string;
  pr_requires_human : json;
  pr_created_at : string;
  pr_keywords : json;
  pr_thread_id : string
}.

Record SentRow : Type := {
  sn_id : string;
  sn_recipient_email : string;
  sn_subject : string;
  sn_message_id : string;
  sn_thread_id : string;
  sn_source : string;
  sn_created_at : string
}.

Inductive Interaction : Type :=
| email_processed (row : ProcessedRow)
| email_sent (row : SentRow).

Inductive Level : Type := INFO | WARNING | ERROR.

(** A request made to the outside, whatever its outcome. *)
Inductive Call : Type :=
| InvokeModel (prompt : string)
| CreateEmbedding (text : string)
| MatchKnowledgeBase (embedding : list Q) (threshold : Q) (limit : Z)
| GmailList (query : string)
| GmailSend (data : EmailData)
| GmailModify (email_id : option string)
| InsertTicket (row : TicketData)
| InsertInteraction (row : Interaction)
| Uuid4
| UtcNow.

(** The service object together with what its collaborators hold:
    [calls] is every request made so far, in order; [outbox],
    [support_tickets], [support_interactions] and [marked_read] are the
    requests that were accepted. *)
Record World : Type := {
  calls : list Call;
  log : list (Level * string);
  processed_emails : gset (option string);
  outbox : list EmailData;
  support_tickets : list TicketData;
  support_interactions : list Interaction;
  marked_read : list (option string)
}.

(** The collaborators.  An answer may depend on the arguments and on the
    moment of the call, the number of requests made before it. *)
Record Env : Type := {
  runtime : Runtime;
  (** [self.bedrock] is not [None] *)
  bedrock : bool;
  (** [invoke_model] followed by the decoding of the reply envelope: the
      text of its first content block *)
  invoke_model : nat -> string -> result string;
  (** [openai_client.embeddings.create(...).data[0].embedding] *)
  embeddings_create : nat -> string -> result (list Q);
  (** [client.rpc("match_knowledge_base", ...).execute().data] *)
  match_knowledge_base : nat -> list Q -> Q -> Z -> result (option (list Candidate));
  (** the inbox: [messages().list], [get] and [_parse_email_message] *)
  gmail_list : nat -> string -> result (list Email);
  gmail_send : nat -> EmailData -> result SendResult;
  gmail_modify : nat -> option string -> result unit;
  tickets_insert : nat -> TicketData -> result unit;
  interactions_insert : nat -> Interaction -> result unit;
  uuid4 : nat -> string;
  utcnow : nat -> string
}.

(** Coroutines: a result and the world they leave. *)
Definition M (A : Type) : Type := World -> result A * World.

Definition ret {A} (a : A) : M A := fun w => (Ok a, w).

Definition raise {A} (e : exn) : M A := fun w => (Raise e, w).

Definition bind {A B} (m : M A) (k : A -> M B) : M B :=
  fun w =>
    match m w with
    | (Ok a, w') => k a w'
    | (Raise e, w') => (Raise e, w')
    end.

(** [try: m  except Exception as e: handler e] *)
Definition try_except {A} (m : M A) (handler : exn -> M A) : M A :=
  fun w =>
    match m w with
    | (Ok a, w') => (Ok a, w')
    | (Raise e, w') => handler e w'
    end.

Definition lift {A} (r : result A) : M A := fun w => (r, w).

Notation "x <- m ; k" := (bind m (fun x => k))
  (at level 20, m at level 100, k at level 200, only parsing).
Notation "m ;;; k" := (bind m (fun _ => k))
  (at level 100, k at level 200, right associativity, only parsing).

(** The same sequencing on bare results. *)
Definition rbind {A B} (r : result A) (k : A -> result B) : result B :=
  match r with
  | Ok a => k a
  | Raise e => Raise e
  end.

Notation "x <-- r ; k" := (rbind r (fun x => k))
  (at level 20, r at level 100, k at level 200, only parsing).

Definition set_calls (c : list Call) (w : World) : World :=
  {| calls := c; log := log w;
     processed_emails := processed_emails w; outbox := outbox w;
     support_tickets := support_tickets w;
     support_interactions := support_interactions w;
     marked_read := marked_read w |}.

Definition set_log (l : list (Level * string)) (w : World) : World :=
  {| calls := calls w; log := l;
     processed_emails := processed_emails w; outbox := outbox w;
     support_tickets := support_tickets w;
     support_interactions := support_interactions w;
     marked_read := marked_read w |}.

Definition set_processed_emails (s : gset (option string)) (w : World) : World :=
  {| calls := calls w; log := log w;
     processed_emails := s; outbox := outbox w;
     support_tickets := support_tickets w;
     support_interactions := support_interactions w;
     marked_read := marked_read w |}.

Definition set_outbox (o : list EmailData) (w : World) : World :=
  {| calls := calls w; log := log w;
     processed_emails := processed_emails w; outbox := o;
     support_tickets := support_tickets w;
     support_interactions := support_interactions w;
     marked_read := marked_read w |}.

Definition set_support_tickets (t : list TicketData) (w : World) : World :=
  {| calls := calls w; log := log w;
     processed_emails := processed_emails w; outbox := outbox w;
     support_tickets := t;
     support_interactions := support_interactions w;
     marked_read := marked_read w |}.

Definition set_support_interactions (i : list Interaction) (w : World) : World :=
  {| calls := calls w; log := log w;
     processed_emails := processed_emails w; outbox := outbox w;
     support_tickets := support_tickets w;
     support_interactions := i;
     marked_read := marked_read w |}.

Definition set_marked_read (r : list (option string)) (w : World) : World :=
  {| calls := calls w; log := log w;
     processed_emails := processed_emails w; outbox := outbox w;
     support_tickets := support_tickets w;
     support_interactions := support_interactions w;
     marked_read := r |}.

(** [logger.info], [logger.warning], [logger.error] *)
Definition logger (lvl : Level) (msg : string) : M unit :=
  fun w => (Ok tt, set_log (log w ++ [(lvl, msg)]) w).

(** One request to the outside: it is recorded, the collaborator answers
    for the current moment, and [commit] stores what an accepted request
    leaves behind. *)
Definition call {A} (c : Call) (answer : nat -> result A)
    (commit : A -> World -> World) : M A :=
  fun w =>
    let w' := set_calls (calls w ++ [c]) w in
    match answer (length (calls w)) with
    | Ok a => (Ok a, commit a w')
    | Raise e => (Raise e, w')
    end.

Definition no_commit {A} (_ : A) (w : World) : World := w.

(** [for x in l: body x] *)
Fixpoint for_each {A} (l : list A) (body : A -> M unit) : M unit :=
  match l with
  | [] => ret tt
  | x :: rest => body x ;;; for_each rest body
  end.

(* ===================================================================== *)
(** ** The inference-backed classifier ([bedrock_ai_processor.py]) *)
(* ===================================================================== *)

Module Bedrock.

(** The dataclass checks nothing: a field holds whatever the decoded
    reply held under its key. *)
Record EmailAnalysis : Type := {
  category : json;
  priority : json;
  sentiment : json;
  intent : json;
  confidence : pyfloat;
  keywords : json;
  requires_human : json;
  suggested_response : json;
  ticket_needed : json;
  reasoning : json
}.

Definition _fallback_analysis (email_content subject : string) : EmailAnalysis :=
  {| category := JStr "general";
     priority := JStr "medium";
     sentiment := JStr "neutral";
     intent := JStr "support_request";
     confidence := Finite (5 # 10);
     keywords := JList [];
     requires_human := JBool true;
     suggested_response := JNull;
     ticket_needed := JBool true;
     reasoning := JStr "Fallback analysis - AI unavailable" |}.

(** The fixed fail-safe analysis of the contract. *)
Definition is_fail_safe (a : EmailAnalysis) : Prop :=
  category a = JStr "general" /\ priority a = JStr "medium"
  /\ sentiment a = JStr "neutral" /\ confidence a = Finite (5 # 10)
  /\ requires_human a = JBool true /\ ticket_needed a = JBool true.

Definition _create_analysis_prompt (email_content subject sender : string) : string :=
"
You are an expert customer support AI analyzing incoming emails. Analyze this email and provide a structured response.

EMAIL DETAILS:
Subject: " +:+ subject +:+ "
From: " +:+ sender +:+ "
Content: " +:+ email_content +:+ "

ANALYSIS REQUIRED:
1. Category (technical, billing, account, general, complaint, feature_request)
2. Priority (high, medium, low)
3. Sentiment (positive, negative, neutral)
4. Intent (question, support_request, complaint, refund_request, information)
5. Confidence (0.0-1.0)
6. Keywords (5-10 important words)
7. Requires Human (true/false)
8. Ticket Needed (true/false)
9. Reasoning (brief explanation)

RESPONSE FORMAT (JSON):
{
    " +:+ dq +:+ "category" +:+ dq +:+ ": " +:+ dq +:+ "technical|billing|account|general|complaint|feature_request" +:+ dq +:+ ",
    " +:+ dq +:+ "priority" +:+ dq +:+ ": " +:+ dq +:+ "high|medium|low" +:+ dq +:+ ",
    " +:+ dq +:+ "sentiment" +:+ dq +:+ ": " +:+ dq +:+ "positive|negative|neutral" +:+ dq +:+ ", 
    " +:+ dq +:+ "intent" +:+ dq +:+ ": " +:+ dq +:+ "question|support_request|complaint|refund_request|information" +:+ dq +:+ ",
    " +:+ dq +:+ "confidence" +:+ dq +:+ ": 0.85,
    " +:+ dq +:+ "keywords" +:+ dq +:+ ": [" +:+ dq +:+ "keyword1" +:+ dq +:+ ", " +:+ dq +:+ "keyword2" +:+ dq +:+ ", " +:+ dq +:+ "keyword3" +:+ dq +:+ "],
    " +:+ dq +:+ "requires_human" +:+ dq +:+ ": false,
    " +:+ dq +:+ "ticket_needed" +:+ dq +:+ ": true,
    " +:+ dq +:+ "reasoning" +:+ dq +:+ ": " +:+ dq +:+ "Brief explanation of analysis" +:+ dq +:+ "
}

GUIDELINES:
- High priority: urgent, critical, system down, security issues
- Requires human: complex technical issues, billing disputes, complaints, legal matters
- Ticket needed: technical problems, account issues, anything requiring follow-up
- Be accurate and concise in your analysis
".

(** [ai_response[json_start:json_end]]: from the first opening brace
    to the last closing one. *)
Definition json_str (ai_response : string) : string :=
  Py.slice ai_response (Py.find "{" ai_response) (Py.rfind "}" ai_response + 1)%Z.

(** The [try] block of [_parse_ai_analysis]. *)
Definition parse_body (rt : Runtime) (ai_response : string) : result EmailAnalysis :=
  let json_start := Py.find "{" ai_response in
  let json_end := (Py.rfind "}" ai_response + 1)%Z in
  if (json_start =? -1)%Z || (json_end =? 0)%Z
  then Raise (ValueError "No JSON found in AI response")
  else
    analysis_data <-- json_loads rt (json_str ai_response) ;
    category <-- Value.get analysis_data "category" (JStr "general") ;
    priority <-- Value.get analysis_data "priority" (JStr "medium") ;
    sentiment <-- Value.get analysis_data "sentiment" (JStr "neutral") ;
    intent <-- Value.get analysis_data "intent" (JStr "support_request") ;
    confidence_field <-- Value.get analysis_data "confidence" (JFloat (Finite (7 # 10))) ;
    confidence <-- py_float rt confidence_field ;
    keywords <-- Value.get analysis_data "keywords" (JList []) ;
    requires_human <-- Value.get analysis_data "requires_human" (JBool false) ;
    ticket_needed <-- Value.get analysis_data "ticket_needed" (JBool true) ;
    reasoning <-- Value.get analysis_data "reasoning" (JStr "AI analysis completed") ;
    Ok {| category := category;
          priority := priority;
          sentiment := sentiment;
          intent := intent;
          confidence := confidence;
          keywords := keywords;
          requires_human := requires_human;
          suggested_response := JNull;
          ticket_needed := ticket_needed;
          reasoning := reasoning |}.

(** A reply of the model that has no braces, or whose braces do not
    enclose a JSON text. *)
Definition unparsable (rt : Runtime) (reply : string) : Prop :=
  Py.find "{" reply = (-1)%Z \/ Py.rfind "}" reply = (-1)%Z
  \/ is_ok (json_loads rt (json_str reply)) = false.

Definition _create_response_prompt (rt : Runtime) (analysis : EmailAnalysis)
    (email_content subject : string) (kb_results : list KBResult) : string :=
  let kb_context :=
    match kb_results with
    | [] => EmptyString
    | _ =>
        fold_left
          (fun kb_context result =>
             kb_context +:+ "- " +:+ kb_title result +:+ ": " +:+ kb_content result +:+ "
")
          (firstn 3 kb_results)
          (nl +:+ "KNOWLEDGE BASE RESULTS:" +:+ nl)
    end in
"
You are a professional customer support agent for SuperTickets.AI. Generate a helpful, empathetic response to this customer email.

CUSTOMER EMAIL:
Subject: " +:+ subject +:+ "
Content: " +:+ email_content +:+ "

AI ANALYSIS:
Category: " +:+ py_str rt (category analysis) +:+ "
Priority: " +:+ py_str rt (priority analysis) +:+ "
Sentiment: " +:+ py_str rt (sentiment analysis) +:+ "
Intent: " +:+ py_str rt (intent analysis) +:+ "
Reasoning: " +:+ py_str rt (reasoning analysis) +:+ "

" +:+ kb_context +:+ "

RESPONSE GUIDELINES:
1. Be professional, helpful, and empathetic
2. Address the customer's specific concern
3. Use knowledge base information if available
4. If creating a ticket, mention ticket reference
5. Provide clear next steps
6. Match the tone to customer sentiment
7. Keep response concise but complete

RESPONSE TEMPLATE:
- Greeting with acknowledgment
- Address specific issue
- Provide solution or next steps
- Professional closing

Generate a complete email response:
".

(** Nothing in the [try] block of [_format_response] can raise on a
    [str]; its handler is unreachable. *)
Definition _format_response (ai_response : string) (analysis : EmailAnalysis) : string :=
  let response := Py.strip ai_response in
  let response :=
    if Value.truthy (ticket_needed analysis)
    then response +:+ nl +:+ nl +:+ "A support ticket has been created for your request. You'll receive updates as we work on your issue."
    else response in
  response +:+ nl +:+ nl +:+ signature.

Definition _fallback_response (rt : Runtime) (analysis : EmailAnalysis) : string :=
"Hello,

Thank you for contacting SuperTickets.AI support. We've received your " +:+ py_str rt (category analysis) +:+ " inquiry and our team will review it shortly.

" +:+ (if Value.truthy (ticket_needed analysis) then "A support ticket has been created and " else EmptyString) +:+ "You can expect a response within 24 hours.

If you have any urgent concerns, please don't hesitate to contact us directly.

" +:+ signature.

Definition search_prompt (query : string) : string :=
"
Analyze this customer query and generate 3-5 relevant search terms for a knowledge base:

Customer Query: " +:+ query +:+ "

Generate search terms that would find relevant solutions:
- Focus on key technical terms
- Include synonyms and variations
- Consider common support categories

Return only the search terms, one per line:
".

Section Processor.

Variable env : Env.

Definition _call_bedrock_ai (prompt : string) : M string :=
  try_except
    (if bedrock env
     then call (InvokeModel prompt) (fun now => invoke_model env now prompt) no_commit
     else raise (AttributeError "'NoneType' object has no attribute 'invoke_model'"))
    (fun e =>
       logger ERROR ("Bedrock API call failed: " +:+ exn_message e) ;;;
       raise e).

Definition _parse_ai_analysis (ai_response : string) : M EmailAnalysis :=
  try_except
    (lift (parse_body (runtime env) ai_response))
    (fun e =>
       logger ERROR ("Failed to parse AI analysis: " +:+ exn_message e) ;;;
       ret (_fallback_analysis "" "")).

Definition analyze_email (email_content subject sender : string) : M EmailAnalysis :=
  try_except
    (if negb (bedrock env)
     then ret (_fallback_analysis email_content subject)
     else
       let analysis_prompt := _create_analysis_prompt email_content subject sender in
       analysis_result <- _call_bedrock_ai analysis_prompt ;
       _parse_ai_analysis analysis_result)
    (fun e =>
       logger ERROR ("AI email analysis failed: " +:+ exn_message e) ;;;
       ret (_fallback_analysis email_content subject)).

Definition generate_response (analysis : EmailAnalysis)
    (email_content subject : string) (kb_results : list KBResult) : M string :=
  try_except
    (if negb (bedrock env)
     then ret (_fallback_response (runtime env) analysis)
     else
       let response_prompt :=
         _create_response_prompt (runtime env) analysis email_content subject kb_results in
       ai_response <- _call_bedrock_ai response_prompt ;
       ret (_format_response ai_response analysis))
    (fun e =>
       logger ERROR ("AI response generation failed: " +:+ exn_message e) ;;;
       ret (_fallback_response (runtime env) analysis)).

Definition search_knowledge_base_ai (query : string) : M (list KBResult) :=
  try_except
    (if negb (bedrock env)
     then ret []
     else
       ai_search_terms <- _call_bedrock_ai (search_prompt query) ;
       let mock_results :=
         [ {| kb_title := "Common Solutions";
              kb_content := "Based on your query about '" +:+ query
                            +:+ "', here are some common solutions...";
              kb_similarity := (8 # 10)%Q |} ] in
       ret mock_results)
    (fun e =>
       logger ERROR ("AI KB search failed: " +:+ exn_message e) ;;;
       ret []).

End Processor.

(** The ways the [try] block of [analyze_email] fails in world [w]:
    there is no client, the call to the model raises, or its reply
    does not parse. *)
Definition internal_failure (env : Env) (w : World)
    (email_content subject sender : string) : Prop :=
  let answer :=
    invoke_model env (length (calls w))
                 (_create_analysis_prompt email_content subject sender) in
  bedrock env = false
  \/ is_ok answer = false
  \/ exists reply, answer = Ok reply /\ is_ok (parse_body (runtime env) reply) = false.

End Bedrock.

(* ===================================================================== *)
(** ** A reference runtime, for running the model on concrete inputs *)
(* ===================================================================== *)

(** The theorems below hold for every [Runtime].  To evaluate the model
    on a given mail or model reply one needs a particular one: [Ref]
    decodes the JSON texts used in the examples the way [json.loads]
    does.  It covers objects, arrays, strings without escapes, [null],
    [true], [false], [NaN], [Infinity] and decimal numbers without
    exponent, and rejects every other text. *)
Module Ref.

Definition is_ws (c : ascii) : bool :=
  (Py.code c =? 32)%nat || (Py.code c =? 9)%nat
  || (Py.code c =? 10)%nat || (Py.code c =? 13)%nat.

Fixpoint skip_ws (s : string) : string :=
  match s with
  | String c s' => if is_ws c then skip_ws s' else s
  | EmptyString => EmptyString
  end.

(** [strip_prefix p s]: the rest of [s] after [p]. *)
Fixpoint strip_prefix (p s : string) : option string :=
  match p, s with
  | EmptyString, _ => Some s
  | String a p', String b s' => if Ascii.eqb a b then strip_prefix p' s' else None
  | String _ _, EmptyString => None
  end.

Definition digit_value (c : ascii) : Z := Z.of_nat (Py.code c - 48).

(** Reads a run of digits: its value, its length and the rest. *)
Fixpoint digits (acc : Z) (len : nat) (s : string) : Z * nat * string :=
  match s with
  | String c s' =>
      if Py.is_digit c then digits (acc * 10 + digit_value c)%Z (S len) s'
      else (acc, len, s)
  | EmptyString => (acc, len, s)
  end.

(** [-? int frac?] *)
Definition number (s : string) : option (json * string) :=
  let '(negative, s1) :=
    match s with
    | String "-"%char r => (true, r)
    | _ => (false, s)
    end in
  let sign (z : Z) : Z := if negative then (- z)%Z else z in
  let '(int_part, int_len, s2) := digits 0 0 s1 in
  let leading_zero :=
    match s1 with
    | String "0"%char _ => (1 <? int_len)%nat
    | _ => false
    end in
  if (int_len =? 0)%nat || leading_zero then None
  else
    match s2 with
    | String "."%char s3 =>
        let '(frac_part, frac_len, s4) := digits 0 0 s3 in
        if (frac_len =? 0)%nat then None
        else
          let scale := (10 ^ Z.of_nat frac_len)%Z in
          Some (JFloat (Finite (Qmake (sign (int_part * scale + frac_part)%Z)
                                      (Z.to_pos scale))), s4)
    | _ => Some (JInt (sign int_part), s2)
    end.

(** The characters of a string literal up to its closing quote. *)
Fixpoint string_body (acc : list ascii) (s : string) : option (string * string) :=
  match s with
  | EmptyString => None
  | String c s' =>
      if (Py.code c =? 34)%nat then Some (string_of_list_ascii (rev acc), s')
      else if (Py.code c =? 92)%nat || (Py.code c <? 32)%nat then None
      else string_body (c :: acc) s'
  end.

(** [d[k] = v] on a dict kept as its list of items. *)
Fixpoint dict_set (k : string) (v : json) (items : list (string * json))
  : list (string * json) :=
  match items with
  | [] => [(k, v)]
  | (k', v') :: rest =>
      if String.eqb k k' then (k, v) :: rest else (k', v') :: dict_set k v rest
  end.

Definition literals : list (string * json) :=
  [ ("null", JNull); ("true", JBool true); ("false", JBool false);
    ("NaN", JFloat NaN); ("Infinity", JFloat (Infinity false));
    ("-Infinity", JFloat (Infinity true)) ].

Fixpoint literal (table : list (string * json)) (s : string) : option (json * string) :=
  match table with
  | [] => None
  | (name, v) :: rest =>
      match strip_prefix name s with
      | Some s' => Some (v, s')
      | None => literal rest s
      end
  end.

Fixpoint value (fuel : nat) (s : string) : option (json * string) :=
  match fuel with
  | O => None
  | S fuel' =>
      match skip_ws s with
      | String c rest =>
          if (Py.code c =? 123)%nat then
            match skip_ws rest with
            | String "}"%char r => Some (JDict [], r)
            | _ => members fuel' [] rest
            end
          else if (Py.code c =? 91)%nat then
            match skip_ws rest with
            | String "]"%char r => Some (JList [], r)
            | _ => elements fuel' [] rest
            end
          else if (Py.code c =? 34)%nat then
            match string_body [] rest with
            | Some (str, r) => Some (JStr str, r)
            | None => None
            end
          else
            match literal literals (String c rest) with
            | Some r => Some r
            | None => number (String c rest)
            end
      | EmptyString => None
      end
  end
with members (fuel : nat) (acc : list (string * json)) (s : string)
  : option (json * string) :=
  match fuel with
  | O => None
  | S fuel' =>
      match skip_ws s with
      | String c rest =>
          if (Py.code c =? 34)%nat then
            match string_body [] rest with
            | Some (key, r) =>
                match skip_ws r with
                | String ":"%char r1 =>
                    match value fuel' r1 with
                    | Some (v, r2) =>
                        match skip_ws r2 with
                        | String ","%char r3 => members fuel' (dict_set key v acc) r3
                        | String "}"%char r3 => Some (JDict (dict_set key v acc), r3)
                        | _ => None
                        end
                    | None => None
                    end
                | _ => None
                end
            | None => None
            end
          else None
      | EmptyString => None
      end
  end
with elements (fuel : nat) (acc : list json) (s : string)
  : option (json * string) :=
  match fuel with
  | O => None
  | S fuel' =>
      match value fuel' s with
      | Some (v, r) =>
          match skip_ws r with
          | String ","%char r1 => elements fuel' (acc ++ [v]) r1
          | String "]"%char r1 => Some (JList (acc ++ [v]), r1)
          | _ => None
          end
      | None => None
      end
  end.

Definition json_loads (s : string) : result json :=
  match value (S (String.length s)) s with
  | Some (v, rest) =>
      match skip_ws rest with
      | EmptyString => Ok v
      | _ => Raise (JSONDecodeError "Extra data")
      end
  | None => Raise (JSONDecodeError "Expecting value")
  end.

(** [float(s)] on a decimal numeral. *)
Definition float_of_str (s : string) : result pyfloat :=
  match number (Py.strip s) with
  | Some (JInt n, EmptyString) => Ok (Finite (inject_Z n))
  | Some (JFloat x, EmptyString) => Ok x
  | _ => Raise (ValueError "could not convert string to float")
  end.

(** [str(v)] for the values a reply holds in a text field: a string is
    itself; [None], booleans and integers print as in Python.  Floats
    and containers are shown by the name of their type only. *)
Definition py_str (v : json) : string :=
  match v with
  | JStr s => s
  | JNull => "None"
  | JBool true => "True"
  | JBool false => "False"
  | JInt n => Py.str_of_int n
  | JFloat _ => "<float>"
  | JList _ => "<list>"
  | JDict _ => "<dict>"
  end.

(** One iteration order of [set(l)]: first occurrences, in order. *)
Fixpoint set_order (l : list string) : list string :=
  match l with
  | [] => []
  | x :: rest => x :: List.filter (fun y => negb (String.eqb x y)) (set_order rest)
  end.

Definition runtime : Runtime :=
  Build_Runtime json_loads float_of_str py_str set_order.

End Ref.

(* ===================================================================== *)
(** ** The knowledge matcher ([embedding_search.py]) *)
(* ===================================================================== *)

Module Matcher.

(** [x.get("similarity_score", 0)], the sort key. *)
Definition score (c : Candidate) : Q :=
  match c_similarity_score c with
  | Some q => q
  | None => 0
  end.

(** [r.get("category") == category_filter] *)
Definition category_is (category_filter : string) (r : Candidate) : bool :=
  match c_category r with
  | Some c => String.eqb c category_filter
  | None => false
  end.

(** The test [if category_filter:]: the argument is neither [None] nor
    the empty string. *)
Definition given (category_filter : option string) : bool :=
  match category_filter with
  | Some f => negb (String.eqb f "")
  | None => false
  end.

(** [results.sort(key=score, reverse=True)].  The sort of Python is
    stable, also when reversed: rows come out by decreasing key, rows
    with equal keys in their original order.  [insert_desc x l] puts
    [x], which stood before every row of [l], in its place. *)
Fixpoint insert_desc (x : Candidate) (l : list Candidate) : list Candidate :=
  match l with
  | [] => [x]
  | y :: rest =>
      if Qle_bool (score y) (score x) then x :: y :: rest
      else y :: insert_desc x rest
  end.

Fixpoint sort_desc (l : list Candidate) : list Candidate :=
  match l with
  | [] => []
  | x :: rest => insert_desc x (sort_desc rest)
  end.

(** Best similarity first: each row scores at least as much as every
    row after it. *)
Definition non_increasing (l : list Candidate) : Prop :=
  StronglySorted (fun a b => (score b <= score a)%Q) l.

(** The rows a successful answer of the store holds:
    [result.data if result.data else []]. *)
Definition rows_of (data : option (list Candidate)) : list Candidate :=
  match data with
  | Some (r :: rest) => r :: rest
  | _ => []
  end.

(** The post-filter of [search]. *)
Definition post_filter (category_filter : option string) (results : list Candidate)
  : list Candidate :=
  match category_filter with
  | Some f =>
      if given category_filter then List.filter (category_is f) results
      else results
  | None => results
  end.

Section Search.

Variable env : Env.

Definition create_embedding (text : string) : M (list Q) :=
  try_except
    (call (CreateEmbedding text) (fun now => embeddings_create env now text) no_commit)
    (fun e =>
       logger ERROR ("Failed to create embedding: " +:+ exn_message e) ;;;
       raise e).

(** [SupabaseClient.search_knowledge_base] *)
Definition search_knowledge_base (embedding : list Q) (threshold : Q) (limit : Z)
  : M (list Candidate) :=
  try_except
    (data <- call (MatchKnowledgeBase embedding threshold limit)
                  (fun now => match_knowledge_base env now embedding threshold limit)
                  no_commit ;
     ret (rows_of data))
    (fun e =>
       logger ERROR ("Knowledge base search failed: " +:+ exn_message e) ;;;
       raise e).

Definition search (query : string) (threshold : Q) (limit : Z)
    (category_filter : option string) : M (list Candidate) :=
  try_except
    (query_embedding <- create_embedding query ;
     results <- search_knowledge_base query_embedding threshold limit ;
     let results := post_filter category_filter results in
     let results := sort_desc results in
     logger INFO ("Vector search completed: "
                  +:+ Py.str_of_int (Z.of_nat (length results)) +:+ " results") ;;;
     ret results)
    (fun e =>
       logger ERROR ("Vector search failed: " +:+ exn_message e) ;;;
       raise e).

End Search.

End Matcher.

(* ===================================================================== *)
(** ** The automation loop ([email_automation_service.py]) *)
(* ===================================================================== *)

Module Automation.

(** The group of the first match of [<(.+?)>]: after a [<], one
    character that is not a newline, then as few more as reach a [>]. *)
Fixpoint lazy_group (acc : list ascii) (s : string) : option string :=
  match s with
  | EmptyString => None
  | String c s' =>
      if (Py.code c =? 62)%nat then Some (string_of_list_ascii (rev acc))
      else if (Py.code c =? 10)%nat then None
      else lazy_group (c :: acc) s'
  end.

Definition group_after_lt (s : string) : option string :=
  match s with
  | String c s' => if (Py.code c =? 10)%nat then None else lazy_group [c] s'
  | EmptyString => None
  end.

Fixpoint search_angle (s : string) : option string :=
  match s with
  | EmptyString => None
  | String c s' =>
      if (Py.code c =? 60)%nat then
        match group_after_lt s' with
        | Some g => Some g
        | None => search_angle s'
        end
      else search_angle s'
  end.

Definition _extract_email_address (sender : string) : string :=
  match search_angle sender with
  | Some address => address
  | None => if Py.contains "@" sender then Py.strip sender else sender
  end.

(** How an optional id prints inside an f-string. *)
Definition str_of_id (email_id : option string) : string :=
  match email_id with
  | Some i => i
  | None => "None"
  end.

Section Service.

Variable env : Env.

(** [str(uuid.uuid4())] *)
Definition new_uuid : M string :=
  call Uuid4 (fun now => Ok (uuid4 env now)) no_commit.

(** [datetime.utcnow().isoformat()] *)
Definition utcnow_iso : M string :=
  call UtcNow (fun now => Ok (utcnow env now)) no_commit.

(** [GmailClient.send_email] *)
Definition send_email (email_data : EmailData) : M SendResult :=
  try_except
    (result <- call (GmailSend email_data)
                    (fun now => gmail_send env now email_data)
                    (fun _ w => set_outbox (outbox w ++ [email_data]) w) ;
     logger INFO ("Email sent successfully: " +:+ sr_message_id result) ;;;
     ret result)
    (fun e =>
       logger ERROR ("Failed to send email: " +:+ exn_message e) ;;;
       raise e).

Definition _fetch_emails (query : string) : M (list Email) :=
  try_except
    (call (GmailList query) (fun now => gmail_list env now query) no_commit)
    (fun e =>
       logger ERROR ("Failed to fetch emails: " +:+ exn_message e) ;;;
       ret []).

Definition _create_support_ticket (email : Email) (analysis : Bedrock.EmailAnalysis)
  : M (option string) :=
  try_except
    (id <- new_uuid ;
     title <- lift (getitem email "subject") ;
     body <- lift (getitem email "body") ;
     sender <- lift (getitem email "sender") ;
     created_at <- utcnow_iso ;
     email_id <- lift (getitem email "id") ;
     thread_id <- lift (getitem email "thread_id") ;
     let ticket_data :=
       {| td_id := id;
          td_title := title;
          td_description := Py.take 1000 body;
          td_priority := Bedrock.priority analysis;
          td_category := Bedrock.category analysis;
          td_status := "open";
          td_customer_email := _extract_email_address sender;
          td_source := "email_automation";
          td_created_at := created_at;
          td_email_id := email_id;
          td_thread_id := thread_id;
          td_ai_analysis :=
            {| as_category := Bedrock.category analysis;
               as_priority := Bedrock.priority analysis;
               as_sentiment := Bedrock.sentiment analysis;
               as_confidence := Bedrock.confidence analysis;
               as_keywords := Bedrock.keywords analysis |} |} in
     call (InsertTicket ticket_data)
          (fun now => tickets_insert env now ticket_data)
          (fun _ w => set_support_tickets (support_tickets w ++ [ticket_data]) w) ;;;
     logger INFO ("Support ticket created: " +:+ id) ;;;
     ret (Some id))
    (fun e =>
       logger ERROR ("Failed to create support ticket: " +:+ exn_message e) ;;;
       ret None).

Definition insert_interaction (row : Interaction) : M unit :=
  call (InsertInteraction row)
       (fun now => interactions_insert env now row)
       (fun _ w => set_support_interactions (support_interactions w ++ [row]) w).

Definition _log_email_sent (email_data : EmailData) (send_result : SendResult) : M unit :=
  try_except
    (id <- new_uuid ;
     created_at <- utcnow_iso ;
     let log_data :=
       {| sn_id := id;
          sn_recipient_email := ed_to email_data;
          sn_subject := ed_subject email_data;
          sn_message_id := sr_message_id send_result;
          sn_thread_id := sr_thread_id send_result;
          sn_source := "automation";
          sn_created_at := created_at |} in
     insert_interaction (email_sent log_data))
    (fun e => logger ERROR ("Failed to log sent email: " +:+ exn_message e)).

(** The text handed to the outbox: the composed reply, followed by
    the reference to the ticket if one was created. *)
Definition with_ticket_reference (response : string) (ticket_id : option string)
  : string :=
  match ticket_id with
  | Some id =>
      if negb (String.eqb id "")
      then response +:+ nl +:+ nl +:+ "Ticket Reference: #" +:+ Py.take 8 id
      else response
  | None => response
  end.

Definition _send_automated_response (email : Email) (response : string)
    (analysis : Bedrock.EmailAnalysis) (ticket_id : option string) : M unit :=
  try_except
    (sender <- lift (getitem email "sender") ;
     let sender_email := _extract_email_address sender in
     subject <- lift (getitem email "subject") ;
     let response_subject := "Re: " +:+ subject in
     let response := with_ticket_reference response ticket_id in
     thread_id <- lift (getitem email "thread_id") ;
     let email_data :=
       {| ed_to := sender_email;
          ed_subject := response_subject;
          ed_body := response;
          ed_thread_id := thread_id |} in
     send_result <- send_email email_data ;
     _log_email_sent email_data send_result ;;;
     logger INFO ("Automated response sent to " +:+ sender_email))
    (fun e => logger ERROR ("Failed to send automated response: " +:+ exn_message e)).

Definition _mark_email_as_read (email_id : option string) : M unit :=
  try_except
    (call (GmailModify email_id)
          (fun now => gmail_modify env now email_id)
          (fun _ w => set_marked_read (marked_read w ++ [email_id]) w))
    (fun e => logger ERROR ("Failed to mark email as read: " +:+ exn_message e)).

Definition _log_email_processing (email : Email) (analysis : Bedrock.EmailAnalysis)
    (ticket_id : option string) : M unit :=
  try_except
    (id <- new_uuid ;
     email_id <- lift (getitem email "id") ;
     sender <- lift (getitem email "sender") ;
     subject <- lift (getitem email "subject") ;
     created_at <- utcnow_iso ;
     thread_id <- lift (getitem email "thread_id") ;
     let log_data :=
       {| pr_id := id;
          pr_email_id := email_id;
          pr_sender_email := _extract_email_address sender;
          pr_subject := subject;
          pr_category := Bedrock.category analysis;
          pr_priority := Bedrock.priority analysis;
          pr_sentiment := Bedrock.sentiment analysis;
          pr_confidence := Bedrock.confidence analysis;
          pr_ticket_created := match ticket_id with Some _ => true | None => false end;
          pr_ticket_id := ticket_id;
          pr_requires_human := Bedrock.requires_human analysis;
          pr_created_at := created_at;
          pr_keywords := Bedrock.keywords analysis;
          pr_thread_id := thread_id |} in
     insert_interaction (email_processed log_data))
    (fun e => logger ERROR ("Failed to log email processing: " +:+ exn_message e)).

(** The mail the reply step builds for a message from [sender] with
    the given subject and thread. *)
Definition reply_mail (sender subject thread response : string)
    (ticket_id : option string) : EmailData :=
  {| ed_to := _extract_email_address sender;
     ed_subject := "Re: " +:+ subject;
     ed_body := with_ticket_reference response ticket_id;
     ed_thread_id := thread |}.

(** The row the log step builds in world [w] for the message [id]. *)
Definition processed_row (id thread subject sender : string)
    (analysis : Bedrock.EmailAnalysis) (ticket_id : option string) (w : World)
  : ProcessedRow :=
  {| pr_id := uuid4 env (length (calls w));
     pr_email_id := id;
     pr_sender_email := _extract_email_address sender;
     pr_subject := subject;
     pr_category := Bedrock.category analysis;
     pr_priority := Bedrock.priority analysis;
     pr_sentiment := Bedrock.sentiment analysis;
     pr_confidence := Bedrock.confidence analysis;
     pr_ticket_created := match ticket_id with Some _ => true | None => false end;
     pr_ticket_id := ticket_id;
     pr_requires_human := Bedrock.requires_human analysis;
     pr_created_at := utcnow env (S (length (calls w)));
     pr_keywords := Bedrock.keywords analysis;
     pr_thread_id := thread |}.

(** The condition of step 4: [not analysis.requires_human or kb_results]. *)
Definition reply_gate (analysis : Bedrock.EmailAnalysis) (kb_results : list KBResult)
  : bool :=
  negb (Value.truthy (Bedrock.requires_human analysis))
  || match kb_results with [] => false | _ => true end.

(** [_process_single_email], steps 1 and 2: analysis and knowledge
    base. *)
Definition classify_and_search (email : Email)
  : M (Bedrock.EmailAnalysis * list KBResult) :=
  subject <- lift (getitem email "subject") ;
  sender <- lift (getitem email "sender") ;
  logger INFO ("Processing email: " +:+ subject +:+ " from " +:+ sender) ;;;
  body <- lift (getitem email "body") ;
  analysis <- Bedrock.analyze_email env body subject sender ;
  kb_results <- Bedrock.search_knowledge_base_ai env (subject +:+ " " +:+ body) ;
  ret (analysis, kb_results).

(** [_process_single_email], steps 3 to 6: ticket, reply, log. *)
Definition act (email : Email) (analysis : Bedrock.EmailAnalysis)
    (kb_results : list KBResult) : M unit :=
  ticket_id <- (if Value.truthy (Bedrock.ticket_needed analysis)
                then _create_support_ticket email analysis
                else ret None) ;
  (if reply_gate analysis kb_results
   then
     body <- lift (getitem email "body") ;
     subject <- lift (getitem email "subject") ;
     response <- Bedrock.generate_response env analysis body subject kb_results ;
     _send_automated_response email response analysis ticket_id
   else ret tt) ;;;
  _log_email_processing email analysis ticket_id ;;;
  logger INFO ("Email processed successfully: "
               +:+ py_str (runtime env) (Bedrock.category analysis) +:+ "/"
               +:+ py_str (runtime env) (Bedrock.priority analysis)).

Definition _process_single_email (email : Email) : M unit :=
  try_except
    (found <- classify_and_search email ;
     act email (fst found) (snd found))
    (fun e =>
       logger ERROR ("Failed to process email: " +:+ exn_message e) ;;;
       raise e).

Definition mark_processed (email_id : option string) : M unit :=
  fun w => (Ok tt, set_processed_emails ({[ email_id ]} ∪ processed_emails w) w).

(** The body of the [for] loop of [_process_new_emails]. *)
Definition process_fetched (email : Email) : M unit :=
  let email_id := email !! "id" in
  fun w =>
    if bool_decide (email_id ∈ processed_emails w) then (Ok tt, w)
    else
      try_except
        (_process_single_email email ;;;
         mark_processed email_id ;;;
         _mark_email_as_read email_id)
        (fun e =>
           logger ERROR ("Failed to process email " +:+ str_of_id email_id
                         +:+ ": " +:+ exn_message e))
        w.

Definition _process_new_emails : M unit :=
  try_except
    (let query := "is:unread newer_than:1h" in
     emails <- _fetch_emails query ;
     logger INFO ("Found " +:+ Py.str_of_int (Z.of_nat (length emails))
                  +:+ " unread emails to process") ;;;
     for_each emails process_fetched)
    (fun e => logger ERROR ("Error processing new emails: " +:+ exn_message e)).

(** [get_status()["processed_count"]] *)
Definition processed_count (w : World) : nat := size (processed_emails w).

End Service.

End Automation.

(* ===================================================================== *)
(** ** Scripted collaborators, for running the model *)
(* ===================================================================== *)

Module Script.

(** A world where nothing has happened yet. *)
Definition start : World :=
  {| calls := []; log := []; processed_emails := ∅; outbox := [];
     support_tickets := []; support_interactions := []; marked_read := [] |}.

Definition down {A} : result A := Raise (ServiceError "service unavailable").

(** The model tells the three kinds of prompt apart by their fixed
    headings and answers each kind as scripted. *)
Definition model (analysis terms reply : result string)
    (now : nat) (prompt : string) : result string :=
  if Py.contains "ANALYSIS REQUIRED:" prompt then analysis
  else if Py.contains "Generate search terms" prompt then terms
  else reply.

Definition fresh_uuid (now : nat) : string :=
  "7c9e6679-7425-40de-944b-" +:+ Py.str_of_int (100000000000 + Z.of_nat now)%Z.

(** Collaborators that accept every request, except those switched
    off: [ai] is whether the Bedrock client exists, [replies] what the
    model says when asked, [inbox] what the mailbox lists, and
    [send_ok], [tickets_ok], [log_ok] whether the outbox, the ticket
    table and the interaction log accept what they are given. *)
Definition env (ai : bool) (replies : nat -> string -> result string)
    (inbox : list Email) (rows : list Candidate)
    (send_ok tickets_ok log_ok : bool) : Env :=
  {| runtime := Ref.runtime;
     bedrock := ai;
     invoke_model := replies;
     embeddings_create := fun _ _ => Ok [(1 # 10)%Q; (2 # 10)%Q];
     match_knowledge_base := fun _ _ _ _ => Ok (Some rows);
     gmail_list := fun _ _ => Ok inbox;
     gmail_send := fun _ data =>
       if send_ok
       then Ok {| sr_message_id := "18c2f0a1b2c3d4e5"; sr_thread_id := ed_thread_id data |}
       else down;
     gmail_modify := fun _ _ => Ok tt;
     tickets_insert := fun _ _ => if tickets_ok then Ok tt else down;
     interactions_insert := fun _ _ => if log_ok then Ok tt else down;
     uuid4 := fresh_uuid;
     utcnow := fun _ => "2024-05-01T09:30:00" |}.

(** The same collaborators behind a mailbox that cannot be listed. *)
Definition without_inbox (e : Env) : Env :=
  {| runtime := runtime e;
     bedrock := bedrock e;
     invoke_model := invoke_model e;
     embeddings_create := embeddings_create e;
     match_knowledge_base := match_knowledge_base e;
     gmail_list := fun _ _ => down;
     gmail_send := gmail_send e;
     gmail_modify := gmail_modify e;
     tickets_insert := tickets_insert e;
     interactions_insert := interactions_insert e;
     uuid4 := uuid4 e;
     utcnow := utcnow e |}.

(** A mail as [_parse_email_message] builds it. *)
Definition mail (id thread subject sender body : string) : Email :=
  <[ "id" := id ]> (<[ "thread_id" := thread ]> (<[ "subject" := subject ]>
    (<[ "sender" := sender ]> (<[ "body" := body ]> ∅)))).

Definition outage_mail : Email :=
  mail "18c2f09e5d1a7b33" "18c2f09e5d1a7b33" "System outage"
       "Dana Smith <dana@example.com>" "URGENT: production is down".

Definition row (id category : string) (similarity : Q) : Candidate :=
  {| c_id := id; c_title := "Entry " +:+ id; c_content := "Steps for " +:+ category;
     c_category := Some category; c_similarity_score := Some similarity;
     c_solution_steps := [] |}.

(** Three rows as the store might answer them. *)
Definition store_rows : list Candidate :=
  [ row "1" "billing" (8 # 10); row "2" "authentication" (95 # 100);
    row "3" "billing" (9 # 10) ].

Definition key (name : string) : string := dq +:+ name +:+ dq.

(** Replies of the model used in the examples. *)
Definition overconfident_reply : string :=
  "{" +:+ key "category" +:+ ": " +:+ key "technical" +:+ ", "
      +:+ key "confidence" +:+ ": 1.5}".

Definition high_without_ticket_reply : string :=
  "{" +:+ key "priority" +:+ ": " +:+ key "high" +:+ ", "
      +:+ key "ticket_needed" +:+ ": false}".

Definition high_without_human_reply : string :=
  "{" +:+ key "priority" +:+ ": " +:+ key "high" +:+ "}".

Definition ticket_reply : string :=
  "Here is my analysis: {" +:+ key "category" +:+ ": " +:+ key "technical" +:+ ", "
      +:+ key "priority" +:+ ": " +:+ key "high" +:+ ", "
      +:+ key "requires_human" +:+ ": true, "
      +:+ key "ticket_needed" +:+ ": true}".

End Script.

(* ===================================================================== *)
(** ** Observing a run *)
(* ===================================================================== *)

(** The mails handed to the outbox, accepted or not, among the requests
    [cs]. *)
Fixpoint sent_mails (cs : list Call) : list EmailData :=
  match cs with
  | [] => []
  | GmailSend data :: rest => data :: sent_mails rest
  | _ :: rest => sent_mails rest
  end.

(** [s] ends with [suffix]. *)
Definition ends_with (s suffix : string) : Prop := exists pre, s = pre +:+ suffix.

(** [picked] is the label a table of keywords gives a text by counting
    hits: [default] when no keyword of the table occurs in the text;
    otherwise a label with the most keywords in the text, the first
    such in the table. *)
Definition most_hits (table : list (string * list string))
    (text default picked : string) : Prop :=
  ((forall name kws, In (name, kws) table -> Py.hits kws text = 0%nat) ->
   picked = default)
  /\ ((exists name kws, In (name, kws) table /\ (0 < Py.hits kws text)%nat) ->
      exists before kws after,
        table = (before ++ (picked, kws) :: after)%list
        /\ (0 < Py.hits kws text)%nat
        /\ (forall n k, In (n, k) before -> (Py.hits k text < Py.hits kws text)%nat)
        /\ (forall n k, In (n, k) after -> (Py.hits k text <= Py.hits kws text)%nat)).

(** [part] occurs in [s]. *)
Definition embeds (s part : string) : Prop :=
  exists before after, s = before +:+ part +:+ after.

(** The line that gives the number of a ticket opens with this: it is
    the one [_send_automated_response] adds under "Add ticket reference
    if created". *)
Definition reference_mark : string := "Ticket Reference: #".

(** The line that tells of a ticket opens with this: it is the one
    [_format_response] adds under "Add ticket reference if needed", and
    the one [_fallback_response] puts in its text. *)
Definition ticket_notice : string := "A support ticket has been created".

(** How a line of a reply that refers to a ticket opens. *)
Definition reference_openings : list string := [ticket_notice; reference_mark].

(** A line of [text] opens with [opening], after the line break at the
    position returned. *)
Definition line_opening (opening text : string) : option nat :=
  String.index 0 (nl +:+ opening) text.

(** In [text], a line that refers to a ticket starts before the closing
    signature, the last one of [text], does. *)
Definition reference_before_signature (text : string) : bool :=
  match Py.rindex signature text with
  | Some j =>
      existsb (fun opening =>
                 match line_opening opening text with
                 | Some i => (S i <? j)%nat
                 | None => false
                 end)
              reference_openings
  | None => false
  end.

(** [text] is a composed reply that tells of a ticket: it has a line
    that opens with the notice, and later ends with the signature. *)
Definition notice_then_signature (text : string) : Prop :=
  exists before after,
    text = before +:+ nl +:+ ticket_notice +:+ after +:+ signature.

(** The mail carries the five keys the pipeline reads. *)
Definition carries (email : Email) (id thread subject sender body : string) : Prop :=
  email !! "id" = Some id /\ email !! "thread_id" = Some thread
  /\ email !! "subject" = Some subject /\ email !! "sender" = Some sender
  /\ email !! "body" = Some body.

(** Nothing is ever taken back: requests, log lines, accepted rows and
    the processed set only grow. *)
Record World_le (w w' : World) : Prop := {
  le_calls : calls w `prefix_of` calls w';
  le_log : log w `prefix_of` log w';
  le_processed : processed_emails w ⊆ processed_emails w';
  le_outbox : outbox w `prefix_of` outbox w';
  le_tickets : support_tickets w `prefix_of` support_tickets w';
  le_interactions : support_interactions w `prefix_of` support_interactions w';
  le_read : marked_read w `prefix_of` marked_read w'
}.

Module Run.

(** The coroutine never raises. *)
Definition returns {A} (m : M A) : Prop := forall w, is_ok (fst (m w)) = true.

(** The coroutine only adds to the world. *)
Definition grows {A} (m : M A) : Prop := forall w, World_le w (snd (m w)).

(** The coroutine leaves the observation [obs] as it was. *)
Definition preserves {X A} (obs : World -> X) (m : M A) : Prop :=
  forall w, obs (snd (m w)) = obs w.

(** An observation that requests of the kind [quiet] and log lines do
    not change. *)
Definition ignores {X} (obs : World -> X) (quiet : Call -> bool) : Prop :=
  (forall l w, obs (set_log l w) = obs w)
  /\ (forall c w, quiet c = true -> obs (set_calls (calls w ++ [c]) w) = obs w).

End Run.

(** Kinds of requests. *)
Definition is_model_call (c : Call) : bool :=
  match c with InvokeModel _ => true | _ => false end.

Definition is_clock_call (c : Call) : bool :=
  match c with Uuid4 | UtcNow => true | _ => false end.

Definition is_send (c : Call) : bool :=
  match c with GmailSend _ => true | _ => false end.

Definition is_ticket_insert (c : Call) : bool :=
  match c with InsertTicket _ => true | _ => false end.

Definition is_interaction_insert (c : Call) : bool :=
  match c with InsertInteraction _ => true | _ => false end.

(** The number of requests of a kind made so far. *)
Definition requests (kind : Call -> bool) (w : World) : nat :=
  length (List.filter kind (calls w)).

(** The coroutine makes at most [n] requests of the kind, however it
    ends. *)
Definition asks_at_most {A} (kind : Call -> bool) (n : nat) (m : M A) : Prop :=
  forall w, (requests kind (snd (m w)) <= requests kind w + n)%nat.

(** A text without the character [x]. *)
Definition lacks (x : ascii) (s : string) : Prop :=
  Forall (fun c => c <> x) (list_ascii_of_string s).

(* ===================================================================== *)
(** ** Reading the mailbox ([email_automation_service.py]) *)
(* ===================================================================== *)

(** A message as the mail API returns it is a decoded JSON value, and
    the code reads it with subscripts, [get], [in] and [for]. *)
Module Inbox.

(** [v == s] for a string [s] *)
Definition is_str (v : json) (s : string) : bool :=
  match v with
  | JStr t => String.eqb t s
  | _ => false
  end.

(** [d[k]] for a string [k] *)
Definition getitem (d : json) (k : string) : result json :=
  match d with
  | JDict items =>
      match Value.assoc k items with
      | Some v => Ok v
      | None => Raise (KeyError k)
      end
  | JList _ => Raise (TypeError "list indices must be integers or slices, not str")
  | JStr _ => Raise (TypeError "string indices must be integers, not 'str'")
  | _ => Raise (TypeError "object is not subscriptable")
  end.

(** [k in d] for a string [k] *)
Definition has (d : json) (k : string) : result bool :=
  match d with
  | JDict items =>
      Ok (match Value.assoc k items with Some _ => true | None => false end)
  | JList l => Ok (existsb (fun v => is_str v k) l)
  | JStr s => Ok (Py.contains k s)
  | _ => Raise (TypeError "argument is not iterable")
  end.

(** What [for x in v] runs over. *)
Definition iter (v : json) : result (list json) :=
  match v with
  | JList l => Ok l
  | JDict items => Ok (map (fun kv => JStr (fst kv)) items)
  | JStr s => Ok (map (fun c => JStr (String c EmptyString)) (list_ascii_of_string s))
  | _ => Raise (TypeError "object is not iterable")
  end.

(** [next((h['value'] for h in headers if h['name'] == name), default)] *)
Fixpoint first_header (name : string) (default : json) (headers : list json)
  : result json :=
  match headers with
  | [] => Ok default
  | h :: rest =>
      n <-- getitem h "name" ;
      if is_str n name then getitem h "value"
      else first_header name default rest
  end.

Definition header (headers : json) (name : string) (default : json) : result json :=
  hs <-- iter headers ;
  first_header name default hs.

(** The dict [_parse_email_message] returns. *)
Record Parsed : Type := {
  p_id : json;
  p_thread_id : json;
  p_subject : json;
  p_sender : json;
  p_date : json;
  p_message_id : json;
  p_body : string;
  p_snippet : json;
  p_labels : json
}.

(** The entries of that dict whose value is a string, as the pipeline
    reads them. *)
Definition put (key : string) (v : json) (email : Email) : Email :=
  match v with
  | JStr s => <[ key := s ]> email
  | _ => email
  end.

Definition as_email (p : Parsed) : Email :=
  put "id" (p_id p) (put "thread_id" (p_thread_id p) (put "subject" (p_subject p)
    (put "sender" (p_sender p) (put "date" (p_date p)
      (put "message_id" (p_message_id p) (put "snippet" (p_snippet p)
        (<[ "body" := p_body p ]> ∅))))))).

Section Mailbox.

(** [base64.urlsafe_b64decode(data).decode('utf-8')] on a string *)
Variable b64decode_utf8 : string -> result string.

Definition decode (data : json) : result string :=
  match data with
  | JStr s => b64decode_utf8 s
  | _ => Raise (TypeError "argument should be a bytes-like object or ASCII string")
  end.

(** The data of one part, when the part is plain text and has some. *)
Definition plain_data (part : json) : result (option json) :=
  mime <-- getitem part "mimeType" ;
  if is_str mime "text/plain" then
    body <-- getitem part "body" ;
    data <-- Value.get body "data" (JStr "") ;
    Ok (if Value.truthy data then Some data else None)
  else Ok None.

(** The [for] loop over the parts: the first plain part that has data
    is decoded, and the loop is left. *)
Fixpoint first_plain (parts : list json) : result string :=
  match parts with
  | [] => Ok EmptyString
  | part :: rest =>
      found <-- plain_data part ;
      match found with
      | Some data => decode data
      | None => first_plain rest
      end
  end.

(** The [try] block of [_extract_email_body]. *)
Definition extract_body (payload : json) : result string :=
  multipart <-- has payload "parts" ;
  body <-- (if multipart : bool then
              parts <-- getitem payload "parts" ;
              l <-- iter parts ;
              first_plain l
            else
              found <-- plain_data payload ;
              match found with
              | Some data => decode data
              | None => Ok EmptyString
              end) ;
  Ok (Py.strip body).

Definition _extract_email_body (payload : json) : M string :=
  try_except
    (lift (extract_body payload))
    (fun e =>
       logger ERROR ("Failed to extract email body: " +:+ exn_message e) ;;;
       ret EmptyString).

Definition _parse_email_message (message : json) : M (option Parsed) :=
  try_except
    (payload <- lift (getitem message "payload") ;
     headers <- lift (Value.get payload "headers" (JList [])) ;
     subject <- lift (header headers "Subject" (JStr "No Subject")) ;
     sender <- lift (header headers "From" (JStr "Unknown Sender")) ;
     date <- lift (header headers "Date" (JStr "")) ;
     message_id <- lift (header headers "Message-ID" (JStr "")) ;
     payload <- lift (getitem message "payload") ;
     body <- _extract_email_body payload ;
     id <- lift (getitem message "id") ;
     thread_id <- lift (getitem message "threadId") ;
     snippet <- lift (Value.get message "snippet" (JStr "")) ;
     labels <- lift (Value.get message "labelIds" (JList [])) ;
     ret (Some {| p_id := id;
                  p_thread_id := thread_id;
                  p_subject := subject;
                  p_sender := sender;
                  p_date := date;
                  p_message_id := message_id;
                  p_body := body;
                  p_snippet := snippet;
                  p_labels := labels |}))
    (fun e =>
       logger ERROR ("Failed to parse email message: " +:+ exn_message e) ;;;
       ret None).

(** What [_extract_email_body] and [_parse_email_message] return, apart
    from what they log. *)
Definition body_of (payload : json) : string :=
  match extract_body payload with
  | Ok body => body
  | Raise _ => EmptyString
  end.

Definition parsed (message : json) : option Parsed :=
  match
    (payload <-- getitem message "payload" ;
     headers <-- Value.get payload "headers" (JList []) ;
     subject <-- header headers "Subject" (JStr "No Subject") ;
     sender <-- header headers "From" (JStr "Unknown Sender") ;
     date <-- header headers "Date" (JStr "") ;
     message_id <-- header headers "Message-ID" (JStr "") ;
     id <-- getitem message "id" ;
     thread_id <-- getitem message "threadId" ;
     snippet <-- Value.get message "snippet" (JStr "") ;
     labels <-- Value.get message "labelIds" (JList []) ;
     Ok {| p_id := id;
           p_thread_id := thread_id;
           p_subject := subject;
           p_sender := sender;
           p_date := date;
           p_message_id := message_id;
           p_body := body_of payload;
           p_snippet := snippet;
           p_labels := labels |})
  with
  | Ok p => Some p
  | Raise _ => None
  end.

(** [messages().list(userId='me', q=query, maxResults=10).execute()] and
    [messages().get(userId='me', id=id, format='full').execute()]; both
    only read the mailbox. *)
Variable messages_list : string -> result json.
Variable messages_get : json -> result json.

(** The [for] loop of [_fetch_emails]. *)
Fixpoint fetch_each (messages : list json) (emails : list Parsed) : M (list Parsed) :=
  match messages with
  | [] => ret emails
  | message :: rest =>
      id <- lift (getitem message "id") ;
      msg <- lift (messages_get id) ;
      email_data <- _parse_email_message msg ;
      match email_data with
      | Some email => fetch_each rest (emails ++ [email])
      | None => fetch_each rest emails
      end
  end.

Definition _fetch_emails (query : string) : M (list Parsed) :=
  try_except
    (results <- lift (messages_list query) ;
     messages <- lift (Value.get results "messages" (JList [])) ;
     l <- lift (iter messages) ;
     fetch_each l [])
    (fun e =>
       logger ERROR ("Failed to fetch emails: " +:+ exn_message e) ;;;
       ret []).

End Mailbox.

(** The message listed under [stub] is [msg]. *)
Definition listed (messages_get : json -> result json) (stub msg : json) : Prop :=
  exists id, getitem stub "id" = Ok id /\ messages_get id = Ok msg.

(** A part the loop of [_extract_email_body] passes over: it is not
    plain text, or it is and has no data. *)
Definition passed_over (part : json) : Prop :=
  exists mime,
    getitem part "mimeType" = Ok mime
    /\ (is_str mime "text/plain" = false
        \/ exists body data,
             getitem part "body" = Ok body
             /\ Value.get body "data" (JStr "") = Ok data
             /\ Value.truthy data = false).

(** A plain-text part holding the data [d]. *)
Definition plain_part (part : json) (d : string) : Prop :=
  exists body,
    getitem part "mimeType" = Ok (JStr "text/plain")
    /\ getitem part "body" = Ok body
    /\ Value.get body "data" (JStr "") = Ok (JStr d)
    /\ d <> "".

(** A header as the mail API writes it. *)
Definition header_of (name value : string) : json :=
  JDict [("name", JStr name); ("value", JStr value)].

(** The value of the first header called [name] among headers given
    as pairs, [default] when there is none. *)
Fixpoint header_value (name default : string) (pairs : list (string * string)) : string :=
  match pairs with
  | [] => default
  | (n, v) :: rest => if String.eqb n name then v else header_value name default rest
  end.

Definition headers_of (pairs : list (string * string)) : json :=
  JList (map (fun nv => header_of (fst nv) (snd nv)) pairs).

End Inbox.

(* ===================================================================== *)
(** ** Similar past issues ([embedding_search.py]) *)
(* ===================================================================== *)

Module Similar.

(** A row of the interaction history, as far as [search_similar_issues]
    reads and writes it: the description, [None] when the row has none
    or holds null, and the score the search adds. *)
Record Past : Type := {
  past_id : string;
  past_issue_description : option string;
  past_similarity_score : option Q
}.

(** [interaction.get("issue_description")], when it is true. *)
Definition described (interaction : Past) : option string :=
  match past_issue_description interaction with
  | Some text => if String.eqb text "" then None else Some text
  | None => None
  end.

(** [interaction["similarity_score"] = similarity] *)
Definition with_score (interaction : Past) (similarity : Q) : Past :=
  {| past_id := past_id interaction;
     past_issue_description := past_issue_description interaction;
     past_similarity_score := Some similarity |}.

(** [np.dot] on two vectors of one length. *)
Fixpoint dot (v1 v2 : list Q) : Q :=
  match v1, v2 with
  | x :: r1, y :: r2 => (x * y + dot r1 r2)%Q
  | _, _ => 0%Q
  end.

(** [x["similarity_score"]] for every row, as [sort] computes its keys
    before it moves anything. *)
Fixpoint keys (rows : list Past) : result (list Q) :=
  match rows with
  | [] => Ok []
  | r :: rest =>
      match past_similarity_score r with
      | Some q => ks <-- keys rest ; Ok (q :: ks)
      | None => Raise (KeyError "similarity_score")
      end
  end.

Definition score (r : Past) : Q :=
  match past_similarity_score r with
  | Some q => q
  | None => 0%Q
  end.

(** A stable sort by decreasing score: [insert_desc x l] puts [x],
    which stood before every row of [l], in its place. *)
Fixpoint insert_desc (x : Past) (l : list Past) : list Past :=
  match l with
  | [] => [x]
  | y :: rest =>
      if Qle_bool (score y) (score x) then x :: y :: rest
      else y :: insert_desc x rest
  end.

Fixpoint sort_desc (l : list Past) : list Past :=
  match l with
  | [] => []
  | x :: rest => insert_desc x (sort_desc rest)
  end.

(** [rows.sort(key=lambda x: x["similarity_score"], reverse=True)] *)
Definition sort_by_score (rows : list Past) : result (list Past) :=
  _ <-- keys rows ;
  Ok (sort_desc rows).

(** [l[:limit]] for any integer [limit]: a negative one counts from the
    end. *)
Definition upto {A} (limit : Z) (l : list A) : list A :=
  if (0 <=? limit)%Z then firstn (Z.to_nat limit) l
  else firstn (length l - Z.to_nat (- limit)) l.

Section Search.

Variable env : Env.

(** [np.linalg.norm] *)
Variable norm : list Q -> Q.

(** The query [get_interactions] builds, executed: the rows of one
    customer, newest first. *)
Variable select_interactions : string -> Z -> result (option (list Past)).

(** [SupabaseClient.get_interactions] *)
Definition get_interactions (customer_email : string) (limit : Z) : M (list Past) :=
  try_except
    (data <- lift (select_interactions customer_email limit) ;
     ret (match data with
          | Some (r :: rest) => r :: rest
          | _ => []
          end))
    (fun e =>
       logger ERROR ("Failed to get interactions: " +:+ exn_message e) ;;;
       raise e).

(** [np.dot] refuses two vectors of different lengths; the handler of
    [cosine_similarity] turns that into 0.0. *)
Definition cosine_similarity (vec1 vec2 : list Q) : M Q :=
  try_except
    (if negb (length vec1 =? length vec2)%nat
     then raise (ValueError "shapes not aligned")
     else
       let dot_product := dot vec1 vec2 in
       let norm1 := norm vec1 in
       let norm2 := norm vec2 in
       if Qeq_bool norm1 0 || Qeq_bool norm2 0 then ret 0%Q
       else ret (dot_product / (norm1 * norm2))%Q)
    (fun e =>
       logger ERROR ("Cosine similarity calculation failed: " +:+ exn_message e) ;;;
       ret 0%Q).

(** The [for] loop of [search_similar_issues]. *)
Fixpoint collect (issue_embedding : list Q) (past_interactions similar_issues : list Past)
  : M (list Past) :=
  match past_interactions with
  | [] => ret similar_issues
  | interaction :: rest =>
      match described interaction with
      | Some text =>
          past_embedding <- Matcher.create_embedding env text ;
          similarity <- cosine_similarity issue_embedding past_embedding ;
          if negb (Qle_bool similarity (7 # 10))
          then collect issue_embedding rest
                       (similar_issues ++ [with_score interaction similarity])
          else collect issue_embedding rest similar_issues
      | None => collect issue_embedding rest similar_issues
      end
  end.

Definition search_similar_issues (issue_description customer_email : string) (limit : Z)
  : M (list Past) :=
  try_except
    (issue_embedding <- Matcher.create_embedding env issue_description ;
     past_interactions <- get_interactions customer_email 50 ;
     similar_issues <- collect issue_embedding past_interactions [] ;
     similar_issues <- lift (sort_by_score similar_issues) ;
     ret (upto limit similar_issues))
    (fun e =>
       logger ERROR ("Similar issues search failed: " +:+ exn_message e) ;;;
       ret []).

End Search.

(** Rows that all score above 0.7. *)
Definition close (r : Past) : Prop :=
  exists q, past_similarity_score r = Some q /\ (7 # 10 < q)%Q.

(** Best score first. *)
Definition non_increasing (l : list Past) : Prop :=
  StronglySorted (fun a b => (score b <= score a)%Q) l.

End Similar.

(* ===================================================================== *)
(** ** Filling the knowledge base ([embedding_search.py]) *)
(* ===================================================================== *)

Module Knowledge.

(** The [entry_data] dict of [add_knowledge_entry]. *)
Record Entry : Type := {
  e_title : json;
  e_content : json;
  e_embedding : list Q;
  e_category : json;
  e_tags : json;
  e_solution_steps : json;
  e_success_rate : json;
  e_avg_resolution_time : json
}.

(** The service with the two tables these functions write to: the rows
    the knowledge base accepted, and the updates the interaction history
    accepted, each an id with the embedding set on it. *)
Record Store : Type := {
  world : World;
  knowledge_base : list Entry;
  interaction_updates : list (json * list Q)
}.

Definition set_world (w : World) (s : Store) : Store :=
  {| world := w;
     knowledge_base := knowledge_base s;
     interaction_updates := interaction_updates s |}.

Definition set_knowledge_base (l : list Entry) (s : Store) : Store :=
  {| world := world s;
     knowledge_base := l;
     interaction_updates := interaction_updates s |}.

Definition set_interaction_updates (l : list (json * list Q)) (s : Store) : Store :=
  {| world := world s;
     knowledge_base := knowledge_base s;
     interaction_updates := l |}.

(** Coroutines over the store. *)
Definition K (A : Type) : Type := Store -> result A * Store.

Definition kret {A} (a : A) : K A := fun s => (Ok a, s).

Definition kraise {A} (e : exn) : K A := fun s => (Raise e, s).

Definition kbind {A B} (m : K A) (k : A -> K B) : K B :=
  fun s =>
    match m s with
    | (Ok a, s') => k a s'
    | (Raise e, s') => (Raise e, s')
    end.

Definition ktry {A} (m : K A) (handler : exn -> K A) : K A :=
  fun s =>
    match m s with
    | (Ok a, s') => (Ok a, s')
    | (Raise e, s') => handler e s'
    end.

(** A coroutine of the service, run on the store. *)
Definition on_world {A} (m : M A) : K A :=
  fun s => let (r, w) := m (world s) in (r, set_world w s).

Definition klift {A} (r : result A) : K A := fun s => (r, s).

Definition klog (lvl : Level) (msg : string) : K unit := on_world (logger lvl msg).

(** [x or []] *)
Definition or_empty_list (x : json) : json :=
  if Value.truthy x then x else JList [].

Section Loader.

Variable env : Env.

(** [table("knowledge_base").insert(entry).execute().data], asked when
    the table holds [n] accepted rows. *)
Variable knowledge_insert : nat -> Entry -> result (option (list json)).

(** [table("knowledge_base").select("*")...execute().data] *)
Variable knowledge_select : result (option (list json)).

(** [table("support_interactions").update(updates).eq("id", id)
    .execute().data] *)
Variable interactions_update : json -> list Q -> result (option (list json)).

(** [json.load] of the file at a path. *)
Variable load_file : string -> result json.

(** [result.data[0] if result.data else {}] *)
Definition first_row (data : option (list json)) : json :=
  match data with
  | Some (r :: _) => r
  | _ => JDict []
  end.

(** [SupabaseClient.insert_knowledge_entry] *)
Definition insert_knowledge_entry (entry_data : Entry) : K json :=
  ktry
    (fun s =>
       match knowledge_insert (length (knowledge_base s)) entry_data with
       | Ok data =>
           (Ok (first_row data),
            set_knowledge_base (knowledge_base s ++ [entry_data]) s)
       | Raise e => (Raise e, s)
       end)
    (fun e =>
       kbind (klog ERROR ("Failed to insert knowledge entry: " +:+ exn_message e))
             (fun _ => kraise e)).

(** [SupabaseClient.update_interaction], with the one update these
    functions make: an embedding. *)
Definition update_interaction (interaction_id : json) (embedding : list Q) : K json :=
  ktry
    (fun s =>
       match interactions_update interaction_id embedding with
       | Ok data =>
           (Ok (first_row data),
            set_interaction_updates
              (interaction_updates s ++ [(interaction_id, embedding)]) s)
       | Raise e => (Raise e, s)
       end)
    (fun e =>
       kbind (klog ERROR ("Failed to update interaction: " +:+ exn_message e))
             (fun _ => kraise e)).

(** [SupabaseClient.get_knowledge_entries] *)
Definition get_knowledge_entries : K (list json) :=
  ktry
    (kbind (klift knowledge_select)
           (fun data => kret (match data with
                              | Some (r :: rest) => r :: rest
                              | _ => []
                              end)))
    (fun e =>
       kbind (klog ERROR ("Failed to get knowledge entries: " +:+ exn_message e))
             (fun _ => kraise e)).

Definition add_knowledge_entry
    (title content category tags solution_steps success_rate avg_resolution_time : json)
  : K json :=
  ktry
    (let combined_text :=
       py_str (runtime env) title +:+ " " +:+ py_str (runtime env) content in
     kbind (on_world (Matcher.create_embedding env combined_text)) (fun embedding =>
     let entry_data :=
       {| e_title := title;
          e_content := content;
          e_embedding := embedding;
          e_category := category;
          e_tags := or_empty_list tags;
          e_solution_steps := or_empty_list solution_steps;
          e_success_rate := success_rate;
          e_avg_resolution_time := avg_resolution_time |} in
     kbind (insert_knowledge_entry entry_data) (fun result =>
     kbind (klog INFO ("Knowledge entry added: " +:+ py_str (runtime env) title))
           (fun _ => kret result))))
    (fun e =>
       kbind (klog ERROR ("Failed to add knowledge entry: " +:+ exn_message e))
             (fun _ => kraise e)).

(** The body of the [for] loop of [load_knowledge_from_json]. *)
Definition load_entry (entry : json) : K unit :=
  kbind (klift (Inbox.getitem entry "title")) (fun title =>
  kbind (klift (Inbox.getitem entry "content")) (fun content =>
  kbind (klift (Inbox.getitem entry "category")) (fun category =>
  kbind (klift (Value.get entry "tags" (JList []))) (fun tags =>
  kbind (klift (Value.get entry "solution_steps" (JList []))) (fun solution_steps =>
  kbind (klift (Value.get entry "success_rate" (JFloat (Finite 0)))) (fun success_rate =>
  kbind (klift (Value.get entry "avg_resolution_time" (JStr "Unknown")))
        (fun avg_resolution_time =>
  kbind (add_knowledge_entry title content category tags solution_steps success_rate
                             avg_resolution_time)
        (fun _ => kret tt)))))))).

Fixpoint load_each (entries : list json) (loaded_count : nat) : K nat :=
  match entries with
  | [] => kret loaded_count
  | entry :: rest =>
      kbind (load_entry entry) (fun _ => load_each rest (S loaded_count))
  end.

Definition load_knowledge_from_json (json_file_path : string) : K nat :=
  ktry
    (kbind (klift (load_file json_file_path)) (fun data =>
     kbind (klift (Value.get data "knowledge_base" (JDict []))) (fun kb =>
     kbind (klift (Value.get kb "entries" (JList []))) (fun knowledge_entries =>
     kbind (klift (Inbox.iter knowledge_entries)) (fun entries =>
     kbind (load_each entries 0) (fun loaded_count =>
     kbind (klog INFO ("Loaded " +:+ Py.str_of_int (Z.of_nat loaded_count)
                       +:+ " knowledge entries from JSON"))
           (fun _ => kret loaded_count)))))))
    (fun e =>
       kbind (klog ERROR ("Failed to load knowledge from JSON: " +:+ exn_message e))
             (fun _ => kraise e)).

(** The body of the [for] loop of [update_knowledge_embeddings]: whether
    the entry was given an embedding. *)
Definition update_entry (entry : json) : K bool :=
  kbind (klift (Value.get entry "embedding" JNull)) (fun embedding =>
  if negb (Value.truthy embedding) then
    kbind (klift (Inbox.getitem entry "title")) (fun title =>
    kbind (klift (Inbox.getitem entry "content")) (fun content =>
    let combined_text :=
      py_str (runtime env) title +:+ " " +:+ py_str (runtime env) content in
    kbind (on_world (Matcher.create_embedding env combined_text)) (fun embedding =>
    kbind (klift (Inbox.getitem entry "id")) (fun id =>
    kbind (update_interaction id embedding) (fun _ => kret true)))))
  else kret false).

Fixpoint update_each (entries : list json) (updated_count : nat) : K nat :=
  match entries with
  | [] => kret updated_count
  | entry :: rest =>
      kbind (update_entry entry) (fun updated =>
      update_each rest (if updated then S updated_count else updated_count))
  end.

Definition update_knowledge_embeddings : K nat :=
  ktry
    (kbind get_knowledge_entries (fun entries =>
     kbind (update_each entries 0) (fun updated_count =>
     kbind (klog INFO ("Updated embeddings for "
                       +:+ Py.str_of_int (Z.of_nat updated_count) +:+ " entries"))
           (fun _ => kret updated_count))))
    (fun e =>
       kbind (klog ERROR ("Failed to update embeddings: " +:+ exn_message e))
             (fun _ => kraise e)).

End Loader.

(** The coroutine leaves the rows of the knowledge base as they were. *)
Definition keeps_knowledge_base {A} (m : K A) : Prop :=
  forall s, knowledge_base (snd (m s)) = knowledge_base s.

(** An entry of a file with the three keys that must be there. *)
Definition loadable (entry : json) : Prop :=
  exists items title content category,
    entry = JDict items
    /\ Value.assoc "title" items = Some title
    /\ Value.assoc "content" items = Some content
    /\ Value.assoc "category" items = Some category.

End Knowledge.

(* ===================================================================== *)
(** * Properties *)
(* ===================================================================== *)

(** ** The rule classifier *)

Module RuleFacts.

Import Rule.

(** [min(x, 1.0)] stays in the unit interval once [x] is not negative. *)
Lemma min_one_unit (q : Q) : (0 <= q)%Q -> (0 <= Value.min q 1 /\ Value.min q 1 <= 1)%Q.
Proof.
  intros Hq. unfold Value.min.
  destruct (Qle_bool q 1) eqn:E.
  - apply Qle_bool_iff in E. split; assumption.
  - split; [ discriminate | apply Qle_refl ].
Qed.

Lemma calculate_confidence_unit (c p s : string) :
  (0 <= _calculate_confidence c p s /\ _calculate_confidence c p s <= 1)%Q.
Proof.
  unfold _calculate_confidence. cbv zeta.
  apply min_one_unit.
  repeat match goal with
         | |- context [if ?b then _ else _] => destruct b
         end; discriminate.
Qed.

(** The score is never below 0.6. *)
Lemma calculate_confidence_floor (c p s : string) :
  (6 # 10 <= _calculate_confidence c p s)%Q.
Proof.
  unfold _calculate_confidence. cbv zeta.
  repeat match goal with
         | |- context [if ?b then _ else _] => destruct b
         end; vm_compute; discriminate.
Qed.

Lemma needs_ticket_high (c i : string) : _needs_ticket c "high" i = true.
Proof. reflexivity. Qed.

Lemma needs_ticket_category (c p i : string) :
  c = "technical" \/ c = "complaint" -> _needs_ticket c p i = true.
Proof.
  intros [-> | ->]; unfold _needs_ticket; destruct (String.eqb p "high"); reflexivity.
Qed.

Lemma requires_human_sound (c p s : string) (kws : list string) :
  p = "high" \/ s = "negative" \/ c = "complaint" \/ c = "billing" ->
  _requires_human_review c p s kws = true.
Proof.
  unfold _requires_human_review.
  intros [-> | [-> | [-> | ->]]].
  - reflexivity.
  - rewrite orb_true_r. reflexivity.
  - destruct (_ || _); reflexivity.
  - destruct (_ || _); reflexivity.
Qed.

(** The rule classifier always returns, and what it returns is built
    from the five decision functions. *)
Lemma rule_analyze_email_returns (rt : Runtime) (content subject sender : string) :
  exists a, analyze_email rt content subject sender = Ok a
            /\ confidence a = _calculate_confidence (category a) (priority a) (sentiment a)
            /\ requires_human a
               = _requires_human_review (category a) (priority a) (sentiment a) (keywords a)
            /\ ticket_needed a = _needs_ticket (category a) (priority a) (intent a).
Proof. eexists. split; [ reflexivity | simpl; auto ]. Qed.

End RuleFacts.

(** C2 as stated fails: on the outage mail no keyword of any category
    occurs, so the category is the default "general", not "technical". *)
Lemma scenario_A_is_not_technical :
  exists a,
    Rule.analyze_email Ref.runtime "URGENT: production is down" "System outage"
                       "Dana Smith <dana@example.com>" = Ok a
    /\ Rule.category a <> "technical".
Proof.
  eexists. split; [ reflexivity | ]. simpl. discriminate.
Qed.

(** C2, amended: for body "URGENT: production is down" and subject
    "System outage" the rule classifier returns category "general",
    priority "high", ticket_needed true and requires_human true,
    whoever the sender and whatever the runtime. *)
Theorem scenario_A (rt : Runtime) (sender : string) :
  exists a,
    Rule.analyze_email rt "URGENT: production is down" "System outage" sender = Ok a
    /\ Rule.category a = "general"
    /\ Rule.priority a = "high"
    /\ Rule.ticket_needed a = true
    /\ Rule.requires_human a = true.
Proof.
  eexists. split; [ reflexivity | ].
  repeat split; reflexivity.
Qed.

(** ** The inference-backed classifier *)

Module BedrockFacts.

Import Bedrock.

Lemma rbind_ok {A B} (r : result A) (k : A -> result B) (b : B) :
  rbind r k = Ok b -> exists a, r = Ok a /\ k a = Ok b.
Proof. destruct r; simpl; [ eauto | discriminate ]. Qed.

(** What a successful parse copies from the decoded reply. *)
Lemma parse_body_ok (rt : Runtime) (reply : string) (a : EmailAnalysis) :
  parse_body rt reply = Ok a ->
  exists data field,
    json_loads rt (json_str reply) = Ok data
    /\ Value.get data "category" (JStr "general") = Ok (category a)
    /\ Value.get data "priority" (JStr "medium") = Ok (priority a)
    /\ Value.get data "sentiment" (JStr "neutral") = Ok (sentiment a)
    /\ Value.get data "confidence" (JFloat (Finite (7 # 10))) = Ok field
    /\ py_float rt field = Ok (confidence a)
    /\ Value.get data "requires_human" (JBool false) = Ok (requires_human a)
    /\ Value.get data "ticket_needed" (JBool true) = Ok (ticket_needed a).
Proof.
  unfold parse_body. cbv zeta.
  destruct (_ || _); [ discriminate | ].
  intros H.
  repeat match type of H with
         | rbind _ _ = Ok _ =>
             let x := fresh "x" in
             let E := fresh "E" in
             apply rbind_ok in H; destruct H as (x & E & H)
         end.
  inversion H; subst a; simpl.
  eauto 12.
Qed.

(** A reply without braces, or whose braces do not enclose JSON, does
    not parse. *)
Lemma parse_body_unparsable (rt : Runtime) (reply : string) :
  unparsable rt reply -> is_ok (parse_body rt reply) = false.
Proof.
  unfold unparsable, parse_body. cbv zeta.
  intros [H | [H | H]].
  - rewrite H. reflexivity.
  - rewrite H. rewrite orb_true_r. reflexivity.
  - destruct (_ || _); [ reflexivity | ].
    destruct (json_loads rt (json_str reply)); [ discriminate | reflexivity ].
Qed.

(** [analyze_email] always returns: the fail-safe analysis, or what
    the parse of the model's reply gave. *)
Lemma analyze_email_cases (env : Env) (content subject sender : string) (w : World) :
  exists a w',
    analyze_email env content subject sender w = (Ok a, w')
    /\ (a = _fallback_analysis content subject
        \/ exists reply,
             bedrock env = true
             /\ invoke_model env (length (calls w))
                             (_create_analysis_prompt content subject sender) = Ok reply
             /\ parse_body (runtime env) reply = Ok a).
Proof.
  unfold analyze_email, try_except, bind, _call_bedrock_ai, _parse_ai_analysis,
    try_except, call, lift, logger, ret, raise.
  destruct (bedrock env); simpl.
  - destruct (invoke_model env _ _) as [reply | e] eqn:Hcall; simpl.
    + destruct (parse_body (runtime env) reply) as [a | e] eqn:Hparse; simpl.
      * do 2 eexists. split; [ reflexivity | right; eauto ].
      * do 2 eexists. split; [ reflexivity | left; reflexivity ].
    + do 2 eexists. split; [ reflexivity | left; reflexivity ].
  - do 2 eexists. split; [ reflexivity | left; reflexivity ].
Qed.

(** Every internal failure ends in the fail-safe analysis. *)
Lemma analyze_email_failure (env : Env) (content subject sender : string) (w : World) :
  internal_failure env w content subject sender ->
  exists w',
    analyze_email env content subject sender w
    = (Ok (_fallback_analysis content subject), w').
Proof.
  unfold internal_failure, analyze_email, try_except, bind, _call_bedrock_ai, _parse_ai_analysis,
    try_except, call, lift, logger, ret, raise.
  intros [H | [H | (reply & Hcall & H)]].
  - rewrite H. simpl. eauto.
  - destruct (bedrock env); simpl; [ | eauto ].
    destruct (invoke_model env _ _); [ discriminate | simpl; eauto ].
  - destruct (bedrock env); simpl; [ | eauto ].
    rewrite Hcall. simpl.
    destruct (parse_body (runtime env) reply); [ discriminate | simpl; eauto ].
Qed.

Lemma fallback_is_fail_safe (content subject : string) :
  is_fail_safe (_fallback_analysis content subject).
Proof. repeat split. Qed.

End BedrockFacts.

(** ** Claims on the classifiers *)

(** C3 as stated fails on the inference path: the confidence the model
    writes is converted with [float] and stored as it is.  Here the
    reply says 1.5. *)
Lemma inference_confidence_above_one :
  exists a w',
    Bedrock.analyze_email
      (Script.env true (Script.model (Ok Script.overconfident_reply) Script.down Script.down)
                  [] [] true true true)
      "URGENT: production is down" "System outage" "Dana Smith <dana@example.com>"
      Script.start = (Ok a, w')
    /\ ~ in_unit_interval (Bedrock.confidence a).
Proof.
  do 2 eexists. split.
  - vm_compute. reflexivity.
  - simpl. intros [_ H]. revert H. vm_compute. intros H. apply H. reflexivity.
Qed.

(** C3, amended: the rule variant always returns an Analysis whose
    confidence lies in [0,1].  The inference variant always returns
    too, either the fail-safe Analysis (confidence 0.5) or an Analysis
    whose confidence is [float] of the "confidence" field of the JSON
    object in the model's reply (0.7 when the field is absent), neither
    clamped nor checked: it lies in [0,1] exactly when that number
    does. *)
Theorem confidence_range :
  (forall (rt : Runtime) (content subject sender : string),
      exists a,
        Rule.analyze_email rt content subject sender = Ok a
        /\ (0 <= Rule.confidence a <= 1)%Q)
  /\
  (forall (env : Env) (content subject sender : string) (w : World),
      exists a w',
        Bedrock.analyze_email env content subject sender w = (Ok a, w')
        /\ (Bedrock.confidence a = Finite (5 # 10)
            \/ exists reply data field,
                 invoke_model env (length (calls w))
                   (Bedrock._create_analysis_prompt content subject sender) = Ok reply
                 /\ json_loads (runtime env) (Bedrock.json_str reply) = Ok data
                 /\ Value.get data "confidence" (JFloat (Finite (7 # 10))) = Ok field
                 /\ py_float (runtime env) field = Ok (Bedrock.confidence a))).
Proof.
  split.
  - intros rt content subject sender.
    destruct (RuleFacts.rule_analyze_email_returns rt content subject sender)
      as (a & Hrun & Hconf & _).
    exists a. split; [ exact Hrun | ].
    rewrite Hconf. apply RuleFacts.calculate_confidence_unit.
  - intros env content subject sender w.
    destruct (BedrockFacts.analyze_email_cases env content subject sender w)
      as (a & w' & Hrun & [-> | (reply & _ & Hcall & Hparse)]).
    + do 2 eexists. split; [ exact Hrun | left; reflexivity ].
    + exists a, w'. split; [ exact Hrun | right ].
      apply BedrockFacts.parse_body_ok in Hparse.
      destruct Hparse as (data & field & Hload & _ & _ & _ & Hget & Hfloat & _).
      exists reply, data, field. auto.
Qed.

(** C4 as stated fails on the inference path: the model may say that a
    high-priority mail needs no ticket, and is believed. *)
Lemma inference_high_priority_without_ticket :
  exists a w',
    Bedrock.analyze_email
      (Script.env true (Script.model (Ok Script.high_without_ticket_reply) Script.down Script.down)
                  [] [] true true true)
      "URGENT: production is down" "System outage" "Dana Smith <dana@example.com>"
      Script.start = (Ok a, w')
    /\ Bedrock.priority a = JStr "high"
    /\ Bedrock.ticket_needed a = JBool false.
Proof.
  do 2 eexists. split; [ vm_compute; reflexivity | split; reflexivity ].
Qed.

(** C4, amended: for every Analysis the rule variant produces,
    ticket_needed is true whenever priority is "high" or category is
    "technical" or "complaint".  An Analysis the inference variant
    produces is either the fail-safe one (ticket_needed true) or carries
    the priority, category and ticket_needed fields of the JSON object
    in the model's reply as they are (ticket_needed true when absent);
    nothing relates them. *)
Theorem ticket_needed_policy :
  (forall (rt : Runtime) (content subject sender : string) (a : Rule.EmailAnalysis),
      Rule.analyze_email rt content subject sender = Ok a ->
      Rule.priority a = "high" \/ Rule.category a = "technical"
      \/ Rule.category a = "complaint" ->
      Rule.ticket_needed a = true)
  /\
  (forall (env : Env) (content subject sender : string) (w : World),
      exists a w',
        Bedrock.analyze_email env content subject sender w = (Ok a, w')
        /\ (Bedrock.is_fail_safe a
            \/ exists reply data,
                 invoke_model env (length (calls w))
                   (Bedrock._create_analysis_prompt content subject sender) = Ok reply
                 /\ json_loads (runtime env) (Bedrock.json_str reply) = Ok data
                 /\ Value.get data "priority" (JStr "medium") = Ok (Bedrock.priority a)
                 /\ Value.get data "category" (JStr "general") = Ok (Bedrock.category a)
                 /\ Value.get data "ticket_needed" (JBool true)
                    = Ok (Bedrock.ticket_needed a))).
Proof.
  split.
  - intros rt content subject sender a Hrun Hwhen.
    destruct (RuleFacts.rule_analyze_email_returns rt content subject sender)
      as (a' & Hrun' & _ & _ & Hticket).
    rewrite Hrun in Hrun'. inversion Hrun'; subst a'.
    rewrite Hticket.
    destruct Hwhen as [-> | Hcat].
    + apply RuleFacts.needs_ticket_high.
    + apply RuleFacts.needs_ticket_category. exact Hcat.
  - intros env content subject sender w.
    destruct (BedrockFacts.analyze_email_cases env content subject sender w)
      as (a & w' & Hrun & [-> | (reply & _ & Hcall & Hparse)]).
    + do 2 eexists. split; [ exact Hrun | left ].
      apply BedrockFacts.fallback_is_fail_safe.
    + exists a, w'. split; [ exact Hrun | right ].
      apply BedrockFacts.parse_body_ok in Hparse.
      destruct Hparse as (data & field & Hload & Hcat & Hprio & _ & _ & _ & _ & Hticket).
      exists reply, data. auto.
Qed.

Lemma ticket_needed_policy_witness :
  exists a,
    Rule.analyze_email Ref.runtime "URGENT: production is down" "System outage"
                       "Dana Smith <dana@example.com>" = Ok a
    /\ Rule.ticket_needed a = true.
Proof.
  eexists. split; [ reflexivity | ].
  apply (proj1 ticket_needed_policy Ref.runtime "URGENT: production is down"
               "System outage" "Dana Smith <dana@example.com>").
  - reflexivity.
  - left. reflexivity.
Defined.

(** C5 as stated fails on the inference path: when the model leaves
    requires_human out, it is false, whatever the priority it gave. *)
Lemma inference_high_priority_without_human :
  exists a w',
    Bedrock.analyze_email
      (Script.env true (Script.model (Ok Script.high_without_human_reply) Script.down Script.down)
                  [] [] true true true)
      "URGENT: production is down" "System outage" "Dana Smith <dana@example.com>"
      Script.start = (Ok a, w')
    /\ Bedrock.priority a = JStr "high"
    /\ Bedrock.requires_human a = JBool false.
Proof.
  do 2 eexists. split; [ vm_compute; reflexivity | split; reflexivity ].
Qed.

(** C5, amended: for every Analysis the rule variant produces,
    requires_human is true whenever priority is "high", sentiment is
    "negative", or category is "complaint" or "billing".  An Analysis
    the inference variant produces is either the fail-safe one
    (requires_human true) or carries the priority, sentiment, category
    and requires_human fields of the JSON object in the model's reply as
    they are (requires_human false when absent); nothing relates
    them. *)
Theorem requires_human_policy :
  (forall (rt : Runtime) (content subject sender : string) (a : Rule.EmailAnalysis),
      Rule.analyze_email rt content subject sender = Ok a ->
      Rule.priority a = "high" \/ Rule.sentiment a = "negative"
      \/ Rule.category a = "complaint" \/ Rule.category a = "billing" ->
      Rule.requires_human a = true)
  /\
  (forall (env : Env) (content subject sender : string) (w : World),
      exists a w',
        Bedrock.analyze_email env content subject sender w = (Ok a, w')
        /\ (Bedrock.is_fail_safe a
            \/ exists reply data,
                 invoke_model env (length (calls w))
                   (Bedrock._create_analysis_prompt content subject sender) = Ok reply
                 /\ json_loads (runtime env) (Bedrock.json_str reply) = Ok data
                 /\ Value.get data "priority" (JStr "medium") = Ok (Bedrock.priority a)
                 /\ Value.get data "sentiment" (JStr "neutral") = Ok (Bedrock.sentiment a)
                 /\ Value.get data "category" (JStr "general") = Ok (Bedrock.category a)
                 /\ Value.get data "requires_human" (JBool false)
                    = Ok (Bedrock.requires_human a))).
Proof.
  split.
  - intros rt content subject sender a Hrun Hwhen.
    destruct (RuleFacts.rule_analyze_email_returns rt content subject sender)
      as (a' & Hrun' & _ & Hhuman & _).
    rewrite Hrun in Hrun'. inversion Hrun'; subst a'.
    rewrite Hhuman. apply RuleFacts.requires_human_sound. tauto.
  - intros env content subject sender w.
    destruct (BedrockFacts.analyze_email_cases env content subject sender w)
      as (a & w' & Hrun & [-> | (reply & _ & Hcall & Hparse)]).
    + do 2 eexists. split; [ exact Hrun | left ].
      apply BedrockFacts.fallback_is_fail_safe.
    + exists a, w'. split; [ exact Hrun | right ].
      apply BedrockFacts.parse_body_ok in Hparse.
      destruct Hparse as (data & field & Hload & Hcat & Hprio & Hsent & _ & _ & Hhuman & _).
      exists reply, data. auto 7.
Qed.

Lemma requires_human_policy_witness :
  exists a,
    Rule.analyze_email Ref.runtime "URGENT: production is down" "System outage"
                       "Dana Smith <dana@example.com>" = Ok a
    /\ Rule.requires_human a = true.
Proof.
  eexists. split; [ reflexivity | ].
  apply (proj1 requires_human_policy Ref.runtime "URGENT: production is down"
               "System outage" "Dana Smith <dana@example.com>").
  - reflexivity.
  - left. reflexivity.
Defined.

(** C6: [analyze] never raises.  The rule variant always returns, and
    whatever its [try] block raises, its handler returns the fail-safe
    Analysis.  The inference variant always returns, and whenever its
    [try] block fails (no client, the call to the model raises, or the
    reply does not parse, as when it holds no JSON) it returns the
    fail-safe Analysis: category general, priority medium, sentiment
    neutral, confidence 0.5, requires_human true, ticket_needed true. *)
Theorem analyze_never_raises :
  (forall (rt : Runtime) (content subject sender : string),
      exists a, Rule.analyze_email rt content subject sender = Ok a)
  /\
  (forall body : result Rule.EmailAnalysis,
      exists a,
        Rule.except_Exception body = Ok a
        /\ (is_ok body = false -> Rule.is_fail_safe a))
  /\
  (forall (env : Env) (content subject sender : string) (w : World),
      exists a w',
        Bedrock.analyze_email env content subject sender w = (Ok a, w')
        /\ (Bedrock.internal_failure env w content subject sender ->
            Bedrock.is_fail_safe a)
        /\ (forall reply,
              bedrock env = true ->
              invoke_model env (length (calls w))
                (Bedrock._create_analysis_prompt content subject sender) = Ok reply ->
              Bedrock.unparsable (runtime env) reply ->
              Bedrock.is_fail_safe a)).
Proof.
  split; [ | split ].
  - intros rt content subject sender. eexists. reflexivity.
  - intros [ a | e ]; eexists; (split; [ reflexivity | ]); simpl.
    + discriminate.
    + intros _. repeat split.
  - intros env content subject sender w.
    destruct (BedrockFacts.analyze_email_cases env content subject sender w)
      as (a & w' & Hrun & _).
    exists a, w'. split; [ exact Hrun | ].
    assert (Hfail : Bedrock.internal_failure env w content subject sender ->
                    Bedrock.is_fail_safe a).
    { intros Hf.
      destruct (BedrockFacts.analyze_email_failure env content subject sender w Hf)
        as (w2 & Hrun2).
      rewrite Hrun in Hrun2. inversion Hrun2; subst.
      apply BedrockFacts.fallback_is_fail_safe. }
    split; [ exact Hfail | ].
    intros reply _ Hcall Hbad. apply Hfail.
    right. right. exists reply. split; [ exact Hcall | ].
    apply BedrockFacts.parse_body_unparsable. exact Hbad.
Qed.

Lemma analyze_never_raises_witness :
  exists a w',
    Bedrock.analyze_email
      (Script.env true (Script.model (Ok "I am sorry, I cannot classify this message.")
                                     Script.down Script.down)
                  [] [] true true true)
      "URGENT: production is down" "System outage" "Dana Smith <dana@example.com>"
      Script.start = (Ok a, w')
    /\ Bedrock.is_fail_safe a.
Proof.
  destruct (proj2 (proj2 analyze_never_raises)
              (Script.env true (Script.model (Ok "I am sorry, I cannot classify this message.")
                                             Script.down Script.down)
                          [] [] true true true)
              "URGENT: production is down" "System outage"
              "Dana Smith <dana@example.com>" Script.start)
    as (a & w' & Hrun & _ & Hbad).
  exists a, w'. split; [ exact Hrun | ].
  apply (Hbad "I am sorry, I cannot classify this message.").
  - reflexivity.
  - vm_compute. reflexivity.
  - left. vm_compute. reflexivity.
Defined.

(** ** The knowledge matcher *)

Module MatcherFacts.

Import Matcher.

Lemma insert_desc_Forall (P : Candidate -> Prop) (x : Candidate) (l : list Candidate) :
  P x -> Forall P l -> Forall P (insert_desc x l).
Proof.
  intros Hx Hl. induction Hl as [ | y rest Hy Hrest IH ]; simpl.
  - constructor; [ exact Hx | constructor ].
  - destruct (Qle_bool (score y) (score x)).
    + constructor; [ exact Hx | constructor; assumption ].
    + constructor; assumption.
Qed.

Lemma sort_desc_Forall (P : Candidate -> Prop) (l : list Candidate) :
  Forall P l -> Forall P (sort_desc l).
Proof.
  induction 1 as [ | x rest Hx Hrest IH ]; simpl.
  - constructor.
  - apply insert_desc_Forall; assumption.
Qed.

Lemma insert_desc_sorted (x : Candidate) (l : list Candidate) :
  non_increasing l -> non_increasing (insert_desc x l).
Proof.
  unfold non_increasing.
  induction 1 as [ | y rest Hsorted IH Hy ]; simpl.
  - constructor; constructor.
  - destruct (Qle_bool (score y) (score x)) eqn:E.
    + apply Qle_bool_iff in E.
      constructor; [ constructor; assumption | ].
      constructor; [ exact E | ].
      eapply List.Forall_impl; [ | exact Hy ].
      intros z Hz. simpl in Hz. eapply Qle_trans; eassumption.
    + constructor; [ exact IH | ].
      apply insert_desc_Forall; [ | exact Hy ].
      destruct (Qlt_le_dec (score y) (score x)) as [Hlt | Hle]; [ | exact Hle ].
      apply Qlt_le_weak in Hlt. apply Qle_bool_iff in Hlt. congruence.
Qed.

Lemma sort_desc_sorted (l : list Candidate) : non_increasing (sort_desc l).
Proof.
  induction l as [ | x rest IH ]; simpl.
  - constructor.
  - apply insert_desc_sorted. exact IH.
Qed.

Lemma insert_desc_perm (x : Candidate) (l : list Candidate) :
  Permutation (insert_desc x l) (x :: l).
Proof.
  induction l as [ | y rest IH ]; simpl.
  - reflexivity.
  - destruct (Qle_bool (score y) (score x)).
    + reflexivity.
    + rewrite IH. apply perm_swap.
Qed.

(** Sorting loses and invents nothing. *)
Lemma sort_desc_perm (l : list Candidate) : Permutation (sort_desc l) l.
Proof.
  induction l as [ | x rest IH ]; simpl.
  - reflexivity.
  - rewrite insert_desc_perm. constructor. exact IH.
Qed.

Lemma post_filter_given (f : string) (l : list Candidate) :
  f <> "" ->
  Forall (fun r => c_category r = Some f) (post_filter (Some f) l).
Proof.
  intros Hf. unfold post_filter, given.
  destruct (String.eqb f "") eqn:E.
  - apply String.eqb_eq in E. contradiction.
  - simpl. apply List.Forall_forall. intros r Hr.
    apply List.filter_In in Hr. destruct Hr as [_ Hr].
    unfold category_is in Hr.
    destruct (c_category r) as [c | ]; [ | discriminate ].
    apply String.eqb_eq in Hr. congruence.
Qed.

(** What [search] returns when it returns. *)
Lemma search_ok (env : Env) (query : string) (threshold : Q) (limit : Z)
    (category_filter : option string) (w w' : World) (results : list Candidate) :
  search env query threshold limit category_filter w = (Ok results, w') ->
  exists embedding data,
    embeddings_create env (length (calls w)) query = Ok embedding
    /\ match_knowledge_base env (S (length (calls w))) embedding threshold limit = Ok data
    /\ results = sort_desc (post_filter category_filter (rows_of data)).
Proof.
  unfold search, try_except, bind, create_embedding, search_knowledge_base,
    try_except, bind, call, logger, ret, raise.
  destruct (embeddings_create env _ _) as [embedding | e] eqn:Hemb; simpl;
    [ | discriminate ].
  rewrite length_app. simpl. rewrite Nat.add_1_r.
  destruct (match_knowledge_base env _ _ _ _) as [data | e] eqn:Hrows; simpl;
    [ | discriminate ].
  intros H. inversion H; subst. eauto.
Qed.

(** [search] returns whenever the embedding provider and the store
    answer. *)
Lemma search_returns_when_answered (env : Env) (query : string) (threshold : Q) (limit : Z)
    (category_filter : option string) (w : World)
    (embedding : list Q) (data : option (list Candidate)) :
  embeddings_create env (length (calls w)) query = Ok embedding ->
  match_knowledge_base env (S (length (calls w))) embedding threshold limit = Ok data ->
  exists w',
    search env query threshold limit category_filter w
    = (Ok (sort_desc (post_filter category_filter (rows_of data))), w').
Proof.
  intros Hemb Hrows.
  unfold search, try_except, bind, create_embedding, search_knowledge_base,
    try_except, bind, call, logger, ret, raise.
  rewrite Hemb. simpl. rewrite length_app. simpl. rewrite Nat.add_1_r.
  rewrite Hrows. simpl. eauto.
Qed.

(** An empty string as filter is no filter: the test [if
    category_filter:] fails on it. *)
Lemma post_filter_empty_string (l : list Candidate) : post_filter (Some "") l = l.
Proof. reflexivity. Qed.

End MatcherFacts.

(** C7: whatever the query, threshold, limit and category filter, the
    sequence [search] returns holds only candidates of the filter's
    category when a filter is given (the argument is a non-empty string:
    the test the code makes), and is sorted by non-increasing
    similarity_score, a row without a score counting as 0. *)
Theorem search_filtered_and_sorted
    (env : Env) (query : string) (threshold : Q) (limit : Z)
    (category_filter : option string) (w w' : World) (results : list Candidate) :
  Matcher.search env query threshold limit category_filter w = (Ok results, w') ->
  (forall f, category_filter = Some f -> f <> "" ->
             Forall (fun r => c_category r = Some f) results)
  /\ Matcher.non_increasing results.
Proof.
  intros Hrun.
  apply MatcherFacts.search_ok in Hrun.
  destruct Hrun as (embedding & data & _ & _ & ->).
  split.
  - intros f -> Hf.
    apply MatcherFacts.sort_desc_Forall.
    apply MatcherFacts.post_filter_given. exact Hf.
  - apply MatcherFacts.sort_desc_sorted.
Qed.

Lemma search_filtered_and_sorted_witness :
  exists results w',
    Matcher.search
      (Script.env true (Script.model Script.down Script.down Script.down)
                  [] Script.store_rows true true true)
      "cannot pay my invoice" (8 # 10) 5 (Some "billing") Script.start
    = (Ok results, w')
    /\ Forall (fun r => c_category r = Some "billing") results
    /\ Matcher.non_increasing results
    /\ map c_id results = ["3"; "1"].
Proof.
  do 2 eexists. split; [ vm_compute; reflexivity | ].
  destruct (search_filtered_and_sorted
              (Script.env true (Script.model Script.down Script.down Script.down)
                          [] Script.store_rows true true true)
              "cannot pay my invoice" (8 # 10) 5 (Some "billing") Script.start
              _ _ ltac:(vm_compute; reflexivity)) as [Hfilter Hsorted].
  split; [ | split ].
  - apply (Hfilter "billing"); [ reflexivity | discriminate ].
  - exact Hsorted.
  - reflexivity.
Defined.

(** ** Running coroutines *)

Module RunFacts.

Import Run.

Lemma World_le_refl (w : World) : World_le w w.
Proof. split; reflexivity. Qed.

Lemma World_le_trans (w1 w2 w3 : World) :
  World_le w1 w2 -> World_le w2 w3 -> World_le w1 w3.
Proof. intros [] []. split; etrans; eassumption. Qed.

Lemma le_set_log (w : World) (lines : list (Level * string)) :
  World_le w (set_log (log w ++ lines) w).
Proof. split; simpl; try reflexivity. apply prefix_app_r. reflexivity. Qed.

Lemma le_set_calls (w : World) (cs : list Call) :
  World_le w (set_calls (calls w ++ cs) w).
Proof. split; simpl; try reflexivity. apply prefix_app_r. reflexivity. Qed.

(** *** Never raising *)

Lemma returns_ret {A} (a : A) : returns (ret a).
Proof. intros w. reflexivity. Qed.

Lemma returns_logger (lvl : Level) (msg : string) : returns (logger lvl msg).
Proof. intros w. reflexivity. Qed.

Lemma returns_bind {A B} (m : M A) (k : A -> M B) :
  returns m -> (forall a, returns (k a)) -> returns (bind m k).
Proof.
  intros Hm Hk w. unfold bind. specialize (Hm w).
  destruct (m w) as [[a | e] w1]; simpl in *; [ apply Hk | discriminate ].
Qed.

Lemma returns_try {A} (m : M A) (handler : exn -> M A) :
  (forall e, returns (handler e)) -> returns (try_except m handler).
Proof.
  intros Hh w. unfold try_except.
  destruct (m w) as [[a | e] w1]; simpl; [ reflexivity | apply Hh ].
Qed.

Lemma returns_run {A} (m : M A) (w : World) :
  returns m -> exists a w', m w = (Ok a, w').
Proof.
  intros Hm. specialize (Hm w).
  destruct (m w) as [[a | e] w1]; simpl in *; [ eauto | discriminate ].
Qed.

Lemma returns_for_each {A} (l : list A) (body : A -> M unit) :
  (forall x, returns (body x)) -> returns (for_each l body).
Proof.
  intros Hb. induction l as [ | x rest IH ]; simpl.
  - apply returns_ret.
  - apply returns_bind; [ apply Hb | intros _; exact IH ].
Qed.

(** A [try] whose block returns is that block. *)
Lemma try_except_ok {A} (m : M A) (handler : exn -> M A) (w w' : World) (a : A) :
  m w = (Ok a, w') -> try_except m handler w = (Ok a, w').
Proof. intros H. unfold try_except. rewrite H. reflexivity. Qed.

Lemma bind_ok {A B} (m : M A) (k : A -> M B) (w w' : World) (a : A) :
  m w = (Ok a, w') -> bind m k w = k a w'.
Proof. intros H. unfold bind. rewrite H. reflexivity. Qed.

(** *** Only growing *)

Lemma grows_ret {A} (a : A) : grows (ret a).
Proof. intros w. apply World_le_refl. Qed.

Lemma grows_raise {A} (e : exn) : grows (@raise A e).
Proof. intros w. apply World_le_refl. Qed.

Lemma grows_lift {A} (r : result A) : grows (lift r).
Proof. intros w. apply World_le_refl. Qed.

Lemma grows_logger (lvl : Level) (msg : string) : grows (logger lvl msg).
Proof. intros w. apply le_set_log. Qed.

Lemma grows_bind {A B} (m : M A) (k : A -> M B) :
  grows m -> (forall a, grows (k a)) -> grows (bind m k).
Proof.
  intros Hm Hk w. unfold bind. specialize (Hm w).
  destruct (m w) as [[a | e] w1]; simpl in *; [ | exact Hm ].
  eapply World_le_trans; [ exact Hm | apply Hk ].
Qed.

Lemma grows_try {A} (m : M A) (handler : exn -> M A) :
  grows m -> (forall e, grows (handler e)) -> grows (try_except m handler).
Proof.
  intros Hm Hh w. unfold try_except. specialize (Hm w).
  destruct (m w) as [[a | e] w1]; simpl in *; [ exact Hm | ].
  eapply World_le_trans; [ exact Hm | apply Hh ].
Qed.

Lemma grows_call {A} (c : Call) (answer : nat -> result A)
    (commit : A -> World -> World) :
  (forall a w, World_le w (commit a w)) -> grows (call c answer commit).
Proof.
  intros Hc w. unfold call.
  destruct (answer (length (calls w))); simpl.
  - eapply World_le_trans; [ apply (le_set_calls w [c]) | apply Hc ].
  - apply (le_set_calls w [c]).
Qed.

Lemma grows_for_each {A} (l : list A) (body : A -> M unit) :
  (forall x, grows (body x)) -> grows (for_each l body).
Proof.
  intros Hb. induction l as [ | x rest IH ]; simpl.
  - apply grows_ret.
  - apply grows_bind; [ apply Hb | intros _; exact IH ].
Qed.

(** *** Leaving an observation alone *)

Section Preserves.

Context {X : Type} (obs : World -> X).

Lemma preserves_ret {A} (a : A) : preserves obs (ret a).
Proof. intros w. reflexivity. Qed.

Lemma preserves_raise {A} (e : exn) : preserves obs (@raise A e).
Proof. intros w. reflexivity. Qed.

Lemma preserves_lift {A} (r : result A) : preserves obs (lift r).
Proof. intros w. reflexivity. Qed.

Lemma preserves_bind {A B} (m : M A) (k : A -> M B) :
  preserves obs m -> (forall a, preserves obs (k a)) -> preserves obs (bind m k).
Proof.
  intros Hm Hk w. unfold bind. specialize (Hm w).
  destruct (m w) as [[a | e] w1]; simpl in *; [ | exact Hm ].
  rewrite Hk. exact Hm.
Qed.

Lemma preserves_try {A} (m : M A) (handler : exn -> M A) :
  preserves obs m -> (forall e, preserves obs (handler e)) ->
  preserves obs (try_except m handler).
Proof.
  intros Hm Hh w. unfold try_except. specialize (Hm w).
  destruct (m w) as [[a | e] w1]; simpl in *; [ exact Hm | ].
  rewrite Hh. exact Hm.
Qed.

Lemma preserves_logger (quiet : Call -> bool) (lvl : Level) (msg : string) :
  ignores obs quiet -> preserves obs (logger lvl msg).
Proof. intros [Hlog _] w. apply Hlog. Qed.

Lemma preserves_call {A} (quiet : Call -> bool) (c : Call)
    (answer : nat -> result A) (commit : A -> World -> World) :
  ignores obs quiet -> quiet c = true ->
  (forall a w, obs (commit a w) = obs w) ->
  preserves obs (call c answer commit).
Proof.
  intros [_ Hcalls] Hc Hcommit w. unfold call.
  destruct (answer (length (calls w))); simpl.
  - rewrite Hcommit. apply Hcalls. exact Hc.
  - apply Hcalls. exact Hc.
Qed.

(** A refused request stores nothing. *)
Lemma preserves_call_refused {A} (quiet : Call -> bool) (c : Call)
    (answer : nat -> result A) (commit : A -> World -> World) :
  ignores obs quiet -> quiet c = true ->
  (forall now, is_ok (answer now) = false) ->
  preserves obs (call c answer commit).
Proof.
  intros [_ Hcalls] Hc Hrefused w. unfold call.
  specialize (Hrefused (length (calls w))).
  destruct (answer (length (calls w))); simpl; [ discriminate | ].
  apply Hcalls. exact Hc.
Qed.

Lemma preserves_for_each {A} (l : list A) (body : A -> M unit) :
  (forall x, preserves obs (body x)) -> preserves obs (for_each l body).
Proof.
  intros Hb. induction l as [ | x rest IH ]; simpl.
  - apply preserves_ret.
  - apply preserves_bind; [ apply Hb | intros _; exact IH ].
Qed.

End Preserves.

End RunFacts.

(** ** The stages of the pipeline *)

Module StageFacts.

Import Run RunFacts.

Create HintDb run discriminated.

#[local] Hint Resolve returns_ret returns_logger : run.
#[local] Hint Resolve grows_ret grows_raise grows_lift grows_logger : run.
#[local] Hint Resolve World_le_refl : run.

(** Splits a goal on a coroutine along its structure. *)
Ltac along :=
  repeat first
    [ progress intros
    | apply returns_try | apply returns_bind
    | apply grows_try | apply grows_bind | apply grows_call
    | solve [ eauto with run ]
    | match goal with
      | |- context [ if ?b then _ else _ ] => destruct b
      end ].

(** The same for an observation left alone; the side conditions of
    requests are found among the hypotheses. *)
Ltac frame :=
  repeat first
    [ progress intros
    | apply preserves_try | apply preserves_bind
    | apply preserves_ret | apply preserves_raise | apply preserves_lift
    | eapply preserves_logger; eassumption
    | eapply preserves_call;
      [ eassumption | solve [ auto ] | solve [ intros; auto ] ]
    | match goal with
      | |- context [ if ?b then _ else _ ] => destruct b
      end ].

Lemma sent_mails_app (cs cs' : list Call) :
  sent_mails (cs ++ cs') = (sent_mails cs ++ sent_mails cs')%list.
Proof.
  induction cs as [ | c rest IH ]; simpl; [ reflexivity | ].
  destruct c; simpl; rewrite ?IH; reflexivity.
Qed.

Lemma sent_mails_quiet (cs : list Call) (c : Call) :
  is_send c = false -> sent_mails (cs ++ [c]) = sent_mails cs.
Proof.
  intros Hc. rewrite sent_mails_app.
  destruct c; simpl in *; try discriminate; apply app_nil_r.
Qed.

(** The mails handed out change only by requests to send. *)
Lemma ignores_sent_mails :
  ignores (fun w => sent_mails (calls w)) (fun c => negb (is_send c)).
Proof.
  split; [ reflexivity | ].
  intros c w Hc. simpl. apply sent_mails_quiet.
  destruct (is_send c); [ discriminate | reflexivity ].
Qed.

(** What the collaborators hold does not change by a request alone. *)
Lemma ignores_outbox : ignores outbox (fun _ => true).
Proof. split; reflexivity. Qed.

Lemma ignores_support_tickets : ignores support_tickets (fun _ => true).
Proof. split; reflexivity. Qed.

Lemma ignores_support_interactions : ignores support_interactions (fun _ => true).
Proof. split; reflexivity. Qed.

Lemma ignores_processed_emails : ignores processed_emails (fun _ => true).
Proof. split; reflexivity. Qed.

Lemma ignores_marked_read : ignores marked_read (fun _ => true).
Proof. split; reflexivity. Qed.

Section Stages.

Variable env : Env.

(** *** The model *)

Lemma call_bedrock_grows (prompt : string) :
  grows (Bedrock._call_bedrock_ai env prompt).
Proof. unfold Bedrock._call_bedrock_ai. along. Qed.

Lemma analyze_email_returns (content subject sender : string) :
  returns (Bedrock.analyze_email env content subject sender).
Proof. unfold Bedrock.analyze_email. along. Qed.

Lemma analyze_email_grows (content subject sender : string) :
  grows (Bedrock.analyze_email env content subject sender).
Proof.
  unfold Bedrock.analyze_email, Bedrock._parse_ai_analysis. along.
Qed.

Lemma search_kb_returns (query : string) :
  returns (Bedrock.search_knowledge_base_ai env query).
Proof. unfold Bedrock.search_knowledge_base_ai. along. Qed.

Lemma search_kb_grows (query : string) :
  grows (Bedrock.search_knowledge_base_ai env query).
Proof.
  unfold Bedrock.search_knowledge_base_ai. along.
Qed.

Lemma generate_response_returns (a : Bedrock.EmailAnalysis)
    (content subject : string) (kb : list KBResult) :
  returns (Bedrock.generate_response env a content subject kb).
Proof. unfold Bedrock.generate_response. along. Qed.

Lemma generate_response_grows (a : Bedrock.EmailAnalysis)
    (content subject : string) (kb : list KBResult) :
  grows (Bedrock.generate_response env a content subject kb).
Proof.
  unfold Bedrock.generate_response. along.
Qed.

Section ModelFootprint.

(** The classifier, the search and the composer talk to the model
    and to the log, to nothing else. *)
Context {X : Type} (obs : World -> X) (quiet : Call -> bool).
Hypothesis Hobs : ignores obs quiet.
Hypothesis Hmodel : forall prompt, quiet (InvokeModel prompt) = true.

Lemma call_bedrock_preserves (prompt : string) :
  preserves obs (Bedrock._call_bedrock_ai env prompt).
Proof.
  unfold Bedrock._call_bedrock_ai. frame.
Qed.

Lemma analyze_email_preserves (content subject sender : string) :
  preserves obs (Bedrock.analyze_email env content subject sender).
Proof.
  unfold Bedrock.analyze_email, Bedrock._parse_ai_analysis. frame.
Qed.

Lemma search_kb_preserves (query : string) :
  preserves obs (Bedrock.search_knowledge_base_ai env query).
Proof.
  unfold Bedrock.search_knowledge_base_ai. frame.
Qed.

Lemma generate_response_preserves (a : Bedrock.EmailAnalysis)
    (content subject : string) (kb : list KBResult) :
  preserves obs (Bedrock.generate_response env a content subject kb).
Proof.
  unfold Bedrock.generate_response. frame.
Qed.

End ModelFootprint.

(** *** Tickets, replies and the interaction log *)

Lemma le_set_outbox (w : World) (data : EmailData) :
  World_le w (set_outbox (outbox w ++ [data]) w).
Proof. split; simpl; try reflexivity. apply prefix_app_r. reflexivity. Qed.

Lemma le_set_support_tickets (w : World) (row : TicketData) :
  World_le w (set_support_tickets (support_tickets w ++ [row]) w).
Proof. split; simpl; try reflexivity. apply prefix_app_r. reflexivity. Qed.

Lemma le_set_support_interactions (w : World) (row : Interaction) :
  World_le w (set_support_interactions (support_interactions w ++ [row]) w).
Proof. split; simpl; try reflexivity. apply prefix_app_r. reflexivity. Qed.

Lemma le_set_marked_read (w : World) (id : option string) :
  World_le w (set_marked_read (marked_read w ++ [id]) w).
Proof. split; simpl; try reflexivity. apply prefix_app_r. reflexivity. Qed.

Lemma le_mark_processed (w : World) (id : option string) :
  World_le w (set_processed_emails ({[ id ]} ∪ processed_emails w) w).
Proof. split; simpl; try reflexivity. set_solver. Qed.

#[local] Hint Resolve le_set_outbox le_set_support_tickets
  le_set_support_interactions le_set_marked_read le_mark_processed : run.

Lemma create_support_ticket_returns (email : Email) (a : Bedrock.EmailAnalysis) :
  returns (Automation._create_support_ticket env email a).
Proof. unfold Automation._create_support_ticket. along. Qed.

Lemma create_support_ticket_grows (email : Email) (a : Bedrock.EmailAnalysis) :
  grows (Automation._create_support_ticket env email a).
Proof. unfold Automation._create_support_ticket. along. Qed.

Section TicketFootprint.

(** Ticket creation asks for an id and the time, talks to the
    ticket table and to the log, to nothing else. *)
Context {X : Type} (obs : World -> X) (quiet : Call -> bool).
Hypothesis Hobs : ignores obs quiet.
Hypothesis Hclock : forall c, is_clock_call c = true -> quiet c = true.
Hypothesis Hinsert : forall row, quiet (InsertTicket row) = true.
Hypothesis Htable : forall rows w, obs (set_support_tickets rows w) = obs w.

Lemma create_support_ticket_preserves (email : Email) (a : Bedrock.EmailAnalysis) :
  preserves obs (Automation._create_support_ticket env email a).
Proof. unfold Automation._create_support_ticket. frame. Qed.

End TicketFootprint.

Lemma log_email_sent_grows (data : EmailData) (r : SendResult) :
  grows (Automation._log_email_sent env data r).
Proof. unfold Automation._log_email_sent. along. Qed.

Lemma send_automated_response_returns (email : Email) (response : string)
    (a : Bedrock.EmailAnalysis) (ticket_id : option string) :
  returns (Automation._send_automated_response env email response a ticket_id).
Proof. unfold Automation._send_automated_response. along. Qed.

Lemma send_automated_response_grows (email : Email) (response : string)
    (a : Bedrock.EmailAnalysis) (ticket_id : option string) :
  grows (Automation._send_automated_response env email response a ticket_id).
Proof. unfold Automation._send_automated_response. along. Qed.

Lemma log_email_processing_returns (email : Email) (a : Bedrock.EmailAnalysis)
    (ticket_id : option string) :
  returns (Automation._log_email_processing env email a ticket_id).
Proof. unfold Automation._log_email_processing. along. Qed.

Lemma log_email_processing_grows (email : Email) (a : Bedrock.EmailAnalysis)
    (ticket_id : option string) :
  grows (Automation._log_email_processing env email a ticket_id).
Proof. unfold Automation._log_email_processing. along. Qed.

Lemma mark_email_as_read_returns (id : option string) :
  returns (Automation._mark_email_as_read env id).
Proof. unfold Automation._mark_email_as_read. along. Qed.

Lemma mark_email_as_read_grows (id : option string) :
  grows (Automation._mark_email_as_read env id).
Proof. unfold Automation._mark_email_as_read. along. Qed.

Lemma act_grows (email : Email) (a : Bedrock.EmailAnalysis) (kb : list KBResult) :
  grows (Automation.act env email a kb).
Proof. unfold Automation.act. along. Qed.

Lemma classify_and_search_grows (email : Email) :
  grows (Automation.classify_and_search env email).
Proof. unfold Automation.classify_and_search. along. Qed.

Lemma process_single_email_grows (email : Email) :
  grows (Automation._process_single_email env email).
Proof. unfold Automation._process_single_email. along. Qed.

Lemma mark_processed_grows (id : option string) :
  grows (Automation.mark_processed id).
Proof. intros w. apply le_mark_processed. Qed.

Lemma process_fetched_grows (email : Email) :
  grows (Automation.process_fetched env email).
Proof.
  intros w. unfold Automation.process_fetched.
  destruct (bool_decide _); [ apply World_le_refl | ].
  revert w. apply grows_try; [ | intros e; apply grows_logger ].
  apply grows_bind; [ apply process_single_email_grows | intros _ ].
  apply grows_bind; [ apply mark_processed_grows | intros _ ].
  apply mark_email_as_read_grows.
Qed.

Lemma process_fetched_returns (email : Email) :
  returns (Automation.process_fetched env email).
Proof.
  intros w. unfold Automation.process_fetched.
  destruct (bool_decide _); [ reflexivity | ].
  revert w. apply returns_try. intros e. apply returns_logger.
Qed.

(** Only [mark_processed] touches the processed set. *)
Lemma process_single_email_keeps_processed (email : Email) :
  preserves processed_emails (Automation._process_single_email env email).
Proof.
  unfold Automation._process_single_email, Automation.classify_and_search,
    Automation.act, Bedrock.analyze_email, Bedrock._parse_ai_analysis,
    Bedrock.search_knowledge_base_ai, Bedrock.generate_response,
    Bedrock._call_bedrock_ai, Automation._create_support_ticket,
    Automation._send_automated_response, Automation.send_email,
    Automation._log_email_sent, Automation._log_email_processing,
    Automation.insert_interaction, Automation.new_uuid, Automation.utcnow_iso.
  repeat first
    [ progress intros
    | apply preserves_try | apply preserves_bind
    | apply preserves_ret | apply preserves_raise | apply preserves_lift
    | eapply preserves_logger; apply ignores_processed_emails
    | eapply preserves_call;
      [ apply ignores_processed_emails | reflexivity | intros; reflexivity ]
    | match goal with
      | |- context [ if ?b then _ else _ ] => destruct b
      end ].
Qed.

(** Nothing in the pipeline of one message marks a mail as read. *)
Lemma process_single_email_keeps_marked_read (email : Email) :
  preserves marked_read (Automation._process_single_email env email).
Proof.
  unfold Automation._process_single_email, Automation.classify_and_search,
    Automation.act, Bedrock.analyze_email, Bedrock._parse_ai_analysis,
    Bedrock.search_knowledge_base_ai, Bedrock.generate_response,
    Bedrock._call_bedrock_ai, Automation._create_support_ticket,
    Automation._send_automated_response, Automation.send_email,
    Automation._log_email_sent, Automation._log_email_processing,
    Automation.insert_interaction, Automation.new_uuid, Automation.utcnow_iso.
  repeat first
    [ progress intros
    | apply preserves_try | apply preserves_bind
    | apply preserves_ret | apply preserves_raise | apply preserves_lift
    | eapply preserves_logger; apply ignores_marked_read
    | eapply preserves_call;
      [ apply ignores_marked_read | reflexivity | intros; reflexivity ]
    | match goal with
      | |- context [ if ?b then _ else _ ] => destruct b
      end ].
Qed.

(** A cycle never raises, and only adds to the world. *)
Lemma process_new_emails_returns : returns (Automation._process_new_emails env).
Proof.
  unfold Automation._process_new_emails.
  apply returns_try. intros e. apply returns_logger.
Qed.

Lemma process_new_emails_grows : grows (Automation._process_new_emails env).
Proof.
  unfold Automation._process_new_emails, Automation._fetch_emails.
  apply grows_try; [ | intros e; apply grows_logger ].
  apply grows_bind.
  - apply grows_try.
    + apply grows_call. intros a w. apply World_le_refl.
    + intros e. apply grows_bind; [ apply grows_logger | intros _; apply grows_ret ].
  - intros emails.
    apply grows_bind; [ apply grows_logger | intros _ ].
    apply grows_for_each. apply process_fetched_grows.
Qed.

Section OutboxDown.

(** While the outbox refuses every mail, nothing the service does
    adds to it. *)
Hypothesis Hdown : forall now data, is_ok (gmail_send env now data) = false.

Ltac still :=
  repeat first
    [ progress intros
    | apply preserves_try | apply preserves_bind
    | apply preserves_ret | apply preserves_raise | apply preserves_lift
    | eapply preserves_logger; apply ignores_outbox
    | eapply preserves_call_refused;
      [ apply ignores_outbox | reflexivity | intros; apply Hdown ]
    | eapply preserves_call;
      [ apply ignores_outbox | reflexivity | intros; reflexivity ]
    | match goal with
      | |- context [ if ?b then _ else _ ] => destruct b
      end ].

Lemma process_single_email_keeps_outbox (email : Email) :
  preserves outbox (Automation._process_single_email env email).
Proof.
  unfold Automation._process_single_email, Automation.classify_and_search,
    Automation.act, Bedrock.analyze_email, Bedrock._parse_ai_analysis,
    Bedrock.search_knowledge_base_ai, Bedrock.generate_response,
    Bedrock._call_bedrock_ai, Automation._create_support_ticket,
    Automation._send_automated_response, Automation.send_email,
    Automation._log_email_sent, Automation._log_email_processing,
    Automation.insert_interaction, Automation.new_uuid, Automation.utcnow_iso.
  still.
Qed.

Lemma process_fetched_keeps_outbox (email : Email) :
  preserves outbox (Automation.process_fetched env email).
Proof.
  intros w. unfold Automation.process_fetched.
  destruct (bool_decide _); [ reflexivity | ].
  revert w. apply preserves_try.
  - apply preserves_bind; [ apply process_single_email_keeps_outbox | intros _ ].
    apply preserves_bind; [ intros w; reflexivity | intros _ ].
    unfold Automation._mark_email_as_read. still.
  - intros e. eapply preserves_logger. apply ignores_outbox.
Qed.

Lemma process_new_emails_keeps_outbox :
  preserves outbox (Automation._process_new_emails env).
Proof.
  unfold Automation._process_new_emails, Automation._fetch_emails.
  apply preserves_try; [ | intros e; eapply preserves_logger; apply ignores_outbox ].
  apply preserves_bind; [ still | intros emails ].
  apply preserves_bind; [ eapply preserves_logger; apply ignores_outbox | intros _ ].
  apply preserves_for_each. apply process_fetched_keeps_outbox.
Qed.

End OutboxDown.

End Stages.

End StageFacts.

Module PipelineFacts.

Import Run RunFacts StageFacts.

(** Runs a coroutine written with the combinators on a given world. *)
Ltac run :=
  repeat (progress unfold try_except, bind, call, lift, logger, ret, raise,
            no_commit, Automation.new_uuid, Automation.utcnow_iso,
            Automation.insert_interaction, getitem);
  simpl.

Lemma ends_with_refl (s : string) : ends_with s s.
Proof. exists EmptyString. reflexivity. Qed.

Lemma append_assoc (a b c : string) : (a +:+ b) +:+ c = a +:+ (b +:+ c).
Proof.
  induction a as [ | x a IH ]; [ reflexivity | ].
  change (String x ((a +:+ b) +:+ c) = String x (a +:+ (b +:+ c))).
  f_equal. exact IH.
Qed.

Lemma ends_with_app (p s suffix : string) :
  ends_with s suffix -> ends_with (p +:+ s) suffix.
Proof.
  intros [pre ->]. exists (p +:+ pre). symmetry. apply append_assoc.
Qed.

Lemma embeds_here (part rest : string) : embeds (part +:+ rest) part.
Proof. exists EmptyString, rest. reflexivity. Qed.

Lemma embeds_app (p s part : string) : embeds s part -> embeds (p +:+ s) part.
Proof.
  intros (before & after & ->). exists (p +:+ before), after.
  symmetry. apply append_assoc.
Qed.

Section Pipeline.

Variable env : Env.

(** The composed reply always closes with the signature. *)
Lemma format_response_signed (ai_response : string) (a : Bedrock.EmailAnalysis) :
  ends_with (Bedrock._format_response ai_response a) signature.
Proof.
  unfold Bedrock._format_response. cbv zeta.
  repeat first [ apply ends_with_refl | apply ends_with_app ].
Qed.

Lemma fallback_response_signed (rt : Runtime) (a : Bedrock.EmailAnalysis) :
  ends_with (Bedrock._fallback_response rt a) signature.
Proof.
  unfold Bedrock._fallback_response.
  repeat first [ apply ends_with_refl | apply ends_with_app ].
Qed.

Lemma generate_response_signed (a : Bedrock.EmailAnalysis)
    (content subject : string) (kb : list KBResult) (w w' : World) (r : string) :
  Bedrock.generate_response env a content subject kb w = (Ok r, w') ->
  ends_with r signature.
Proof.
  unfold Bedrock.generate_response, Bedrock._call_bedrock_ai. run.
  destruct (bedrock env); simpl.
  - destruct (invoke_model env _ _); simpl; intros H; inversion H; subst.
    + apply format_response_signed.
    + apply fallback_response_signed.
  - intros H; inversion H; subst. apply fallback_response_signed.
Qed.

(** A reply composed for an Analysis that needs a ticket tells of the
    ticket on a line of its own, before the signature it ends with. *)
Lemma format_response_notice (ai_response : string) (a : Bedrock.EmailAnalysis) :
  Value.truthy (Bedrock.ticket_needed a) = true ->
  notice_then_signature (Bedrock._format_response ai_response a).
Proof.
  intros Hneeded. unfold Bedrock._format_response. cbv zeta. rewrite Hneeded.
  generalize (Py.strip ai_response). intros s.
  match goal with
  | |- notice_then_signature ((s +:+ nl +:+ nl +:+ ?sentence) +:+ nl +:+ nl +:+ signature) =>
      exists (s +:+ nl),
        (substring (String.length ticket_notice) (String.length sentence) sentence
         +:+ nl +:+ nl)
  end.
  rewrite !append_assoc. f_equal.
Qed.

Lemma fallback_response_notice (rt : Runtime) (a : Bedrock.EmailAnalysis) :
  Value.truthy (Bedrock.ticket_needed a) = true ->
  notice_then_signature (Bedrock._fallback_response rt a).
Proof.
  intros Hneeded. unfold Bedrock._fallback_response. rewrite Hneeded.
  generalize (py_str rt (Bedrock.category a)). intros c.
  match goal with
  | |- notice_then_signature (?hello +:+ c +:+ ?inquiry +:+ ?created +:+ ?rest +:+ signature) =>
      exists (hello +:+ c +:+ Py.take (String.length inquiry - 1) inquiry),
        (substring (String.length ticket_notice) (String.length created) created
         +:+ rest)
  end.
  rewrite !append_assoc. f_equal.
Qed.

Lemma generate_response_notice (a : Bedrock.EmailAnalysis)
    (content subject : string) (kb : list KBResult) (w w' : World) (r : string) :
  Value.truthy (Bedrock.ticket_needed a) = true ->
  Bedrock.generate_response env a content subject kb w = (Ok r, w') ->
  notice_then_signature r.
Proof.
  intros Hneeded.
  unfold Bedrock.generate_response, Bedrock._call_bedrock_ai. run.
  destruct (bedrock env); simpl.
  - destruct (invoke_model env _ _); simpl; intros H; inversion H; subst.
    + apply format_response_notice. exact Hneeded.
    + apply fallback_response_notice. exact Hneeded.
  - intros H; inversion H; subst. apply fallback_response_notice. exact Hneeded.
Qed.

(** When the ticket table refuses the row, ticket creation returns
    [None], leaves the table as it was and logs the failure. *)
Lemma create_support_ticket_refused (email : Email) (a : Bedrock.EmailAnalysis)
    (w : World) :
  (forall now row, is_ok (tickets_insert env now row) = false) ->
  exists w' e,
    Automation._create_support_ticket env email a w = (Ok None, w')
    /\ support_tickets w' = support_tickets w
    /\ log w' = (log w ++ [(ERROR, "Failed to create support ticket: " +:+ exn_message e)])%list.
Proof.
  intros Hdown.
  unfold Automation._create_support_ticket. run.
  repeat match goal with
         | |- context [ match ?m !! ?k with _ => _ end ] =>
             destruct (m !! k); simpl
         end;
    try solve [ eexists; eexists (KeyError _);
                split; [ reflexivity | split; reflexivity ] ].
  match goal with
  | |- context [ tickets_insert env ?n ?r ] =>
      specialize (Hdown n r); destruct (tickets_insert env n r); simpl
  end.
  - discriminate.
  - do 2 eexists; split; [ reflexivity | split; reflexivity ].
Qed.

(** *** On a mail that carries its five keys *)

Variables (email : Email) (id thread subject sender body : string).
Hypothesis Hmail : carries email id thread subject sender body.

Ltac lookup :=
  destruct Hmail as (Hid & Hthread & Hsubject & Hsender & Hbody);
  rewrite ?Hid, ?Hthread, ?Hsubject, ?Hsender, ?Hbody; simpl.

(** When the ticket table accepts the row, the ticket is stored
    under a fresh id, which is returned. *)
Lemma create_support_ticket_accepted (a : Bedrock.EmailAnalysis) (w : World) :
  (forall now row, tickets_insert env now row = Ok tt) ->
  exists w' ticket,
    Automation._create_support_ticket env email a w
    = (Ok (Some (uuid4 env (length (calls w)))), w')
    /\ td_id ticket = uuid4 env (length (calls w))
    /\ support_tickets w' = (support_tickets w ++ [ticket])%list.
Proof.
  intros Hup.
  unfold Automation._create_support_ticket. run. lookup.
  rewrite Hup. simpl.
  do 2 eexists. split; [ reflexivity | ].
  split; [ | reflexivity ]. reflexivity.
Qed.

(** The row submitted to the ticket table, field by field. *)
Lemma create_support_ticket_row (a : Bedrock.EmailAnalysis) (w : World) :
  (forall now row, tickets_insert env now row = Ok tt) ->
  exists w' ticket,
    Automation._create_support_ticket env email a w
    = (Ok (Some (uuid4 env (length (calls w)))), w')
    /\ support_tickets w' = (support_tickets w ++ [ticket])%list
    /\ In (InsertTicket ticket) (calls w')
    /\ td_id ticket = uuid4 env (length (calls w))
    /\ td_title ticket = subject
    /\ td_description ticket = Py.take 1000 body
    /\ td_priority ticket = Bedrock.priority a
    /\ td_category ticket = Bedrock.category a
    /\ td_status ticket = "open"
    /\ td_customer_email ticket = Automation._extract_email_address sender
    /\ td_source ticket = "email_automation"
    /\ td_email_id ticket = id
    /\ td_thread_id ticket = thread.
Proof.
  intros Hup.
  unfold Automation._create_support_ticket. run. lookup.
  rewrite Hup. simpl.
  do 2 eexists. split; [ reflexivity | ].
  split; [ reflexivity | ].
  split; [ | repeat split ].
  simpl. apply in_or_app. right. left. reflexivity.
Qed.

Abbreviation reply_mail := (Automation.reply_mail sender subject thread).

(** The reply step hands exactly that mail to the outbox and never
    raises, whether the outbox takes it or not. *)
Lemma send_automated_response_spec (response : string) (a : Bedrock.EmailAnalysis)
    (ticket_id : option string) (w : World) :
  exists w',
    Automation._send_automated_response env email response a ticket_id w = (Ok tt, w')
    /\ sent_mails (calls w')
       = (sent_mails (calls w) ++ [reply_mail response ticket_id])%list
    /\ support_tickets w' = support_tickets w
    /\ (is_ok (gmail_send env (length (calls w)) (reply_mail response ticket_id)) = true ->
        outbox w' = (outbox w ++ [reply_mail response ticket_id])%list)
    /\ (is_ok (gmail_send env (length (calls w)) (reply_mail response ticket_id)) = false ->
        outbox w' = outbox w
        /\ exists e, In (ERROR, "Failed to send automated response: " +:+ exn_message e)
                        (log w')).
Proof.
  unfold Automation._send_automated_response, Automation.send_email,
    Automation._log_email_sent. run. lookup.
  change (Build_EmailData _ _ _ _) with (reply_mail response ticket_id).
  destruct (gmail_send env _ _) as [r | e]; simpl.
  - match goal with
    | |- context [ interactions_insert env ?n ?r ] =>
        destruct (interactions_insert env n r)
    end; simpl;
      (eexists; split; [ reflexivity | ]; simpl;
       rewrite ?sent_mails_app; simpl; rewrite ?app_nil_r;
       repeat split; try reflexivity; discriminate).
  - eexists; split; [ reflexivity | ]; simpl.
    rewrite ?sent_mails_app; simpl.
    repeat split; try reflexivity; try discriminate.
    exists e. apply in_or_app. right. left. reflexivity.
Qed.

Abbreviation processed_row := (Automation.processed_row env id thread subject sender).

(** The log step asks the interaction log to append that row, which
    is stored when the log accepts it, and never raises. *)
Lemma log_email_processing_spec (a : Bedrock.EmailAnalysis)
    (ticket_id : option string) (w : World) :
  let row := email_processed (processed_row a ticket_id w) in
  exists w',
    Automation._log_email_processing env email a ticket_id w = (Ok tt, w')
    /\ calls w' = (calls w ++ [Uuid4; UtcNow; InsertInteraction row])%list
    /\ outbox w' = outbox w
    /\ support_tickets w' = support_tickets w
    /\ log w `prefix_of` log w'
    /\ (is_ok (interactions_insert env (S (S (length (calls w)))) row) = true ->
        support_interactions w' = (support_interactions w ++ [row])%list).
Proof.
  unfold Automation._log_email_processing. run. lookup.
  rewrite !length_app. simpl. rewrite !Nat.add_1_r.
  change (Build_ProcessedRow _ _ _ _ _ _ _ _ _ _ _ _ _ _)
    with (processed_row a ticket_id w).
  destruct (interactions_insert env _ _) as [[] | e]; simpl.
  - eexists; split; [ reflexivity | ]; simpl.
    rewrite <- !app_assoc. simpl.
    repeat split; reflexivity.
  - eexists; split; [ reflexivity | ]; simpl.
    rewrite <- !app_assoc. simpl.
    repeat split; try reflexivity; try discriminate.
    apply prefix_app_r. reflexivity.
Qed.

Lemma prefix_In {A} (x : A) (l l' : list A) :
  l `prefix_of` l' -> In x l -> In x l'.
Proof. intros [k ->] H. apply in_or_app. left. exact H. Qed.

Lemma quiet_clock_not_send (c : Call) :
  is_clock_call c = true -> negb (is_send c) = true.
Proof. destruct c; simpl; congruence. Qed.

(** Step 3: the ticket. *)
Lemma ticket_step (a : Bedrock.EmailAnalysis) (w : World) :
  exists ticket_id w',
    (if Value.truthy (Bedrock.ticket_needed a)
     then Automation._create_support_ticket env email a
     else ret None) w = (Ok ticket_id, w')
    /\ World_le w w'
    /\ sent_mails (calls w') = sent_mails (calls w)
    /\ outbox w' = outbox w
    /\ (Value.truthy (Bedrock.ticket_needed a) = false ->
        ticket_id = None /\ support_tickets w' = support_tickets w)
    /\ ((forall now row, is_ok (tickets_insert env now row) = false) ->
        ticket_id = None /\ support_tickets w' = support_tickets w
        /\ (Value.truthy (Bedrock.ticket_needed a) = true ->
            exists e, In (ERROR, "Failed to create support ticket: " +:+ exn_message e)
                         (log w')))
    /\ (Value.truthy (Bedrock.ticket_needed a) = true ->
        (forall now row, tickets_insert env now row = Ok tt) ->
        exists ticket,
          ticket_id = Some (td_id ticket)
          /\ td_id ticket = uuid4 env (length (calls w))
          /\ support_tickets w' = (support_tickets w ++ [ticket])%list).
Proof.
  destruct (Value.truthy (Bedrock.ticket_needed a)) eqn:Hneeded.
  - destruct (returns_run _ w (create_support_ticket_returns env email a))
      as (ticket_id & w' & Hrun).
    exists ticket_id, w'. split; [ exact Hrun | ].
    pose proof (create_support_ticket_grows env email a w) as Hle.
    pose proof (create_support_ticket_preserves env
                  (fun w => sent_mails (calls w)) _ ignores_sent_mails
                  quiet_clock_not_send (fun _ => eq_refl) (fun _ _ => eq_refl)
                  email a w) as Hsent.
    pose proof (create_support_ticket_preserves env outbox _ ignores_outbox
                  (fun _ _ => eq_refl) (fun _ => eq_refl) (fun _ _ => eq_refl)
                  email a w) as Hout.
    rewrite Hrun in Hle, Hsent, Hout. simpl in Hle, Hsent, Hout.
    split; [ exact Hle | ].
    split; [ exact Hsent | ].
    split; [ exact Hout | ].
    split; [ discriminate | ].
    split.
    + intros Hdown.
      destruct (create_support_ticket_refused email a w Hdown)
        as (w2 & e & Hrun2 & Htable & Hlog).
      rewrite Hrun in Hrun2. inversion Hrun2; subst.
      split; [ reflexivity | ].
      split; [ exact Htable | ].
      intros _. exists e. rewrite Hlog. apply in_or_app. right. left. reflexivity.
    + intros _ Hup.
      destruct (create_support_ticket_accepted a w Hup)
        as (w2 & ticket & Hrun2 & Hid' & Htable).
      rewrite Hrun in Hrun2. inversion Hrun2; subst.
      exists ticket. rewrite Hid'. auto.
  - exists None, w. split; [ reflexivity | ].
    repeat split; try reflexivity; discriminate.
Qed.

(** Step 4 and 5: the reply, behind its gate, with whatever [P] the
    composer is known to give its replies. *)
Lemma reply_step_for (P : string -> Prop) (a : Bedrock.EmailAnalysis)
    (kb : list KBResult) (ticket_id : option string) (w : World) :
  (forall w0 r w1,
      Bedrock.generate_response env a body subject kb w0 = (Ok r, w1) -> P r) ->
  exists w',
    (if Automation.reply_gate a kb
     then
       body <- lift (getitem email "body") ;
       subject <- lift (getitem email "subject") ;
       response <- Bedrock.generate_response env a body subject kb ;
       Automation._send_automated_response env email response a ticket_id
     else ret tt) w = (Ok tt, w')
    /\ World_le w w'
    /\ support_tickets w' = support_tickets w
    /\ (Automation.reply_gate a kb = false ->
        sent_mails (calls w') = sent_mails (calls w) /\ outbox w' = outbox w)
    /\ (Automation.reply_gate a kb = true ->
        exists response,
          P response
          /\ sent_mails (calls w')
             = (sent_mails (calls w) ++ [reply_mail response ticket_id])%list
          /\ ((forall now data, is_ok (gmail_send env now data) = true) ->
              outbox w' = (outbox w ++ [reply_mail response ticket_id])%list)
          /\ ((forall now data, is_ok (gmail_send env now data) = false) ->
              outbox w' = outbox w
              /\ exists e,
                   In (ERROR, "Failed to send automated response: " +:+ exn_message e)
                      (log w'))).
Proof.
  intros HP.
  destruct (Automation.reply_gate a kb) eqn:Hgate.
  - destruct (returns_run _ w (generate_response_returns env a body subject kb))
      as (response & w3 & Hgen).
    pose proof (generate_response_grows env a body subject kb w) as Hle.
    pose proof (generate_response_preserves env (fun w => sent_mails (calls w)) _
                  ignores_sent_mails (fun _ => eq_refl) a body subject kb w) as Hsent.
    pose proof (generate_response_preserves env outbox _
                  ignores_outbox (fun _ => eq_refl) a body subject kb w) as Hout.
    pose proof (generate_response_preserves env support_tickets _
                  ignores_support_tickets (fun _ => eq_refl) a body subject kb w)
      as Htab.
    rewrite Hgen in Hle, Hsent, Hout, Htab. simpl in Hle, Hsent, Hout, Htab.
    destruct (send_automated_response_spec response a ticket_id w3)
      as (w' & Hsend & Hsent' & Htab' & Haccept & Hrefuse).
    pose proof (send_automated_response_grows env email response a ticket_id w3)
      as Hle'.
    rewrite Hsend in Hle'. simpl in Hle'.
    exists w'. split.
    + unfold bind, lift, getitem.
      destruct Hmail as (_ & _ & -> & _ & ->). rewrite Hgen. exact Hsend.
    + split; [ eapply World_le_trans; eassumption | ].
      split; [ congruence | ].
      split; [ discriminate | ].
      intros _. exists response.
      split; [ eapply HP; exact Hgen | ].
      split; [ congruence | ].
      split.
      * intros Hup. rewrite Haccept by apply Hup. congruence.
      * intros Hdown. destruct (Hrefuse (Hdown _ _)) as [Hsame Hlog].
        split; [ congruence | exact Hlog ].
  - exists w. split; [ reflexivity | ].
    split; [ apply World_le_refl | ].
    split; [ reflexivity | ].
    split; [ auto | discriminate ].
Qed.

(** Step 4 and 5: the reply, behind its gate. *)
Lemma reply_step (a : Bedrock.EmailAnalysis) (kb : list KBResult)
    (ticket_id : option string) (w : World) :
  exists w',
    (if Automation.reply_gate a kb
     then
       body <- lift (getitem email "body") ;
       subject <- lift (getitem email "subject") ;
       response <- Bedrock.generate_response env a body subject kb ;
       Automation._send_automated_response env email response a ticket_id
     else ret tt) w = (Ok tt, w')
    /\ World_le w w'
    /\ support_tickets w' = support_tickets w
    /\ (Automation.reply_gate a kb = false ->
        sent_mails (calls w') = sent_mails (calls w) /\ outbox w' = outbox w)
    /\ (Automation.reply_gate a kb = true ->
        exists response,
          ends_with response signature
          /\ sent_mails (calls w')
             = (sent_mails (calls w) ++ [reply_mail response ticket_id])%list
          /\ ((forall now data, is_ok (gmail_send env now data) = true) ->
              outbox w' = (outbox w ++ [reply_mail response ticket_id])%list)
          /\ ((forall now data, is_ok (gmail_send env now data) = false) ->
              outbox w' = outbox w
              /\ exists e,
                   In (ERROR, "Failed to send automated response: " +:+ exn_message e)
                      (log w'))).
Proof.
  apply (reply_step_for (fun r => ends_with r signature)).
  intros w0 r w1 Hgen. eapply generate_response_signed. exact Hgen.
Qed.

(** Steps 3 to 6 together: what [act] leaves behind, with whatever
    [P] the composer is known to give its replies. *)
Lemma act_spec_for (P : string -> Prop) (a : Bedrock.EmailAnalysis)
    (kb : list KBResult) (w : World) :
  (forall w0 r w1,
      Bedrock.generate_response env a body subject kb w0 = (Ok r, w1) -> P r) ->
  exists w' ticket_id row,
    Automation.act env email a kb w = (Ok tt, w')
    /\ World_le w w'
    (* the interaction record *)
    /\ (last (calls w') = Some (InsertInteraction (email_processed row))
        /\ pr_email_id row = id
        /\ pr_ticket_id row = ticket_id
        /\ pr_ticket_created row
           = match ticket_id with Some _ => true | None => false end
        /\ pr_requires_human row = Bedrock.requires_human a
        /\ ((forall now r, is_ok (interactions_insert env now r) = true) ->
            last (support_interactions w') = Some (email_processed row)))
    (* the reply *)
    /\ (Automation.reply_gate a kb = false ->
        sent_mails (calls w') = sent_mails (calls w) /\ outbox w' = outbox w)
    /\ (Automation.reply_gate a kb = true ->
        exists response,
          P response
          /\ sent_mails (calls w')
             = (sent_mails (calls w) ++ [reply_mail response ticket_id])%list
          /\ ((forall now data, is_ok (gmail_send env now data) = true) ->
              outbox w' = (outbox w ++ [reply_mail response ticket_id])%list)
          /\ ((forall now data, is_ok (gmail_send env now data) = false) ->
              outbox w' = outbox w
              /\ exists e,
                   In (ERROR, "Failed to send automated response: " +:+ exn_message e)
                      (log w')))
    (* the ticket *)
    /\ (Value.truthy (Bedrock.ticket_needed a) = false ->
        ticket_id = None /\ support_tickets w' = support_tickets w)
    /\ ((forall now row, is_ok (tickets_insert env now row) = false) ->
        ticket_id = None /\ support_tickets w' = support_tickets w
        /\ (Value.truthy (Bedrock.ticket_needed a) = true ->
            exists e, In (ERROR, "Failed to create support ticket: " +:+ exn_message e)
                         (log w')))
    /\ (Value.truthy (Bedrock.ticket_needed a) = true ->
        (forall now row, tickets_insert env now row = Ok tt) ->
        exists ticket,
          ticket_id = Some (td_id ticket)
          /\ td_id ticket = uuid4 env (length (calls w))
          /\ support_tickets w' = (support_tickets w ++ [ticket])%list).
Proof.
  intros HP.
  destruct (ticket_step a w)
    as (ticket_id & w2 & Hticket & Hle2 & Hsent2 & Hout2 & Hnone & Hrefused & Hcreated).
  destruct (reply_step_for P a kb ticket_id w2 HP)
    as (w4 & Hreply & Hle4 & Htab4 & Hclosed & Hopen).
  destruct (log_email_processing_spec a ticket_id w4)
    as (w5 & Hlog & Hcalls5 & Hout5 & Htab5 & Hlog5 & Hstored).
  pose proof (log_email_processing_grows env email a ticket_id w4) as Hle5.
  rewrite Hlog in Hle5. simpl in Hle5.
  eexists _, ticket_id, (processed_row a ticket_id w4).
  split.
  { unfold Automation.act.
    rewrite (bind_ok _ _ _ _ _ Hticket).
    rewrite (bind_ok _ _ _ _ _ Hreply).
    rewrite (bind_ok _ _ _ _ _ Hlog).
    reflexivity. }
  simpl.
  assert (Hle : World_le w w5)
    by (eapply World_le_trans; [ exact Hle2 | ];
        eapply World_le_trans; eassumption).
  assert (Hsent5 : sent_mails (calls w5) = sent_mails (calls w4)).
  { rewrite Hcalls5, sent_mails_app. simpl. apply app_nil_r. }
  split; [ eapply World_le_trans; [ exact Hle | apply le_set_log ] | ].
  split.
  { split; [ rewrite Hcalls5, last_app; reflexivity | ].
    repeat (split; [ reflexivity | ]).
    intros Hup. rewrite Hstored by apply Hup. apply last_snoc. }
  split.
  { intros Hgate. destruct (Hclosed Hgate) as [Hs Ho].
    split; congruence. }
  split.
  { intros Hgate. destruct (Hopen Hgate) as (response & Hsig & Hs & Hup & Hdown).
    exists response. split; [ exact Hsig | ].
    split; [ congruence | ].
    split.
    - intros Hall. rewrite Hout5, (Hup Hall). congruence.
    - intros Hall. destruct (Hdown Hall) as [Ho (e & He)].
      split; [ congruence | ].
      exists e. apply in_or_app. left.
      eapply prefix_In; [ exact Hlog5 | exact He ]. }
  split.
  { intros Hno. destruct (Hnone Hno) as [-> Htab]. split; [ reflexivity | congruence ]. }
  split.
  { intros Hall. destruct (Hrefused Hall) as (-> & Htab & Hlogged).
    split; [ reflexivity | ]. split; [ congruence | ].
    intros Hneeded. destruct (Hlogged Hneeded) as (e & He).
    exists e. apply in_or_app. left.
    eapply prefix_In; [ exact Hlog5 | ].
    eapply prefix_In; [ apply (le_log _ _ Hle4) | exact He ]. }
  intros Hneeded Hall.
  destruct (Hcreated Hneeded Hall) as (ticket & -> & Hid' & Htab).
  exists ticket. split; [ reflexivity | ]. split; [ exact Hid' | congruence ].
Qed.

(** Steps 3 to 6 together: what [act] leaves behind. *)
Lemma act_spec (a : Bedrock.EmailAnalysis) (kb : list KBResult) (w : World) :
  exists w' ticket_id row,
    Automation.act env email a kb w = (Ok tt, w')
    /\ World_le w w'
    (* the interaction record *)
    /\ (last (calls w') = Some (InsertInteraction (email_processed row))
        /\ pr_email_id row = id
        /\ pr_ticket_id row = ticket_id
        /\ pr_ticket_created row
           = match ticket_id with Some _ => true | None => false end
        /\ pr_requires_human row = Bedrock.requires_human a
        /\ ((forall now r, is_ok (interactions_insert env now r) = true) ->
            last (support_interactions w') = Some (email_processed row)))
    (* the reply *)
    /\ (Automation.reply_gate a kb = false ->
        sent_mails (calls w') = sent_mails (calls w) /\ outbox w' = outbox w)
    /\ (Automation.reply_gate a kb = true ->
        exists response,
          ends_with response signature
          /\ sent_mails (calls w')
             = (sent_mails (calls w) ++ [reply_mail response ticket_id])%list
          /\ ((forall now data, is_ok (gmail_send env now data) = true) ->
              outbox w' = (outbox w ++ [reply_mail response ticket_id])%list)
          /\ ((forall now data, is_ok (gmail_send env now data) = false) ->
              outbox w' = outbox w
              /\ exists e,
                   In (ERROR, "Failed to send automated response: " +:+ exn_message e)
                      (log w')))
    (* the ticket *)
    /\ (Value.truthy (Bedrock.ticket_needed a) = false ->
        ticket_id = None /\ support_tickets w' = support_tickets w)
    /\ ((forall now row, is_ok (tickets_insert env now row) = false) ->
        ticket_id = None /\ support_tickets w' = support_tickets w
        /\ (Value.truthy (Bedrock.ticket_needed a) = true ->
            exists e, In (ERROR, "Failed to create support ticket: " +:+ exn_message e)
                         (log w')))
    /\ (Value.truthy (Bedrock.ticket_needed a) = true ->
        (forall now row, tickets_insert env now row = Ok tt) ->
        exists ticket,
          ticket_id = Some (td_id ticket)
          /\ td_id ticket = uuid4 env (length (calls w))
          /\ support_tickets w' = (support_tickets w ++ [ticket])%list).
Proof.
  apply (act_spec_for (fun r => ends_with r signature)).
  intros w0 r w1 Hgen. eapply generate_response_signed. exact Hgen.
Qed.

(** The whole of [_process_single_email], once steps 1 and 2 have
    given their results. *)
Lemma process_single_email_is_act (a : Bedrock.EmailAnalysis) (kb : list KBResult)
    (w w1 : World) :
  Automation.classify_and_search env email w = (Ok (a, kb), w1) ->
  Automation._process_single_email env email w = Automation.act env email a kb w1.
Proof.
  intros Hfound.
  destruct (act_spec a kb w1) as (w' & ticket_id & row & Hact & _).
  unfold Automation._process_single_email.
  rewrite Hact. apply try_except_ok.
  rewrite (bind_ok _ _ _ _ _ Hfound). exact Hact.
Qed.

(** Steps 1 and 2 always return on such a mail, and ask nothing of
    the outbox, the ticket table or the interaction log. *)
Lemma classify_and_search_spec (w : World) :
  exists a kb w1,
    Automation.classify_and_search env email w = (Ok (a, kb), w1)
    /\ World_le w w1
    /\ sent_mails (calls w1) = sent_mails (calls w)
    /\ outbox w1 = outbox w
    /\ support_tickets w1 = support_tickets w.
Proof.
  unfold Automation.classify_and_search.
  unfold bind at 1 2 3 4, lift, getitem, logger.
  destruct Hmail as (_ & _ & -> & -> & ->).
  set (w0 := set_log _ w).
  destruct (returns_run _ w0 (analyze_email_returns env body subject sender))
    as (a & w1 & Ha).
  destruct (returns_run _ w1 (search_kb_returns env (subject +:+ " " +:+ body)))
    as (kb & w2 & Hkb).
  exists a, kb, w2.
  pose proof (analyze_email_grows env body subject sender w0) as Hle1.
  pose proof (search_kb_grows env (subject +:+ " " +:+ body) w1) as Hle2.
  pose proof (fun X (obs : World -> X) q H1 H2 =>
                analyze_email_preserves env obs q H1 H2 body subject sender w0) as P1.
  pose proof (fun X (obs : World -> X) q H1 H2 =>
                search_kb_preserves env obs q H1 H2 (subject +:+ " " +:+ body) w1) as P2.
  rewrite Ha in Hle1, P1. rewrite Hkb in Hle2, P2. simpl in Hle1, Hle2, P1, P2.
  split; [ rewrite (bind_ok _ _ _ _ _ Ha), (bind_ok _ _ _ _ _ Hkb); reflexivity | ].
  split.
  { eapply World_le_trans; [ apply le_set_log | ].
    eapply World_le_trans; eassumption. }
  split.
  { rewrite (P2 _ (fun w => sent_mails (calls w)) _ ignores_sent_mails (fun _ => eq_refl)).
    rewrite (P1 _ (fun w => sent_mails (calls w)) _ ignores_sent_mails (fun _ => eq_refl)).
    reflexivity. }
  split.
  { rewrite (P2 _ outbox _ ignores_outbox (fun _ => eq_refl)).
    rewrite (P1 _ outbox _ ignores_outbox (fun _ => eq_refl)). reflexivity. }
  rewrite (P2 _ support_tickets _ ignores_support_tickets (fun _ => eq_refl)).
  rewrite (P1 _ support_tickets _ ignores_support_tickets (fun _ => eq_refl)).
  reflexivity.
Qed.

End Pipeline.

End PipelineFacts.

(** ** The loop *)

Module LoopFacts.

Import Run RunFacts StageFacts PipelineFacts.

Section Loop.

Variable env : Env.

(** A message already in the processed set is skipped: nothing is
    asked of anyone. *)
Lemma process_fetched_skips (email : Email) (w : World) :
  email !! "id" ∈ processed_emails w ->
  Automation.process_fetched env email w = (Ok tt, w).
Proof.
  intros Hin. unfold Automation.process_fetched.
  rewrite bool_decide_eq_true_2 by exact Hin. reflexivity.
Qed.

Lemma process_single_email_returns
    (email : Email) (id thread subject sender body : string) (w : World) :
  carries email id thread subject sender body ->
  exists w', Automation._process_single_email env email w = (Ok tt, w').
Proof.
  intros Hmail.
  destruct (classify_and_search_spec env email id thread subject sender body Hmail w)
    as (a & kb & w1 & Hfound & _).
  destruct (act_spec env email id thread subject sender body Hmail a kb w1)
    as (w' & ticket_id & row & Hact & _).
  exists w'.
  rewrite (process_single_email_is_act env email id thread subject sender body
             Hmail a kb w w1 Hfound).
  exact Hact.
Qed.

(** A fetched message that carries its keys is in the processed set
    once the loop has passed over it, whatever the collaborators
    answered. *)
Lemma process_fetched_marks
    (email : Email) (id thread subject sender body : string) (w : World) :
  carries email id thread subject sender body ->
  Some id ∈ processed_emails (snd (Automation.process_fetched env email w)).
Proof.
  intros Hmail.
  destruct (process_single_email_returns email id thread subject sender body w Hmail)
    as (w1 & Hrun).
  destruct Hmail as (Hid & _).
  unfold Automation.process_fetched. rewrite Hid.
  destruct (bool_decide (Some id ∈ processed_emails w)) eqn:E.
  - apply bool_decide_eq_true_1 in E. exact E.
  - unfold try_except, bind. rewrite Hrun. unfold Automation.mark_processed.
    pose proof (mark_email_as_read_grows env (Some id)
                  (set_processed_emails ({[ Some id ]} ∪ processed_emails w1) w1))
      as Hle.
    pose proof (mark_email_as_read_returns env (Some id)
                  (set_processed_emails ({[ Some id ]} ∪ processed_emails w1) w1))
      as Hret.
    destruct (Automation._mark_email_as_read env (Some id) _) as [[[] | e] w3];
      simpl in *; [ | discriminate ].
    apply (le_processed _ _ Hle). simpl. set_solver.
Qed.

(** A message not yet processed goes through the pipeline first:
    when it enters the processed set, its interaction record has
    been submitted, and it was not in the set until then. *)
Lemma process_fetched_new
    (email : Email) (id thread subject sender body : string) (w : World) :
  carries email id thread subject sender body ->
  Some id ∉ processed_emails w ->
  exists w1 w' row,
    Automation._process_single_email env email w = (Ok tt, w1)
    /\ last (calls w1) = Some (InsertInteraction (email_processed row))
    /\ pr_email_id row = id
    /\ (Some id ∉ processed_emails w1)
    /\ Automation.process_fetched env email w = (Ok tt, w')
    /\ World_le w1 w'
    /\ Some id ∈ processed_emails w'.
Proof.
  intros Hmail Hnew.
  destruct (classify_and_search_spec env email id thread subject sender body Hmail w)
    as (a & kb & w0 & Hfound & _).
  destruct (act_spec env email id thread subject sender body Hmail a kb w0)
    as (w1 & ticket_id & row & Hact & _ & (Hlast & Hrow & _) & _).
  pose proof (process_single_email_is_act env email id thread subject sender body
                Hmail a kb w w0 Hfound) as Hrun.
  rewrite Hact in Hrun.
  pose proof (process_single_email_keeps_processed env email w) as Hkeep.
  rewrite Hrun in Hkeep. simpl in Hkeep.
  pose proof (process_fetched_marks email id thread subject sender body w Hmail)
    as Hmarked.
  destruct Hmail as (Hid & _).
  unfold Automation.process_fetched in *. rewrite Hid in *.
  rewrite bool_decide_eq_false_2 in * by exact Hnew.
  unfold try_except, bind in *. rewrite Hrun in *.
  unfold Automation.mark_processed in *.
  pose proof (mark_email_as_read_grows env (Some id)
                (set_processed_emails ({[ Some id ]} ∪ processed_emails w1) w1))
    as Hle.
  pose proof (mark_email_as_read_returns env (Some id)
                (set_processed_emails ({[ Some id ]} ∪ processed_emails w1) w1))
    as Hret.
  destruct (Automation._mark_email_as_read env (Some id) _) as [[[] | e] w3];
    simpl in *; [ | discriminate ].
  exists w1, w3, row.
  split; [ reflexivity | ].
  split; [ exact Hlast | ].
  split; [ exact Hrow | ].
  split; [ rewrite Hkeep; exact Hnew | ].
  split; [ reflexivity | ].
  split; [ | exact Hmarked ].
  eapply World_le_trans; [ apply (le_mark_processed w1 (Some id)) | exact Hle ].
Qed.

(** When the mailbox refuses to mark the message as read, the
    refusal is logged and that is all: the message stays in the
    processed set. *)
Lemma process_fetched_read_refused
    (email : Email) (id thread subject sender body : string) (w : World) :
  carries email id thread subject sender body ->
  Some id ∉ processed_emails w ->
  (forall now i, is_ok (gmail_modify env now i) = false) ->
  exists w' e,
    Automation.process_fetched env email w = (Ok tt, w')
    /\ Some id ∈ processed_emails w'
    /\ marked_read w' = marked_read w
    /\ last (calls w') = Some (GmailModify (Some id))
    /\ last (log w')
       = Some (ERROR, "Failed to mark email as read: " +:+ exn_message e).
Proof.
  intros Hmail Hnew Hdown.
  destruct (process_single_email_returns email id thread subject sender body w Hmail)
    as (w1 & Hrun).
  pose proof (process_single_email_keeps_marked_read env email w) as Hkeep.
  rewrite Hrun in Hkeep. simpl in Hkeep.
  destruct Hmail as (Hid & _).
  unfold Automation.process_fetched. rewrite Hid.
  rewrite bool_decide_eq_false_2 by exact Hnew.
  unfold try_except at 1. unfold bind at 1. rewrite Hrun.
  unfold Automation.mark_processed, Automation._mark_email_as_read.
  unfold bind, try_except, call, logger. simpl.
  specialize (Hdown (length (calls w1)) (Some id)).
  destruct (gmail_modify env (length (calls w1)) (Some id)) as [ [] | e ];
    simpl in *; [ discriminate | ].
  eexists. exists e. split; [ reflexivity | ]. simpl.
  split; [ set_solver | ].
  split; [ exact Hkeep | ].
  split; apply last_snoc.
Qed.

Lemma for_each_marks (emails : list Email)
    (email : Email) (id thread subject sender body : string) (w : World) :
  In email emails ->
  carries email id thread subject sender body ->
  exists w',
    for_each emails (Automation.process_fetched env) w = (Ok tt, w')
    /\ Some id ∈ processed_emails w'.
Proof.
  intros Hin Hmail. revert w.
  induction emails as [ | x rest IH ]; intros w; [ destruct Hin | ].
  simpl. unfold bind.
  pose proof (process_fetched_returns env x w) as Hret.
  destruct (Automation.process_fetched env x w) as [[[] | e] w1] eqn:Hx;
    simpl in Hret; [ | discriminate ].
  destruct Hin as [-> | Hin].
  - pose proof (process_fetched_marks email id thread subject sender body w Hmail)
      as Hmarked.
    rewrite Hx in Hmarked. simpl in Hmarked.
    pose proof (grows_for_each rest _ (process_fetched_grows env) w1) as Hle.
    destruct (returns_run _ w1
                (returns_for_each rest _ (process_fetched_returns env)))
      as ([] & w2 & Hrest).
    rewrite Hrest in Hle. simpl in Hle.
    exists w2. split; [ exact Hrest | ].
    apply (le_processed _ _ Hle). exact Hmarked.
  - apply IH. exact Hin.
Qed.

(** A cycle whose fetch succeeds is the loop over the fetched
    messages. *)
Lemma process_new_emails_fetched (emails : list Email) (w : World) :
  gmail_list env (length (calls w)) "is:unread newer_than:1h" = Ok emails ->
  exists w0,
    forall w',
      for_each emails (Automation.process_fetched env) w0 = (Ok tt, w') ->
      Automation._process_new_emails env w = (Ok tt, w').
Proof.
  intros Hlist.
  unfold Automation._process_new_emails, Automation._fetch_emails.
  repeat (progress unfold try_except, bind, call, logger, no_commit).
  rewrite Hlist. simpl.
  eexists. intros w' Hrun. rewrite Hrun. reflexivity.
Qed.

End Loop.

End LoopFacts.

(** ** Claims on the loop *)




(** C8 as stated fails.  Without a Bedrock client every message gets
    the fail-safe analysis and no knowledge-base results, so the reply
    gate is closed: the ticket table is asked and refuses, and no reply
    is handed to the outbox. *)
Lemma ticket_failure_without_reply :
  let env :=
    Script.env false (Script.model Script.down Script.down Script.down)
               [] [] true false true in
  let run := Automation._process_single_email env Script.outage_mail Script.start in
  fst run = Ok tt
  /\ (exists row, In (InsertTicket row) (calls (snd run)))
  /\ support_tickets (snd run) = []
  /\ sent_mails (calls (snd run)) = []
  /\ outbox (snd run) = [].
Proof.
  cbv zeta. split; [ vm_compute; reflexivity | ].
  split; [ eexists; vm_compute; right; right; left; reflexivity | ].
  repeat split; vm_compute; reflexivity.
Qed.

(** C8, amended: if the ticket table raises during create_ticket,
    ticket creation returns null, the failure is logged and never
    reaches the caller, and the interaction record is submitted with
    ticket_created=false (and stored when the log accepts it).  The
    reply is not affected: as without the failure, one is composed and
    handed to the outbox when requires_human is false or the
    knowledge-base results are non-empty (without a ticket reference;
    it is in the outbox when the outbox accepts it), and none is when
    requires_human is true and there are no results. *)
Theorem ticket_failure_is_contained
    (env : Env) (email : Email) (id thread subject sender body : string)
    (a : Bedrock.EmailAnalysis) (kb : list KBResult) (w w1 : World) :
  carries email id thread subject sender body ->
  Automation.classify_and_search env email w = (Ok (a, kb), w1) ->
  Value.truthy (Bedrock.ticket_needed a) = true ->
  (forall now row, is_ok (tickets_insert env now row) = false) ->
  exists w' row,
    Automation._process_single_email env email w = (Ok tt, w')
    /\ support_tickets w' = support_tickets w
    /\ (exists e, In (ERROR, "Failed to create support ticket: " +:+ exn_message e)
                     (log w'))
    /\ (last (calls w') = Some (InsertInteraction (email_processed row))
        /\ pr_email_id row = id
        /\ pr_ticket_created row = false
        /\ pr_ticket_id row = None
        /\ ((forall now r, is_ok (interactions_insert env now r) = true) ->
            last (support_interactions w') = Some (email_processed row)))
    /\ (Automation.reply_gate a kb = true ->
        exists response,
          ends_with response signature
          /\ sent_mails (calls w')
             = (sent_mails (calls w)
                ++ [Automation.reply_mail sender subject thread response None])%list
          /\ ed_body (Automation.reply_mail sender subject thread response None) = response
          /\ ((forall now data, is_ok (gmail_send env now data) = true) ->
              outbox w'
              = (outbox w ++ [Automation.reply_mail sender subject thread response None])%list))
    /\ (Automation.reply_gate a kb = false ->
        sent_mails (calls w') = sent_mails (calls w) /\ outbox w' = outbox w).
Proof.
  intros Hmail Hfound Hneeded Hrefused.
  destruct (PipelineFacts.classify_and_search_spec env email id thread subject sender body
              Hmail w) as (a' & kb' & w1' & Hfound' & _ & Hsent1 & Hout1 & Htab1).
  rewrite Hfound in Hfound'. inversion Hfound'; subst a' kb' w1'. clear Hfound'.
  destruct (PipelineFacts.act_spec env email id thread subject sender body Hmail a kb w1)
    as (w' & ticket_id & row & Hact & _ & Hrecord & Hclosed & Hopen & _ & Hfail & _).
  destruct (Hfail Hrefused) as (-> & Htab & Hlogged).
  destruct Hrecord as (Hlast & Hrow_id & Hrow_ticket & Hrow_created & _ & Hstored).
  exists w', row.
  split.
  { rewrite (PipelineFacts.process_single_email_is_act env email id thread subject sender
               body Hmail a kb w w1 Hfound). exact Hact. }
  split; [ congruence | ].
  split; [ apply Hlogged; exact Hneeded | ].
  split; [ repeat split; assumption | ].
  split.
  - intros Hgate. destruct (Hopen Hgate) as (response & Hsig & Hsent & Hup & _).
    exists response. split; [ exact Hsig | ].
    split; [ congruence | ].
    split; [ reflexivity | ].
    intros Hall. rewrite (Hup Hall). congruence.
  - intros Hgate. destruct (Hclosed Hgate) as [Hsent Hout]. split; congruence.
Qed.

Lemma ticket_failure_is_contained_witness :
  exists w',
    Automation._process_single_email
      (Script.env true
         (Script.model (Ok Script.ticket_reply) (Ok "outage, production")
                       (Ok "We are on it."))
         [] [] true false true)
      Script.outage_mail Script.start = (Ok tt, w')
    /\ support_tickets w' = []
    /\ exists data, outbox w' = [data].
Proof.
  edestruct (ticket_failure_is_contained
               (Script.env true
                  (Script.model (Ok Script.ticket_reply) (Ok "outage, production")
                                (Ok "We are on it."))
                  [] [] true false true)
               Script.outage_mail
               "18c2f09e5d1a7b33" "18c2f09e5d1a7b33" "System outage"
               "Dana Smith <dana@example.com>" "URGENT: production is down")
    as (w' & row & Hrun & Htab & _ & _ & Hopen & _).
  - repeat split; vm_compute; reflexivity.
  - vm_compute. reflexivity.
  - reflexivity.
  - intros now row. reflexivity.
  - exists w'. split; [ exact Hrun | ]. split; [ exact Htab | ].
    destruct (Hopen eq_refl) as (response & _ & _ & _ & Hup).
    eexists. apply Hup. intros now data. reflexivity.
Defined.

Module OccurrenceFacts.

Lemma cons_append (c : ascii) (s t : string) : String c s +:+ t = String c (s +:+ t).
Proof. reflexivity. Qed.

Lemma index_unfold (sub : string) (c : ascii) (s : string) :
  String.index 0 sub (String c s)
  = if String.prefix sub (String c s) then Some 0%nat
    else match String.index 0 sub s with
         | Some n => Some (S n)
         | None => None
         end.
Proof. reflexivity. Qed.

Lemma rindex_unfold (sub : string) (c : ascii) (s : string) :
  Py.rindex sub (String c s)
  = match Py.rindex sub s with
    | Some i => Some (S i)
    | None => if String.prefix sub (String c s) then Some 0%nat else None
    end.
Proof. reflexivity. Qed.

Lemma length_of_append (s t : string) :
  String.length (s +:+ t) = (String.length s + String.length t)%nat.
Proof.
  induction s as [ | c s IH ]; [ reflexivity | ].
  rewrite cons_append. simpl. rewrite IH. reflexivity.
Qed.

Lemma prefix_append (pat post : string) : String.prefix pat (pat +:+ post) = true.
Proof.
  induction pat as [ | c pat IH ].
  - change (EmptyString +:+ post) with post. destruct post; reflexivity.
  - rewrite cons_append. simpl.
    destruct (ascii_dec c c) as [ _ | H ]; [ exact IH | contradiction ].
Qed.

(** [s.find(pat)] is at most the place of any occurrence of [pat]. *)
Lemma index_occurrence (pat pre post : string) :
  exists i,
    String.index 0 pat (pre +:+ pat +:+ post) = Some i
    /\ (i <= String.length pre)%nat.
Proof.
  induction pre as [ | c pre (i & Hi & Hle) ].
  - exists 0%nat. split; [ | simpl; lia ].
    change (EmptyString +:+ pat +:+ post) with (pat +:+ post).
    pose proof (prefix_append pat post) as Hp.
    destruct (pat +:+ post) as [ | x s ] eqn:E.
    + destruct pat as [ | y pat ]; [ reflexivity | ].
      rewrite cons_append in E. discriminate E.
    + rewrite index_unfold, Hp. reflexivity.
  - rewrite cons_append, index_unfold.
    destruct (String.prefix pat _).
    + exists 0%nat. split; [ reflexivity | simpl; lia ].
    + rewrite Hi. exists (S i). split; [ reflexivity | simpl; lia ].
Qed.

(** [s.rfind(pat)] is at least the place of any occurrence of [pat]. *)
Lemma rindex_occurrence (pat pre post : string) :
  exists j,
    Py.rindex pat (pre +:+ pat +:+ post) = Some j
    /\ (String.length pre <= j)%nat.
Proof.
  induction pre as [ | c pre (j & Hj & Hle) ].
  - change (EmptyString +:+ pat +:+ post) with (pat +:+ post).
    pose proof (prefix_append pat post) as Hp.
    destruct (pat +:+ post) as [ | x s ] eqn:E.
    + exists 0%nat. split; [ | simpl; lia ].
      change (Py.rindex pat EmptyString)
        with (if String.prefix pat EmptyString then Some 0%nat else None).
      rewrite Hp. reflexivity.
    + rewrite rindex_unfold.
      destruct (Py.rindex pat s) as [ k | ].
      * exists (S k). split; [ reflexivity | simpl; lia ].
      * rewrite Hp. exists 0%nat. split; [ reflexivity | simpl; lia ].
  - rewrite cons_append, rindex_unfold, Hj.
    exists (S j). split; [ reflexivity | simpl; lia ].
Qed.

(** In a text with a line that opens with the notice of a ticket and,
    later, a signature, a line that refers to a ticket starts before
    the closing signature does. *)
Lemma notice_precedes_signature (before after tail : string) :
  reference_before_signature
    (before +:+ nl +:+ ticket_notice +:+ after +:+ signature +:+ tail) = true.
Proof.
  unfold reference_before_signature.
  destruct (rindex_occurrence signature (before +:+ nl +:+ ticket_notice +:+ after) tail)
    as (j & Hj & Hlej).
  rewrite !PipelineFacts.append_assoc in Hj. rewrite Hj.
  destruct (index_occurrence (nl +:+ ticket_notice) before (after +:+ signature +:+ tail))
    as (i & Hi & Hlei).
  rewrite !PipelineFacts.append_assoc in Hi.
  unfold reference_openings, line_opening. cbn [existsb]. rewrite Hi.
  apply orb_true_iff. left. apply Nat.ltb_lt.
  rewrite !length_of_append in Hlej.
  change (String.length nl) with 1%nat in Hlej.
  change (String.length ticket_notice) with 33%nat in Hlej.
  lia.
Qed.

(** The line with the number of the ticket does not count for it: in a
    reply without the notice, it stands after the signature. *)
Lemma number_line_follows_signature :
  reference_before_signature
    ("We are on it." +:+ nl +:+ nl +:+ signature
     +:+ nl +:+ nl +:+ reference_mark +:+ "7c9e6679") = false.
Proof. vm_compute. reflexivity. Qed.

End OccurrenceFacts.



(** C10: in [_process_single_email], once the analysis and the
    knowledge-base results are there, a reply is composed and handed to
    the outbox only when requires_human is false or the results are not
    empty, and then exactly one is.  When requires_human is true and
    there are no results, nothing is handed to the outbox, and the
    interaction record of the message is still submitted to the
    interaction log, as the last request of the run (and stored when the
    log accepts it). *)
Theorem reply_gate_decides
    (env : Env) (email : Email) (id thread subject sender body : string)
    (a : Bedrock.EmailAnalysis) (kb : list KBResult) (w w1 : World) :
  carries email id thread subject sender body ->
  Automation.classify_and_search env email w = (Ok (a, kb), w1) ->
  exists w' row,
    Automation._process_single_email env email w = (Ok tt, w')
    /\ (sent_mails (calls w') <> sent_mails (calls w) ->
        Value.truthy (Bedrock.requires_human a) = false \/ kb <> [])
    /\ (Value.truthy (Bedrock.requires_human a) = false \/ kb <> [] ->
        exists data, sent_mails (calls w') = (sent_mails (calls w) ++ [data])%list
                     /\ ed_subject data = "Re: " +:+ subject)
    /\ (Value.truthy (Bedrock.requires_human a) = true -> kb = [] ->
        sent_mails (calls w') = sent_mails (calls w) /\ outbox w' = outbox w)
    /\ (last (calls w') = Some (InsertInteraction (email_processed row))
        /\ pr_email_id row = id
        /\ pr_requires_human row = Bedrock.requires_human a
        /\ ((forall now r, is_ok (interactions_insert env now r) = true) ->
            last (support_interactions w') = Some (email_processed row))).
Proof.
  intros Hmail Hfound.
  destruct (PipelineFacts.classify_and_search_spec env email id thread subject sender body
              Hmail w) as (a' & kb' & w1' & Hfound' & _ & Hsent1 & Hout1 & _).
  rewrite Hfound in Hfound'. inversion Hfound'; subst a' kb' w1'. clear Hfound'.
  destruct (PipelineFacts.act_spec env email id thread subject sender body Hmail a kb w1)
    as (w' & ticket_id & row & Hact & _ & Hrecord & Hclosed & Hopen & _).
  destruct Hrecord as (Hlast & Hrow_id & _ & _ & Hrow_human & Hstored).
  assert (Hgate : Automation.reply_gate a kb = true
                  <-> Value.truthy (Bedrock.requires_human a) = false \/ kb <> []).
  { unfold Automation.reply_gate.
    destruct (Value.truthy (Bedrock.requires_human a)); destruct kb; simpl.
    - split; [ discriminate | ].
      intros [H | H]; [ discriminate | contradiction ].
    - split; [ right; discriminate | reflexivity ].
    - split; [ left; reflexivity | reflexivity ].
    - split; [ left; reflexivity | reflexivity ]. }
  exists w', row.
  split.
  { rewrite (PipelineFacts.process_single_email_is_act env email id thread subject sender
               body Hmail a kb w w1 Hfound). exact Hact. }
  split.
  { intros Hchanged. apply Hgate.
    destruct (Automation.reply_gate a kb) eqn:E; [ reflexivity | ].
    destruct (Hclosed eq_refl) as [Hsame _]. congruence. }
  split.
  { intros Hwhen. apply Hgate in Hwhen.
    destruct (Hopen Hwhen) as (response & _ & Hsent & _).
    eexists. split; [ rewrite Hsent, Hsent1; reflexivity | reflexivity ]. }
  split.
  { intros Hhuman ->.
    assert (Hshut : Automation.reply_gate a [] = false)
      by (unfold Automation.reply_gate; rewrite Hhuman; reflexivity).
    destruct (Hclosed Hshut) as [Hsame Hout]. split; congruence. }
  repeat split; assumption.
Qed.

Lemma reply_gate_decides_witness :
  exists w' row,
    Automation._process_single_email
      (Script.env false (Script.model Script.down Script.down Script.down)
                  [] [] true true true)
      Script.outage_mail Script.start = (Ok tt, w')
    /\ sent_mails (calls w') = []
    /\ outbox w' = []
    /\ last (support_interactions w') = Some (email_processed row)
    /\ pr_email_id row = "18c2f09e5d1a7b33".
Proof.
  edestruct (reply_gate_decides
               (Script.env false (Script.model Script.down Script.down Script.down)
                           [] [] true true true)
               Script.outage_mail
               "18c2f09e5d1a7b33" "18c2f09e5d1a7b33" "System outage"
               "Dana Smith <dana@example.com>" "URGENT: production is down")
    as (w' & row & Hrun & _ & _ & Hshut & _ & Hrow & _ & Hstored).
  - repeat split; vm_compute; reflexivity.
  - vm_compute. reflexivity.
  - exists w', row. split; [ exact Hrun | ].
    destruct (Hshut eq_refl eq_refl) as [Hsent Hout].
    split; [ exact Hsent | ]. split; [ exact Hout | ].
    split; [ apply Hstored; intros now r; reflexivity | exact Hrow ].
Defined.

(** ** Further properties of the pipeline *)

(** X1, idempotence within a run: once the loop has passed over a
    fetched message, passing over it again changes nothing, in that
    world or any later one: no request is made, so no second reply and
    no second ticket. *)
Theorem second_pass_is_skipped
    (env : Env) (email : Email) (id thread subject sender body : string) (w : World) :
  carries email id thread subject sender body ->
  exists w1,
    Automation.process_fetched env email w = (Ok tt, w1)
    /\ forall w2, World_le w1 w2 ->
                 Automation.process_fetched env email w2 = (Ok tt, w2).
Proof.
  intros Hmail.
  pose proof (LoopFacts.process_fetched_marks env email id thread subject sender body
                w Hmail) as Hmarked.
  pose proof (StageFacts.process_fetched_returns env email w) as Hret.
  destruct (Automation.process_fetched env email w) as [[[] | e] w1] eqn:Hrun;
    simpl in *; [ | discriminate ].
  exists w1. split; [ reflexivity | ].
  intros w2 Hle. apply LoopFacts.process_fetched_skips.
  destruct Hmail as (-> & _).
  apply (le_processed _ _ Hle). exact Hmarked.
Qed.

Lemma second_pass_is_skipped_witness :
  exists w1,
    Automation.process_fetched
      (Script.env true
         (Script.model (Ok Script.ticket_reply) (Ok "outage, production") (Ok "We are on it."))
         [Script.outage_mail] [] true true true)
      Script.outage_mail Script.start = (Ok tt, w1)
    /\ Automation.process_fetched
         (Script.env true
            (Script.model (Ok Script.ticket_reply) (Ok "outage, production") (Ok "We are on it."))
            [Script.outage_mail] [] true true true)
         Script.outage_mail w1 = (Ok tt, w1).
Proof.
  destruct (second_pass_is_skipped
              (Script.env true
                 (Script.model (Ok Script.ticket_reply) (Ok "outage, production")
                               (Ok "We are on it."))
                 [Script.outage_mail] [] true true true)
              Script.outage_mail "18c2f09e5d1a7b33" "18c2f09e5d1a7b33" "System outage"
              "Dana Smith <dana@example.com>" "URGENT: production is down" Script.start)
    as (w1 & Hrun & Hskip).
  - repeat split; vm_compute; reflexivity.
  - exists w1. split; [ exact Hrun | ].
    apply Hskip. apply RunFacts.World_le_refl.
Defined.

(** X3: sorting and filtering neither invent nor lose a row.  What
    [search] returns is a rearrangement of the rows of the store that
    pass the filter, and of all its rows when no filter is given. *)
Theorem search_keeps_rows
    (env : Env) (query : string) (threshold : Q) (limit : Z)
    (category_filter : option string) (w w' : World) (results : list Candidate) :
  Matcher.search env query threshold limit category_filter w = (Ok results, w') ->
  exists embedding data,
    embeddings_create env (length (calls w)) query = Ok embedding
    /\ match_knowledge_base env (S (length (calls w))) embedding threshold limit = Ok data
    /\ Permutation results (Matcher.post_filter category_filter (Matcher.rows_of data))
    /\ (Matcher.given category_filter = false ->
        Permutation results (Matcher.rows_of data)).
Proof.
  intros Hrun.
  destruct (MatcherFacts.search_ok env query threshold limit category_filter w w'
              results Hrun) as (embedding & data & Hemb & Hrows & ->).
  exists embedding, data.
  split; [ exact Hemb | ]. split; [ exact Hrows | ].
  split; [ apply MatcherFacts.sort_desc_perm | ].
  intros Hnone.
  rewrite MatcherFacts.sort_desc_perm.
  unfold Matcher.post_filter. rewrite Hnone.
  destruct category_filter; reflexivity.
Qed.

Lemma search_keeps_rows_witness :
  exists results w',
    Matcher.search (Script.env true (Script.model Script.down Script.down Script.down)
                               [] Script.store_rows true true true)
                   "cannot log in" (8 # 10) 5 None Script.start = (Ok results, w')
    /\ Permutation results Script.store_rows.
Proof.
  eexists. eexists. split; [ vm_compute; reflexivity | ].
  destruct (search_keeps_rows
              (Script.env true (Script.model Script.down Script.down Script.down)
                          [] Script.store_rows true true true)
              "cannot log in" (8 # 10) 5 None Script.start _ _ eq_refl)
    as (embedding & data & _ & Hrows & _ & Hall).
  vm_compute in Hrows. inversion Hrows; subst.
  apply Hall. reflexivity.
Defined.

(** X4: an exception in the fetch step aborts only the current cycle.
    [_process_new_emails] logs it and returns; no message is marked
    processed, nothing is sent, no ticket and no record is created. *)
Theorem fetch_failure_aborts_cycle (env : Env) (w : World) :
  is_ok (gmail_list env (length (calls w)) "is:unread newer_than:1h") = false ->
  exists w' e,
    Automation._process_new_emails env w = (Ok tt, w')
    /\ In (ERROR, "Failed to fetch emails: " +:+ exn_message e) (log w')
    /\ calls w' = (calls w ++ [GmailList "is:unread newer_than:1h"])%list
    /\ processed_emails w' = processed_emails w
    /\ outbox w' = outbox w
    /\ support_tickets w' = support_tickets w
    /\ support_interactions w' = support_interactions w.
Proof.
  intros Hdown.
  unfold Automation._process_new_emails, Automation._fetch_emails.
  unfold try_except, bind, call, logger, ret, raise, no_commit. simpl.
  destruct (gmail_list env (length (calls w)) "is:unread newer_than:1h")
    as [ emails | e ]; simpl in *; [ discriminate | ].
  eexists. exists e. split; [ reflexivity | ]. simpl.
  split; [ | repeat split ].
  apply in_or_app. left. apply in_or_app. right. left. reflexivity.
Qed.

Lemma fetch_failure_aborts_cycle_witness :
  exists w',
    Automation._process_new_emails
      (Script.without_inbox
         (Script.env true (Script.model Script.down Script.down Script.down)
                     [] [] true true true))
      Script.start = (Ok tt, w')
    /\ processed_emails w' = ∅
    /\ outbox w' = [].
Proof.
  destruct (fetch_failure_aborts_cycle
              (Script.without_inbox
                 (Script.env true (Script.model Script.down Script.down Script.down)
                             [] [] true true true))
              Script.start eq_refl)
    as (w' & e & Hrun & _ & _ & Hprocessed & Hout & _).
  exists w'. split; [ exact Hrun | ]. split; assumption.
Defined.

(** X6, a usable candidate under the rule variant: when the first
    knowledge-base result scores above 0.7, the composed reply is the
    solution reply, which embeds the content of that result and closes
    with the signature; no category template is used. *)
Theorem solution_reply_embeds_candidate
    (a : Rule.EmailAnalysis) (content : string) (best : KBResult) (rest : list KBResult) :
  (7 # 10 < kb_similarity best)%Q ->
  Rule.generate_response a content (best :: rest)
  = Rule._generate_solution_response a best
  /\ embeds (Rule.generate_response a content (best :: rest)) (kb_content best)
  /\ ends_with (Rule.generate_response a content (best :: rest)) signature.
Proof.
  intros Habove.
  assert (Hrun : Rule.generate_response a content (best :: rest)
                 = Rule._generate_solution_response a best).
  { unfold Rule.generate_response, Rule.generate_body.
    destruct (Qle_bool (kb_similarity best) (7 # 10)) eqn:E; [ | reflexivity ].
    apply Qle_bool_iff in E. exfalso. apply (Qlt_not_le _ _ Habove). exact E. }
  split; [ exact Hrun | ]. rewrite Hrun.
  unfold Rule._generate_solution_response. split.
  - repeat first [ apply PipelineFacts.embeds_here | apply PipelineFacts.embeds_app ].
  - repeat first [ apply PipelineFacts.ends_with_refl | apply PipelineFacts.ends_with_app ].
Qed.

Lemma solution_reply_embeds_candidate_witness :
  embeds
    (Rule.generate_response Rule.safe_defaults "I cannot log in"
       [ {| kb_title := "Common Login Issues";
            kb_content := "Try clearing your browser cache and cookies.";
            kb_similarity := 92 # 100 |} ])
    "Try clearing your browser cache and cookies.".
Proof.
  destruct (solution_reply_embeds_candidate Rule.safe_defaults "I cannot log in"
              {| kb_title := "Common Login Issues";
                 kb_content := "Try clearing your browser cache and cookies.";
                 kb_similarity := 92 # 100 |} [])
    as (_ & Hembeds & _).
  - reflexivity.
  - exact Hembeds.
Defined.

(** X7, the ticket that is submitted: when a ticket is needed and the
    ticket table accepts the row, one ticket is stored, with a fresh
    id, the subject as title, the first 1000 characters of the body as
    description, the priority and category of the Analysis, status
    "open", the address of the sender, source "email_automation", and
    the ids of the message and of its thread. *)
Theorem ticket_fields
    (env : Env) (email : Email) (id thread subject sender body : string)
    (a : Bedrock.EmailAnalysis) (w : World) :
  carries email id thread subject sender body ->
  (forall now row, tickets_insert env now row = Ok tt) ->
  exists w' ticket,
    Automation._create_support_ticket env email a w = (Ok (Some (td_id ticket)), w')
    /\ support_tickets w' = (support_tickets w ++ [ticket])%list
    /\ td_id ticket = uuid4 env (length (calls w))
    /\ td_title ticket = subject
    /\ td_description ticket = Py.take 1000 body
    /\ td_priority ticket = Bedrock.priority a
    /\ td_category ticket = Bedrock.category a
    /\ td_status ticket = "open"
    /\ td_customer_email ticket = Automation._extract_email_address sender
    /\ td_source ticket = "email_automation"
    /\ td_email_id ticket = id
    /\ td_thread_id ticket = thread.
Proof.
  intros Hmail Hup.
  destruct (PipelineFacts.create_support_ticket_row env email id thread subject sender
              body Hmail a w Hup)
    as (w' & ticket & Hrun & Hstored & _ & Hid & Hrest).
  exists w', ticket. rewrite Hid.
  split; [ exact Hrun | ]. split; [ exact Hstored | ].
  split; [ reflexivity | exact Hrest ].
Qed.

Lemma ticket_fields_witness :
  exists w' ticket,
    Automation._create_support_ticket
      (Script.env true (Script.model Script.down Script.down Script.down)
                  [] [] true true true)
      Script.outage_mail (Bedrock._fallback_analysis "" "") Script.start
    = (Ok (Some (td_id ticket)), w')
    /\ support_tickets w' = [ticket]
    /\ td_title ticket = "System outage"
    /\ td_customer_email ticket = "dana@example.com".
Proof.
  destruct (ticket_fields
              (Script.env true (Script.model Script.down Script.down Script.down)
                          [] [] true true true)
              Script.outage_mail "18c2f09e5d1a7b33" "18c2f09e5d1a7b33" "System outage"
              "Dana Smith <dana@example.com>" "URGENT: production is down"
              (Bedrock._fallback_analysis "" "") Script.start)
    as (w' & ticket & Hrun & Hstored & _ & Htitle & _ & _ & _ & _ & Hcustomer & _).
  - repeat split; vm_compute; reflexivity.
  - intros now row. reflexivity.
  - exists w', ticket.
    split; [ exact Hrun | ]. split; [ exact Hstored | ].
    split; [ exact Htitle | ]. rewrite Hcustomer. reflexivity.
Defined.

(** X8, the composer of the inference variant never fails outward: it
    always returns a reply that closes with the signature, and when
    there is no client or the call to the model raises, the reply is
    the fixed fallback acknowledgement. *)
Theorem generate_never_raises
    (env : Env) (a : Bedrock.EmailAnalysis) (content subject : string)
    (kb : list KBResult) (w : World) :
  exists r w',
    Bedrock.generate_response env a content subject kb w = (Ok r, w')
    /\ ends_with r signature
    /\ (bedrock env = false
        \/ is_ok (invoke_model env (length (calls w))
                    (Bedrock._create_response_prompt (runtime env) a content subject kb))
           = false ->
        r = Bedrock._fallback_response (runtime env) a).
Proof.
  unfold Bedrock.generate_response, Bedrock._call_bedrock_ai.
  unfold try_except, bind, call, logger, ret, raise, no_commit.
  destruct (bedrock env) eqn:Hclient; simpl.
  - destruct (invoke_model env _ _) as [ reply | e ] eqn:Hcall; simpl.
    + do 2 eexists. split; [ reflexivity | ].
      split; [ apply PipelineFacts.format_response_signed | ].
      intros [ H | H ]; discriminate.
    + do 2 eexists. split; [ reflexivity | ].
      split; [ apply PipelineFacts.fallback_response_signed | reflexivity ].
  - do 2 eexists. split; [ reflexivity | ].
    split; [ apply PipelineFacts.fallback_response_signed | reflexivity ].
Qed.

(** X9, best-effort mark-read: when the mailbox refuses to mark a
    message as read after it was processed, the refusal is logged and
    nothing else happens: the pass returns, the message is in
    ProcessedSet, and the request is not made again. *)
Theorem mark_read_failure_is_logged
    (env : Env) (email : Email) (id thread subject sender body : string) (w : World) :
  carries email id thread subject sender body ->
  Some id ∉ processed_emails w ->
  (forall now i, is_ok (gmail_modify env now i) = false) ->
  exists w' e,
    Automation.process_fetched env email w = (Ok tt, w')
    /\ Some id ∈ processed_emails w'
    /\ marked_read w' = marked_read w
    /\ last (calls w') = Some (GmailModify (Some id))
    /\ last (log w') = Some (ERROR, "Failed to mark email as read: " +:+ exn_message e)
    /\ Automation.process_fetched env email w' = (Ok tt, w').
Proof.
  intros Hmail Hnew Hdown.
  destruct (LoopFacts.process_fetched_read_refused env email id thread subject sender
              body w Hmail Hnew Hdown)
    as (w' & e & Hrun & Hmarked & Hread & Hcall & Hlog).
  exists w', e. repeat (split; [ assumption | ]).
  apply LoopFacts.process_fetched_skips.
  destruct Hmail as (-> & _). exact Hmarked.
Qed.

Lemma mark_read_failure_is_logged_witness :
  exists w',
    Automation.process_fetched
      {| runtime := Ref.runtime; bedrock := false;
         invoke_model := fun _ _ => Script.down;
         embeddings_create := fun _ _ => Script.down;
         match_knowledge_base := fun _ _ _ _ => Script.down;
         gmail_list := fun _ _ => Ok [Script.outage_mail];
         gmail_send := fun _ _ => Script.down;
         gmail_modify := fun _ _ => Script.down;
         tickets_insert := fun _ _ => Ok tt;
         interactions_insert := fun _ _ => Ok tt;
         uuid4 := Script.fresh_uuid;
         utcnow := fun _ => "2024-05-01T09:30:00" |}
      Script.outage_mail Script.start = (Ok tt, w')
    /\ Some "18c2f09e5d1a7b33" ∈ processed_emails w'
    /\ marked_read w' = [].
Proof.
  destruct (mark_read_failure_is_logged
              {| runtime := Ref.runtime; bedrock := false;
                 invoke_model := fun _ _ => Script.down;
                 embeddings_create := fun _ _ => Script.down;
                 match_knowledge_base := fun _ _ _ _ => Script.down;
                 gmail_list := fun _ _ => Ok [Script.outage_mail];
                 gmail_send := fun _ _ => Script.down;
                 gmail_modify := fun _ _ => Script.down;
                 tickets_insert := fun _ _ => Ok tt;
                 interactions_insert := fun _ _ => Ok tt;
                 uuid4 := Script.fresh_uuid;
                 utcnow := fun _ => "2024-05-01T09:30:00" |}
              Script.outage_mail "18c2f09e5d1a7b33" "18c2f09e5d1a7b33" "System outage"
              "Dana Smith <dana@example.com>" "URGENT: production is down" Script.start)
    as (w' & e & Hrun & Hmarked & Hread & _).
  - repeat split; vm_compute; reflexivity.
  - apply not_elem_of_empty.
  - intros now i. reflexivity.
  - exists w'. split; [ exact Hrun | ]. split; [ exact Hmarked | exact Hread ].
Defined.

(** X10, steady-state errors never crash the loop: whatever the
    collaborators answer, a cycle returns without raising, and it only
    adds to what was there: requests, log lines, accepted rows and
    processed ids are never taken back. *)
Theorem cycle_never_raises (env : Env) (w : World) :
  exists w',
    Automation._process_new_emails env w = (Ok tt, w')
    /\ World_le w w'.
Proof.
  pose proof (StageFacts.process_new_emails_returns env w) as Hret.
  pose proof (StageFacts.process_new_emails_grows env w) as Hle.
  destruct (Automation._process_new_emails env w) as [[[] | e] w'];
    simpl in *; [ | discriminate ].
  exists w'. split; [ reflexivity | exact Hle ].
Qed.

(** ** The address of the sender *)

Module AddressFacts.

Import Automation.

Lemma append_cons (c : ascii) (s t : string) : String c s +:+ t = String c (s +:+ t).
Proof. reflexivity. Qed.

(** The lazy group stops at the first [>]. *)
Lemma lazy_group_stops (s rest : string) (acc : list ascii) :
  Forall (fun c => Py.code c <> 62%nat /\ Py.code c <> 10%nat) (list_ascii_of_string s) ->
  lazy_group acc (s +:+ ">" +:+ rest)
  = Some (string_of_list_ascii (rev acc ++ list_ascii_of_string s)).
Proof.
  revert acc. induction s as [ | c s IH ]; intros acc Hs.
  - change (lazy_group acc (String ">" rest)
            = Some (string_of_list_ascii (rev acc ++ []))).
    rewrite app_nil_r. reflexivity.
  - rewrite append_cons. simpl in Hs. inversion Hs as [ | ? ? [Hgt Hnl] Hrest ]; subst.
    simpl lazy_group.
    apply Nat.eqb_neq in Hgt. apply Nat.eqb_neq in Hnl. rewrite Hgt, Hnl.
    rewrite (IH (c :: acc) Hrest). simpl. rewrite <- app_assoc. reflexivity.
Qed.

(** The search skips what stands before the first [<]. *)
Lemma search_angle_skips (name s : string) :
  Forall (fun c => Py.code c <> 60%nat) (list_ascii_of_string name) ->
  search_angle (name +:+ s) = search_angle s.
Proof.
  induction name as [ | c name IH ]; intros Hname; [ reflexivity | ].
  rewrite append_cons. simpl in Hname. inversion Hname as [ | ? ? Hlt Hrest ]; subst.
  simpl search_angle. apply Nat.eqb_neq in Hlt. rewrite Hlt. apply IH. exact Hrest.
Qed.

End AddressFacts.

(** X11, the address of the sender: from a sender of the form
    [name <address>...], where the name holds no [<] and the address is
    not empty and holds neither [>] nor a newline, the address between
    the angle brackets is taken. *)
Theorem extract_email_address_angle (name address rest : string) :
  Forall (fun c => Py.code c <> 60%nat) (list_ascii_of_string name) ->
  address <> "" ->
  Forall (fun c => Py.code c <> 62%nat /\ Py.code c <> 10%nat)
         (list_ascii_of_string address) ->
  Automation._extract_email_address (name +:+ "<" +:+ address +:+ ">" +:+ rest)
  = address.
Proof.
  intros Hname Hsome Haddress.
  unfold Automation._extract_email_address.
  rewrite (AddressFacts.search_angle_skips name _ Hname).
  destruct address as [ | c address ]; [ contradiction | ].
  simpl in Haddress. inversion Haddress as [ | ? ? [Hgt Hnl] Hrest ]; subst.
  assert (Hfound : Automation.search_angle ("<" +:+ String c address +:+ ">" +:+ rest)
                   = Some (String c address)).
  { change ("<" +:+ String c address +:+ ">" +:+ rest)
      with (String "<" (String c (address +:+ ">" +:+ rest))).
    change (match Automation.group_after_lt (String c (address +:+ ">" +:+ rest)) with
            | Some g => Some g
            | None => Automation.search_angle (String c (address +:+ ">" +:+ rest))
            end = Some (String c address)).
    unfold Automation.group_after_lt.
    apply Nat.eqb_neq in Hnl. rewrite Hnl.
    rewrite (AddressFacts.lazy_group_stops address rest [c] Hrest).
    simpl. rewrite string_of_list_ascii_of_string. reflexivity. }
  rewrite Hfound. reflexivity.
Qed.

Lemma extract_email_address_angle_witness :
  Automation._extract_email_address "Dana Smith <dana@example.com>" = "dana@example.com".
Proof.
  apply (extract_email_address_angle "Dana Smith " "dana@example.com" "").
  - repeat constructor; discriminate.
  - discriminate.
  - repeat constructor; discriminate.
Defined.

(** ** The rule classifier, function by function *)

Module ClassifierFacts.

Import Rule.

(** *** [max(d, key=d.get)] *)

(** The key [first_max] returns stands in the list with a value that
    exceeds every value before it and is not exceeded after it. *)
Lemma first_max_spec (items : list (string * nat)) (best : string * nat) :
  exists before kv after,
    best :: items = (before ++ kv :: after)%list
    /\ Py.first_max best items = fst kv
    /\ (forall x, In x before -> (snd x < snd kv)%nat)
    /\ (forall x, In x after -> (snd x <= snd kv)%nat).
Proof.
  revert best. induction items as [ | kv' rest IH ]; intros best.
  - exists [], best, []. repeat split; simpl; intros x [].
  - simpl. destruct (snd best <? snd kv')%nat eqn:E.
    + apply Nat.ltb_lt in E.
      destruct (IH kv') as (b & kv & a & Hsplit & Hmax & Hb & Ha).
      exists (best :: b), kv, a.
      split; [ simpl; rewrite Hsplit; reflexivity | ].
      split; [ exact Hmax | ].
      split; [ | exact Ha ].
      intros x [ <- | Hx ]; [ | apply Hb; exact Hx ].
      destruct b as [ | y b ]; simpl in Hsplit; inversion Hsplit; subst.
      * exact E.
      * specialize (Hb y (or_introl eq_refl)). lia.
    + apply Nat.ltb_ge in E.
      destruct (IH best) as (b & kv & a & Hsplit & Hmax & Hb & Ha).
      destruct b as [ | y b ]; simpl in Hsplit; inversion Hsplit; subst.
      * exists [], kv, (kv' :: a).
        split; [ reflexivity | ]. split; [ exact Hmax | ].
        split; [ intros x [] | ].
        intros x [ <- | Hx ]; [ exact E | apply Ha; exact Hx ].
      * exists (y :: kv' :: b), kv, a.
        split; [ reflexivity | ]. split; [ exact Hmax | ].
        split; [ | exact Ha ].
        pose proof (Hb y (or_introl eq_refl)) as Hy.
        intros x [ <- | [ <- | Hx ] ];
          [ exact Hy | lia | apply Hb; right; exact Hx ].
Qed.

(** The scores kept are those of the table, in its order. *)
Lemma scores_split (table : list (string * list string)) (text : string)
    (b a : list (string * nat)) (c : string) (n : nat) :
  scores table text = (b ++ (c, n) :: a)%list ->
  exists B kws A,
    table = (B ++ (c, kws) :: A)%list
    /\ n = Py.hits kws text /\ (0 < n)%nat
    /\ scores B text = b /\ scores A text = a.
Proof.
  revert b. induction table as [ | [name kws] rest IH ]; intros b Hsplit.
  - destruct b; discriminate.
  - simpl in Hsplit.
    destruct (0 <? Py.hits kws text)%nat eqn:E.
    + destruct b as [ | y b ]; simpl in Hsplit; inversion Hsplit; subst.
      * exists [], kws, rest. apply Nat.ltb_lt in E.
        split; [ reflexivity | ]. split; [ reflexivity | ].
        split; [ exact E | ]. split; reflexivity.
      * destruct (IH b H1) as (B & kws' & A & -> & Hn & Hpos & HB & HA).
        exists ((name, kws) :: B), kws', A.
        split; [ reflexivity | ]. split; [ exact Hn | ]. split; [ exact Hpos | ].
        split; [ simpl; rewrite E, HB; reflexivity | exact HA ].
    + destruct (IH b Hsplit) as (B & kws' & A & -> & Hn & Hpos & HB & HA).
      exists ((name, kws) :: B), kws', A.
      split; [ reflexivity | ]. split; [ exact Hn | ]. split; [ exact Hpos | ].
      split; [ simpl; rewrite E; exact HB | exact HA ].
Qed.

Lemma scores_In (table : list (string * list string)) (text name : string)
    (kws : list string) :
  In (name, kws) table ->
  Py.hits kws text = 0%nat \/ In (name, Py.hits kws text) (scores table text).
Proof.
  induction table as [ | [name' kws'] rest IH ]; intros Hin; [ destruct Hin | ].
  simpl. destruct Hin as [ Heq | Hin ].
  - inversion Heq; subst.
    destruct (0 <? Py.hits kws text)%nat eqn:E.
    + right. left. reflexivity.
    + left. apply Nat.ltb_ge in E. lia.
  - destruct (IH Hin) as [ Hz | Hs ]; [ left; exact Hz | right ].
    destruct (0 <? Py.hits kws' text)%nat; [ right | ]; exact Hs.
Qed.

Lemma scores_nil (table : list (string * list string)) (text : string) :
  scores table text = [] <->
  (forall name kws, In (name, kws) table -> Py.hits kws text = 0%nat).
Proof.
  induction table as [ | [name kws] rest IH ]; simpl.
  - split; [ intros _ ? ? [] | reflexivity ].
  - destruct (0 <? Py.hits kws text)%nat eqn:E.
    + split; [ discriminate | ].
      intros H. apply Nat.ltb_lt in E.
      specialize (H name kws (or_introl eq_refl)). lia.
    + apply Nat.ltb_ge in E. rewrite IH. split.
      * intros H n k [ Heq | Hin ]; [ inversion Heq; subst; lia | eapply H; exact Hin ].
      * intros H n k Hin. eapply H. right. exact Hin.
Qed.

(** The label picked from a table of keywords: the default when no
    keyword of the table occurs in the text; otherwise the label with
    the most keywords in the text, the first such in the table. *)
Lemma argmax_spec (table : list (string * list string)) (text default : string) :
  let picked := match Py.max_key (scores table text) with
                | Some c => c
                | None => default
                end in
  ((forall name kws, In (name, kws) table -> Py.hits kws text = 0%nat) ->
   picked = default)
  /\ ((exists name kws, In (name, kws) table /\ (0 < Py.hits kws text)%nat) ->
      exists before kws after,
        table = (before ++ (picked, kws) :: after)%list
        /\ (0 < Py.hits kws text)%nat
        /\ (forall n k, In (n, k) before -> (Py.hits k text < Py.hits kws text)%nat)
        /\ (forall n k, In (n, k) after -> (Py.hits k text <= Py.hits kws text)%nat)).
Proof.
  intros picked. subst picked. split.
  - intros Hnone. apply scores_nil in Hnone. rewrite Hnone. reflexivity.
  - intros (name & kws & Hin & Hpos).
    destruct (scores table text) as [ | kv rest ] eqn:Hscores.
    + pose proof (proj1 (scores_nil table text) Hscores name kws Hin). lia.
    + simpl.
      destruct (first_max_spec rest kv) as (b & [c n] & a & Hsplit & Hmax & Hb & Ha).
      rewrite Hmax. simpl. rewrite <- Hscores in Hsplit.
      destruct (scores_split table text b a c n Hsplit)
        as (B & kws' & A & -> & -> & Hpos' & HB & HA).
      exists B, kws', A.
      split; [ reflexivity | ]. split; [ exact Hpos' | ].
      split; intros n' k' Hin'.
      * destruct (scores_In B text n' k' Hin') as [ Hz | Hs ]; [ lia | ].
        rewrite HB in Hs. apply (Hb _ Hs).
      * destruct (scores_In A text n' k' Hin') as [ Hz | Hs ]; [ lia | ].
        rewrite HA in Hs. apply (Ha _ Hs).
Qed.

(** *** First match in an ordered table *)

Lemma first_matching_spec (table : list (string * list string)) (text : string) :
  match first_matching table text with
  | Some p =>
      exists before kws after,
        table = (before ++ (p, kws) :: after)%list
        /\ Py.any_in kws text = true
        /\ (forall n k, In (n, k) before -> Py.any_in k text = false)
  | None => forall n k, In (n, k) table -> Py.any_in k text = false
  end.
Proof.
  induction table as [ | [name kws] rest IH ]; simpl.
  - intros ? ? [].
  - destruct (Py.any_in kws text) eqn:E.
    + exists [], kws, rest.
      split; [ reflexivity | ]. split; [ exact E | ]. intros ? ? [].
    + destruct (first_matching rest text) as [ p | ].
      * destruct IH as (b & k & a & -> & Hhit & Hb).
        exists ((name, kws) :: b), k, a.
        split; [ reflexivity | ]. split; [ exact Hhit | ].
        intros n' k' [ Heq | Hin ]; [ inversion Heq; subst; exact E | eapply Hb; exact Hin ].
      * intros n' k' [ Heq | Hin ]; [ inversion Heq; subst; exact E | eapply IH; exact Hin ].
Qed.

(** *** Lower case *)

Lemma lower_ascii_idem (c : ascii) : Py.lower_ascii (Py.lower_ascii c) = Py.lower_ascii c.
Proof.
  destruct c as [ [] [] [] [] [] [] [] [] ]; reflexivity.
Qed.

Lemma lower_idem (s : string) : Py.lower (Py.lower s) = Py.lower s.
Proof.
  induction s as [ | c s IH ]; simpl; [ reflexivity | ].
  rewrite lower_ascii_idem, IH. reflexivity.
Qed.

Lemma lower_app (s t : string) : Py.lower (s +:+ t) = Py.lower s +:+ Py.lower t.
Proof.
  induction s as [ | c s IH ]; [ reflexivity | ].
  change (String (Py.lower_ascii c) (Py.lower (s +:+ t))
          = String (Py.lower_ascii c) (Py.lower s +:+ Py.lower t)).
  rewrite IH. reflexivity.
Qed.

(** The label picked is the default or a label of the table. *)
Lemma argmax_In (table : list (string * list string)) (text default : string) :
  In (match Py.max_key (scores table text) with
      | Some c => c
      | None => default
      end) (default :: map fst table).
Proof.
  destruct (scores table text) as [ | kv rest ] eqn:Hscores; [ left; reflexivity | ].
  simpl Py.max_key. cbv iota. right.
  destruct (first_max_spec rest kv) as (b & [c n] & a & Hsplit & Hmax & _).
  rewrite Hmax. rewrite <- Hscores in Hsplit.
  destruct (scores_split table text b a c n Hsplit) as (B & kws & A & -> & _).
  rewrite map_app. apply in_or_app. right. left. reflexivity.
Qed.

Lemma first_matching_In (table : list (string * list string)) (text default : string) :
  In (match first_matching table text with
      | Some p => p
      | None => default
      end) (default :: map fst table).
Proof.
  pose proof (first_matching_spec table text) as H.
  destruct (first_matching table text) as [ p | ]; [ | left; reflexivity ].
  destruct H as (b & kws & a & -> & _).
  right. rewrite map_app. apply in_or_app. right. left. reflexivity.
Qed.

(** *** The two policies *)

Lemma needs_ticket_iff (category priority intent : string) :
  _needs_ticket category priority intent = true
  <-> (priority = "high" \/ category = "technical" \/ category = "complaint"
       \/ (intent = "support_request" /\ category <> "general")).
Proof.
  unfold _needs_ticket.
  destruct (String.eqb_spec priority "high") as [ Hp | Hp ];
    [ split; [ intros _; left; exact Hp | reflexivity ] | ].
  destruct (String.eqb_spec category "technical") as [ Ht | Ht ];
    [ split; [ intros _; right; left; exact Ht | reflexivity ] | ].
  destruct (String.eqb_spec category "complaint") as [ Hc | Hc ];
    [ split; [ intros _; right; right; left; exact Hc | reflexivity ] | ].
  destruct (String.eqb_spec intent "support_request") as [ Hi | Hi ];
    destruct (String.eqb_spec category "general") as [ Hg | Hg ]; simpl;
    (split; [ try discriminate; intros _; right; right; right; split; assumption | ]);
    intros [ H | [ H | [ H | [ H1 H2 ] ] ] ]; try contradiction; reflexivity.
Qed.

Lemma mem_In (x : string) (l : list string) : Py.mem x l = true <-> In x l.
Proof.
  unfold Py.mem. rewrite existsb_exists. split.
  - intros (y & Hy & Heq). apply String.eqb_eq in Heq. subst. exact Hy.
  - intros Hx. exists x. split; [ exact Hx | apply String.eqb_refl ].
Qed.

Lemma requires_human_iff (category priority sentiment : string) (keywords : list string) :
  _requires_human_review category priority sentiment keywords = true
  <-> (priority = "high" \/ sentiment = "negative" \/ category = "complaint"
       \/ category = "billing"
       \/ (category = "technical"
           /\ exists word, In word ["crash"; "data"; "security"; "breach"]
                           /\ In word keywords)).
Proof.
  unfold _requires_human_review.
  destruct (String.eqb_spec priority "high") as [ Hp | Hp ];
    [ split; [ intros _; left; exact Hp | reflexivity ] | ].
  destruct (String.eqb_spec sentiment "negative") as [ Hs | Hs ];
    [ split; [ intros _; right; left; exact Hs | reflexivity ] | ].
  destruct (String.eqb_spec category "complaint") as [ Hc | Hc ];
    [ split; [ intros _; right; right; left; exact Hc | reflexivity ] | ].
  cbv [orb].
  destruct (String.eqb_spec category "technical") as [ Ht | Ht ].
  - destruct (existsb (fun word => Py.mem word keywords)
                      ["crash"; "data"; "security"; "breach"]) eqn:E; cbv [andb].
    + split; [ intros _ | reflexivity ].
      right. right. right. right. split; [ exact Ht | ].
      apply existsb_exists in E. destruct E as (word & Hin & Hmem).
      exists word. split; [ exact Hin | apply mem_In; exact Hmem ].
    + subst category. simpl. split; [ discriminate | ].
      intros [ H | [ H | [ H | [ H | (_ & word & Hin & Hkw) ] ] ] ];
        try contradiction; try discriminate.
      assert (Hex : existsb (fun word => Py.mem word keywords)
                            ["crash"; "data"; "security"; "breach"] = true).
      { apply existsb_exists. exists word. split; [ exact Hin | apply mem_In; exact Hkw ]. }
      rewrite E in Hex. discriminate.
  - cbv [andb].
    destruct (String.eqb_spec category "billing") as [ Hb | Hb ].
    + split; [ intros _; right; right; right; left; exact Hb | reflexivity ].
    + split; [ discriminate | ].
      intros [ H | [ H | [ H | [ H | (H & _) ] ] ] ]; contradiction.
Qed.

End ClassifierFacts.

(** ** Properties of the rule classifier *)

(** X2, the two policies of the rule variant, exactly: in the Analysis
    it returns, ticket_needed is true if and only if priority is "high",
    or category is "technical" or "complaint", or intent is
    "support_request" with a category other than "general"; and
    requires_human is true if and only if priority is "high", sentiment
    is "negative", category is "complaint" or "billing", or category is
    "technical" and one of the keywords is crash, data, security or
    breach. *)
Theorem rule_policy_exact (rt : Runtime) (content subject sender : string) :
  exists a,
    Rule.analyze_email rt content subject sender = Ok a
    /\ (Rule.ticket_needed a = true
        <-> (Rule.priority a = "high" \/ Rule.category a = "technical"
             \/ Rule.category a = "complaint"
             \/ (Rule.intent a = "support_request" /\ Rule.category a <> "general")))
    /\ (Rule.requires_human a = true
        <-> (Rule.priority a = "high" \/ Rule.sentiment a = "negative"
             \/ Rule.category a = "complaint" \/ Rule.category a = "billing"
             \/ (Rule.category a = "technical"
                 /\ exists word, In word ["crash"; "data"; "security"; "breach"]
                                 /\ In word (Rule.keywords a)))).
Proof.
  destruct (RuleFacts.rule_analyze_email_returns rt content subject sender)
    as (a & Hrun & _ & Hhuman & Hticket).
  exists a. split; [ exact Hrun | ].
  rewrite Hticket, Hhuman. split.
  - apply ClassifierFacts.needs_ticket_iff.
  - apply ClassifierFacts.requires_human_iff.
Qed.

(** X5, priority by precedence: a text with one of the high-priority
    keywords is "high" whatever else it holds; without any, a text with
    a medium keyword is "medium"; without any of those, a text with a
    low keyword is "low"; and a text with no priority keyword at all is
    "medium". *)
Theorem priority_by_precedence (text : string) :
  let high := ["urgent"; "critical"; "emergency"; "asap"; "immediately"; "down"; "outage"] in
  let medium := ["important"; "soon"; "needed"; "issue"; "problem"] in
  let low := ["question"; "when possible"; "eventually"; "minor"] in
  Rule.priority_keywords = [("high", high); ("medium", medium); ("low", low)]
  /\ (Py.any_in high text = true -> Rule._determine_priority text = "high")
  /\ (Py.any_in high text = false -> Py.any_in medium text = true ->
      Rule._determine_priority text = "medium")
  /\ (Py.any_in high text = false -> Py.any_in medium text = false ->
      Py.any_in low text = true -> Rule._determine_priority text = "low")
  /\ (Py.any_in high text = false -> Py.any_in medium text = false ->
      Py.any_in low text = false -> Rule._determine_priority text = "medium").
Proof.
  intros high medium low. split; [ reflexivity | ].
  unfold Rule._determine_priority, Rule.priority_keywords, Rule.first_matching.
  fold high medium low.
  repeat split; intros; repeat match goal with H : _ = _ |- _ => rewrite H end; reflexivity.
Qed.

Lemma priority_by_precedence_witness :
  Rule._determine_priority (Py.lower ("Question" +:+ " " +:+ "How do I export my data?"))
  = "low"
  /\ Rule._determine_priority (Py.lower ("Question" +:+ " " +:+ "The site is down")) = "high".
Proof.
  split.
  - apply (proj1 (proj2 (proj2 (proj2
             (priority_by_precedence
                (Py.lower ("Question" +:+ " " +:+ "How do I export my data?")))))));
      vm_compute; reflexivity.
  - apply (proj1 (proj2
             (priority_by_precedence
                (Py.lower ("Question" +:+ " " +:+ "The site is down")))));
      vm_compute; reflexivity.
Defined.

(** X12, category and sentiment by hit count: the category is "general"
    when no category keyword occurs in the text, and otherwise the
    category with the most keywords in the text, the first declared
    among equals; the sentiment is picked the same way among positive,
    negative and neutral, with "neutral" when nothing occurs. *)
Theorem labels_by_hit_count (text : string) :
  most_hits Rule.categories text "general" (Rule._categorize_email text)
  /\ most_hits Rule.sentiment_keywords text "neutral" (Rule._analyze_sentiment text).
Proof.
  split.
  - apply (ClassifierFacts.argmax_spec Rule.categories text "general").
  - apply (ClassifierFacts.argmax_spec Rule.sentiment_keywords text "neutral").
Qed.

(** X13, the Analysis of the rule variant is well formed: whatever the
    message, category, priority, sentiment and intent are among their
    declared values, there are at most ten keywords, and the confidence
    lies between 0.6 and 1. *)
Theorem rule_analysis_well_formed (rt : Runtime) (content subject sender : string) :
  exists a,
    Rule.analyze_email rt content subject sender = Ok a
    /\ In (Rule.category a)
          ["technical"; "billing"; "account"; "general"; "complaint"; "feature_request"]
    /\ In (Rule.priority a) ["high"; "medium"; "low"]
    /\ In (Rule.sentiment a) ["positive"; "negative"; "neutral"]
    /\ In (Rule.intent a) ["question"; "support_request"; "refund_request"; "complaint"]
    /\ (length (Rule.keywords a) <= 10)%nat
    /\ (6 # 10 <= Rule.confidence a <= 1)%Q.
Proof.
  eexists. split; [ reflexivity | ]. simpl.
  split.
  { pose proof (ClassifierFacts.argmax_In Rule.categories
                  (Py.lower (subject +:+ " " +:+ content)) "general") as H.
    simpl in H. unfold Rule._categorize_email. simpl. tauto. }
  split.
  { pose proof (ClassifierFacts.first_matching_In Rule.priority_keywords
                  (Py.lower (subject +:+ " " +:+ content)) "medium") as H.
    simpl in H. unfold Rule._determine_priority. simpl. tauto. }
  split.
  { pose proof (ClassifierFacts.argmax_In Rule.sentiment_keywords
                  (Py.lower (subject +:+ " " +:+ content)) "neutral") as H.
    simpl in H. unfold Rule._analyze_sentiment. simpl. tauto. }
  split.
  { unfold Rule._determine_intent.
    repeat match goal with
           | |- context [ if ?b then _ else _ ] => destruct b
           end; simpl; tauto. }
  split.
  { unfold Rule._extract_keywords. cbv zeta. rewrite length_firstn. lia. }
  split.
  - apply RuleFacts.calculate_confidence_floor.
  - apply RuleFacts.calculate_confidence_unit.
Qed.

(** X14, the rule classifier ignores case and the sender: the Analysis
    of a message is that of the same subject and body in lower case,
    from any sender. *)
Theorem classification_ignores_case
    (rt : Runtime) (content subject sender sender' : string) :
  Rule.analyze_email rt content subject sender
  = Rule.analyze_email rt (Py.lower content) (Py.lower subject) sender'.
Proof.
  assert (Htext : Py.lower (subject +:+ " " +:+ content)
                  = Py.lower (Py.lower subject +:+ " " +:+ Py.lower content)).
  { rewrite !ClassifierFacts.lower_app, !ClassifierFacts.lower_idem. reflexivity. }
  unfold Rule.analyze_email, Rule.analyze_body. cbv zeta.
  rewrite Htext. reflexivity.
Qed.

(** X15, replies of the rule variant: every reply closes with the
    signature; only the first knowledge-base result is ever looked at,
    and when it scores 0.7 or less the reply is the one composed
    without any result, whatever the results after it score. *)
Theorem rule_reply_uses_first_result
    (a : Rule.EmailAnalysis) (content : string) (kb : list KBResult) :
  ends_with (Rule.generate_response a content kb) signature
  /\ Rule.generate_response a content kb = Rule.generate_response a content (firstn 1 kb)
  /\ (forall best rest,
        kb = best :: rest -> (kb_similarity best <= 7 # 10)%Q ->
        Rule.generate_response a content kb = Rule.generate_response a content []).
Proof.
  split; [ | split ].
  - unfold Rule.generate_response, Rule.generate_body.
    destruct kb as [ | best rest ]; cbv zeta;
      [ | destruct (Qle_bool (kb_similarity best) (7 # 10)) ];
      repeat match goal with
             | |- context [ if ?b then _ else _ ] => destruct b
             end;
      unfold Rule._generate_solution_response, Rule._generate_technical_response,
        Rule._generate_billing_response, Rule._generate_account_response,
        Rule._generate_complaint_response, Rule._generate_feature_request_response,
        Rule._generate_general_response;
      repeat match goal with
             | |- context [ if ?b then _ else _ ] => destruct b
             end;
      repeat first [ apply PipelineFacts.ends_with_refl | apply PipelineFacts.ends_with_app ].
  - destruct kb as [ | best rest ]; reflexivity.
  - intros best rest -> Hlow.
    unfold Rule.generate_response, Rule.generate_body.
    apply Qle_bool_iff in Hlow. rewrite Hlow. reflexivity.
Qed.

(** ** Counting requests *)

Module BoundFacts.

Section Bounds.

Variable kind : Call -> bool.

Lemma requests_set_log (l : list (Level * string)) (w : World) :
  requests kind (set_log l w) = requests kind w.
Proof. reflexivity. Qed.

Lemma requests_snoc (c : Call) (w : World) :
  requests kind (set_calls (calls w ++ [c]) w)
  = (requests kind w + (if kind c then 1 else 0))%nat.
Proof.
  unfold requests. simpl. rewrite List.filter_app, length_app. simpl.
  destruct (kind c); reflexivity.
Qed.

Lemma bound_weaken {A} (n n' : nat) (m : M A) :
  asks_at_most kind n m -> (n <= n')%nat -> asks_at_most kind n' m.
Proof. intros Hm Hle w. specialize (Hm w). lia. Qed.

Lemma bound_ret {A} (a : A) : asks_at_most kind 0 (ret a).
Proof. intros w. simpl. lia. Qed.

Lemma bound_raise {A} (e : exn) : asks_at_most kind 0 (@raise A e).
Proof. intros w. simpl. lia. Qed.

Lemma bound_lift {A} (r : result A) : asks_at_most kind 0 (lift r).
Proof. intros w. simpl. lia. Qed.

Lemma bound_logger (lvl : Level) (msg : string) : asks_at_most kind 0 (logger lvl msg).
Proof. intros w. simpl. rewrite requests_set_log. lia. Qed.

Lemma bound_call {A} (c : Call) (answer : nat -> result A)
    (commit : A -> World -> World) (b : bool) :
  kind c = b ->
  (forall a w, calls (commit a w) = calls w) ->
  asks_at_most kind (if b then 1 else 0) (call c answer commit).
Proof.
  intros <- Hcommit w. unfold call.
  destruct (answer (length (calls w))) as [ a | e ]; simpl.
  - unfold requests at 1. rewrite Hcommit. fold (requests kind (set_calls (calls w ++ [c]) w)).
    rewrite requests_snoc. lia.
  - rewrite requests_snoc. lia.
Qed.

Lemma bound_bind {A B} (n k : nat) (m : M A) (f : A -> M B) :
  asks_at_most kind n m -> (forall a, asks_at_most kind k (f a)) ->
  asks_at_most kind (n + k) (bind m f).
Proof.
  intros Hm Hf w. unfold bind. specialize (Hm w).
  destruct (m w) as [[a | e] w1]; simpl in *; [ | lia ].
  specialize (Hf a w1). lia.
Qed.

Lemma bound_try {A} (n k : nat) (m : M A) (handler : exn -> M A) :
  asks_at_most kind n m -> (forall e, asks_at_most kind k (handler e)) ->
  asks_at_most kind (n + k) (try_except m handler).
Proof.
  intros Hm Hh w. unfold try_except. specialize (Hm w).
  destruct (m w) as [[a | e] w1]; simpl in *; [ lia | ].
  specialize (Hh e w1). lia.
Qed.

Lemma bound_if {A} (n k : nat) (b : bool) (m1 m2 : M A) :
  asks_at_most kind n m1 -> asks_at_most kind k m2 ->
  asks_at_most kind (Nat.max n k) (if b then m1 else m2).
Proof.
  intros H1 H2 w. destruct b; [ specialize (H1 w) | specialize (H2 w) ]; lia.
Qed.

Lemma bound_for_each {A} (n : nat) (l : list A) (body : A -> M unit) :
  (forall x, asks_at_most kind n (body x)) ->
  asks_at_most kind (length l * n) (for_each l body).
Proof.
  intros Hb. induction l as [ | x rest IH ]; simpl.
  - apply bound_ret.
  - apply bound_bind; [ apply Hb | intros _; exact IH ].
Qed.

End Bounds.

(** Adds up the requests of a coroutine along its structure. *)
Ltac tally :=
  lazymatch goal with
  | |- asks_at_most _ _ (bind _ _) => eapply bound_bind; [ tally | intros; tally ]
  | |- asks_at_most _ _ (try_except _ _) => eapply bound_try; [ tally | intros; tally ]
  | |- asks_at_most _ _ (if _ then _ else _) => eapply bound_if; [ tally | tally ]
  | |- asks_at_most _ _ (ret _) => apply bound_ret
  | |- asks_at_most _ _ (raise _) => apply bound_raise
  | |- asks_at_most _ _ (lift _) => apply bound_lift
  | |- asks_at_most _ _ (logger _ _) => apply bound_logger
  | |- asks_at_most _ _ (call _ _ _) =>
      eapply bound_call;
      [ cbv beta iota delta [is_model_call is_send is_ticket_insert is_interaction_insert];
        reflexivity
      | intros; reflexivity ]
  end.

Section Pipeline.

Variable env : Env.

Ltac open_pipeline :=
  unfold Automation._process_single_email, Automation.classify_and_search,
    Automation.act, Bedrock.analyze_email, Bedrock._parse_ai_analysis,
    Bedrock.search_knowledge_base_ai, Bedrock.generate_response,
    Bedrock._call_bedrock_ai, Automation._create_support_ticket,
    Automation._send_automated_response, Automation.send_email,
    Automation._log_email_sent, Automation._log_email_processing,
    Automation._mark_email_as_read,
    Automation.insert_interaction, Automation.new_uuid, Automation.utcnow_iso.

Ltac count := eapply bound_weaken; [ open_pipeline; cbv zeta; tally | simpl; lia ].

Lemma process_single_email_models (email : Email) :
  asks_at_most is_model_call 3 (Automation._process_single_email env email).
Proof. count. Qed.

Lemma process_single_email_sends (email : Email) :
  asks_at_most is_send 1 (Automation._process_single_email env email).
Proof. count. Qed.

Lemma process_single_email_tickets (email : Email) :
  asks_at_most is_ticket_insert 1 (Automation._process_single_email env email).
Proof. count. Qed.

Lemma process_single_email_records (email : Email) :
  asks_at_most is_interaction_insert 2 (Automation._process_single_email env email).
Proof. count. Qed.

(** One pass of the loop over a message asks no more than the pipeline
    of the message does: marking asks only the mailbox. *)
Lemma process_fetched_bound (kind : Call -> bool) (n : nat) (email : Email) :
  (forall id, kind (GmailModify id) = false) ->
  asks_at_most kind n (Automation._process_single_email env email) ->
  asks_at_most kind n (Automation.process_fetched env email).
Proof.
  intros Hquiet Hone w. unfold Automation.process_fetched.
  destruct (bool_decide _); [ simpl; lia | ].
  revert w. eapply bound_weaken.
  - eapply bound_try; [ | intros; apply bound_logger ].
    eapply bound_bind; [ exact Hone | intros _ ].
    eapply bound_bind.
    + instantiate (1 := 0%nat). intros w. simpl. unfold requests. simpl. lia.
    + intros _. unfold Automation._mark_email_as_read.
      eapply bound_try; [ | intros; apply bound_logger ].
      eapply bound_call; [ apply Hquiet | intros; reflexivity ].
  - simpl. lia.
Qed.

End Pipeline.

End BoundFacts.

(** ** What the knowledge-base step decides *)

Module SearchFacts.

Import Run RunFacts StageFacts PipelineFacts.

Section Search.

Variable env : Env.
Variables (email : Email) (id thread subject sender body : string).
Hypothesis Hmail : carries email id thread subject sender body.

(** Without a client the analysis is the fail-safe one and there are no
    results. *)
Lemma classify_and_search_offline (w : World) :
  bedrock env = false ->
  exists w1,
    Automation.classify_and_search env email w
    = (Ok (Bedrock._fallback_analysis body subject, []), w1).
Proof.
  intros Hoff.
  unfold Automation.classify_and_search, Bedrock.analyze_email,
    Bedrock.search_knowledge_base_ai.
  destruct Hmail as (_ & _ & Hsubject & Hsender & Hbody).
  unfold try_except, bind, lift, getitem, logger, ret.
  rewrite Hsubject, Hsender, Hbody, Hoff. simpl. eauto.
Qed.

(** With a client, the results are the one stock entry exactly when the
    model answers the request for search terms, whatever it answers. *)
Lemma classify_and_search_online (w : World) :
  bedrock env = true ->
  exists a w1,
    Automation.classify_and_search env email w
    = (Ok (a,
           if is_ok (invoke_model env (S (length (calls w)))
                       (Bedrock.search_prompt (subject +:+ " " +:+ body)))
           then [ {| kb_title := "Common Solutions";
                     kb_content := "Based on your query about '"
                                   +:+ (subject +:+ " " +:+ body)
                                   +:+ "', here are some common solutions...";
                     kb_similarity := 8 # 10 |} ]
           else []), w1).
Proof.
  intros Hon.
  unfold Automation.classify_and_search, Bedrock.analyze_email,
    Bedrock.search_knowledge_base_ai, Bedrock._call_bedrock_ai,
    Bedrock._parse_ai_analysis.
  destruct Hmail as (_ & _ & Hsubject & Hsender & Hbody).
  unfold try_except, bind, lift, getitem, logger, ret, raise, call, no_commit.
  rewrite Hsubject, Hsender, Hbody, Hon. simpl.
  destruct (invoke_model env (length (calls w)) _) as [ reply | e ]; simpl.
  - destruct (Bedrock.parse_body (runtime env) reply) as [ a | e ]; simpl;
      rewrite length_app, Nat.add_1_r;
      destruct (invoke_model env (S (length (calls w))) _); simpl; eauto.
  - rewrite length_app, Nat.add_1_r.
    destruct (invoke_model env (S (length (calls w))) _); simpl; eauto.
Qed.

End Search.

End SearchFacts.

(** ** Properties of the pipeline as a whole *)

(** X16, what the reply depends on in practice.  Without a Bedrock
    client no reply is ever handed to the outbox: the analysis is the
    fail-safe one, which requires a human, and there are no
    knowledge-base results.  With a client, whenever the model answers
    the request for search terms, exactly one reply is handed to the
    outbox, whatever the analysis says about requires_human: the stock
    knowledge-base entry is then always there. *)
Theorem reply_follows_the_search
    (env : Env) (email : Email) (id thread subject sender body : string) (w : World) :
  carries email id thread subject sender body ->
  (bedrock env = false ->
   exists w',
     Automation._process_single_email env email w = (Ok tt, w')
     /\ sent_mails (calls w') = sent_mails (calls w)
     /\ outbox w' = outbox w)
  /\ (bedrock env = true ->
      is_ok (invoke_model env (S (length (calls w)))
               (Bedrock.search_prompt (subject +:+ " " +:+ body))) = true ->
      exists w' data,
        Automation._process_single_email env email w = (Ok tt, w')
        /\ sent_mails (calls w') = (sent_mails (calls w) ++ [data])%list
        /\ ed_subject data = "Re: " +:+ subject).
Proof.
  intros Hmail.
  destruct (PipelineFacts.classify_and_search_spec env email id thread subject sender
              body Hmail w) as (a & kb & w1 & Hfound & _ & Hsent & Hout & _).
  destruct (PipelineFacts.act_spec env email id thread subject sender body Hmail a kb w1)
    as (w' & ticket_id & row & Hact & _ & _ & Hclosed & Hopen & _).
  pose proof (PipelineFacts.process_single_email_is_act env email id thread subject
                sender body Hmail a kb w w1 Hfound) as Hrun.
  rewrite Hact in Hrun.
  split.
  - intros Hoff.
    destruct (SearchFacts.classify_and_search_offline env email id thread subject sender
                body Hmail w Hoff) as (w0 & Hfound').
    rewrite Hfound in Hfound'. inversion Hfound'; subst.
    exists w'. split; [ exact Hrun | ].
    destruct (Hclosed eq_refl) as (Hs & Ho).
    rewrite Hs, Ho, Hsent, Hout. split; reflexivity.
  - intros Hon Hterms.
    destruct (SearchFacts.classify_and_search_online env email id thread subject sender
                body Hmail w Hon) as (a0 & w0 & Hfound').
    rewrite Hterms in Hfound'. rewrite Hfound in Hfound'. inversion Hfound'; subst.
    destruct Hopen as (response & _ & Hs & _).
    { unfold Automation.reply_gate. apply orb_true_r. }
    exists w'. eexists. split; [ exact Hrun | ].
    rewrite Hs, Hsent. split; reflexivity.
Qed.

Lemma reply_follows_the_search_witness :
  (exists w',
      Automation._process_single_email
        (Script.env false (Script.model Script.down Script.down Script.down)
                    [] [] true true true)
        Script.outage_mail Script.start = (Ok tt, w')
      /\ sent_mails (calls w') = [])
  /\ (exists w' data,
         Automation._process_single_email
           (Script.env true
              (Script.model (Ok Script.ticket_reply) (Ok "outage, production")
                            (Ok "We are on it."))
              [] [] true true true)
           Script.outage_mail Script.start = (Ok tt, w')
         /\ sent_mails (calls w') = [data]).
Proof.
  split.
  - destruct (reply_follows_the_search
                (Script.env false (Script.model Script.down Script.down Script.down)
                            [] [] true true true)
                Script.outage_mail "18c2f09e5d1a7b33" "18c2f09e5d1a7b33" "System outage"
                "Dana Smith <dana@example.com>" "URGENT: production is down" Script.start)
      as (Hoff & _).
    + repeat split; vm_compute; reflexivity.
    + destruct (Hoff eq_refl) as (w' & Hrun & Hsent & _).
      exists w'. split; [ exact Hrun | exact Hsent ].
  - destruct (reply_follows_the_search
                (Script.env true
                   (Script.model (Ok Script.ticket_reply) (Ok "outage, production")
                                 (Ok "We are on it."))
                   [] [] true true true)
                Script.outage_mail "18c2f09e5d1a7b33" "18c2f09e5d1a7b33" "System outage"
                "Dana Smith <dana@example.com>" "URGENT: production is down" Script.start)
      as (_ & Hon).
    + repeat split; vm_compute; reflexivity.
    + destruct (Hon eq_refl) as (w' & data & Hrun & Hsent & _).
      * vm_compute. reflexivity.
      * exists w', data. split; [ exact Hrun | exact Hsent ].
Defined.

(** X17, one set of side effects per message at most: whatever the
    collaborators answer and whatever the message holds, one pass of the
    loop over a message asks the model at most three times, hands at
    most one mail to the outbox, submits at most one ticket and at most
    two interaction records; a batch asks at most as many times its
    length. *)
Theorem side_effects_are_bounded (env : Env) (email : Email) (emails : list Email) :
  asks_at_most is_model_call 3 (Automation.process_fetched env email)
  /\ asks_at_most is_send 1 (Automation.process_fetched env email)
  /\ asks_at_most is_ticket_insert 1 (Automation.process_fetched env email)
  /\ asks_at_most is_interaction_insert 2 (Automation.process_fetched env email)
  /\ asks_at_most is_send (length emails)
       (for_each emails (Automation.process_fetched env))
  /\ asks_at_most is_ticket_insert (length emails)
       (for_each emails (Automation.process_fetched env)).
Proof.
  assert (Hsend : forall e, asks_at_most is_send 1 (Automation.process_fetched env e)).
  { intros e. apply BoundFacts.process_fetched_bound; [ reflexivity | ].
    apply BoundFacts.process_single_email_sends. }
  assert (Hticket : forall e,
             asks_at_most is_ticket_insert 1 (Automation.process_fetched env e)).
  { intros e. apply BoundFacts.process_fetched_bound; [ reflexivity | ].
    apply BoundFacts.process_single_email_tickets. }
  split.
  { apply BoundFacts.process_fetched_bound; [ reflexivity | ].
    apply BoundFacts.process_single_email_models. }
  split; [ apply Hsend | ].
  split; [ apply Hticket | ].
  split.
  { apply BoundFacts.process_fetched_bound; [ reflexivity | ].
    apply BoundFacts.process_single_email_records. }
  split.
  - eapply BoundFacts.bound_weaken;
      [ apply BoundFacts.bound_for_each; exact Hsend | lia ].
  - eapply BoundFacts.bound_weaken;
      [ apply BoundFacts.bound_for_each; exact Hticket | lia ].
Qed.

(** ** Finding the JSON text in a reply *)

Module TextFacts.

Import AddressFacts.

Lemma index_cons (sub : string) (c : ascii) (s : string) :
  String.index 0 sub (String c s)
  = if String.prefix sub (String c s) then Some 0%nat
    else match String.index 0 sub s with
         | Some n => Some (S n)
         | None => None
         end.
Proof. reflexivity. Qed.

Lemma rindex_cons (sub : string) (c : ascii) (s : string) :
  Py.rindex sub (String c s)
  = match Py.rindex sub s with
    | Some i => Some (S i)
    | None => if String.prefix sub (String c s) then Some 0%nat else None
    end.
Proof. reflexivity. Qed.

Lemma prefix_char_other (x c : ascii) (s : string) :
  c <> x -> String.prefix (String x EmptyString) (String c s) = false.
Proof.
  intros Hc. simpl. destruct (ascii_dec x c) as [ -> | _ ]; [ contradiction | reflexivity ].
Qed.

Lemma prefix_char_same (x : ascii) (s : string) :
  String.prefix (String x EmptyString) (String x s) = true.
Proof.
  simpl. destruct (ascii_dec x x) as [ _ | H ]; [ | contradiction ].
  destruct s; reflexivity.
Qed.

(** [find] stops at the first occurrence. *)
Lemma index_first (x : ascii) (pre rest : string) :
  lacks x pre ->
  String.index 0 (String x EmptyString) (pre +:+ String x rest)
  = Some (String.length pre).
Proof.
  induction pre as [ | c pre IH ]; intros Hpre.
  - change (EmptyString +:+ String x rest) with (String x rest).
    rewrite index_cons, (prefix_char_same x rest). reflexivity.
  - rewrite append_cons. inversion Hpre as [ | ? ? Hc Hrest ]; subst.
    rewrite index_cons, (prefix_char_other x c _ Hc), (IH Hrest). reflexivity.
Qed.

Lemma rindex_none (x : ascii) (s : string) :
  lacks x s -> Py.rindex (String x EmptyString) s = None.
Proof.
  induction s as [ | c s IH ]; intros Hs; [ reflexivity | ].
  inversion Hs as [ | ? ? Hc Hrest ]; subst.
  rewrite rindex_cons, (IH Hrest), (prefix_char_other x c s Hc). reflexivity.
Qed.

(** [rfind] stops at the last occurrence. *)
Lemma rindex_last (x : ascii) (pre post : string) :
  lacks x post ->
  Py.rindex (String x EmptyString) (pre +:+ String x post)
  = Some (String.length pre).
Proof.
  intros Hpost. induction pre as [ | c pre IH ].
  - change (EmptyString +:+ String x post) with (String x post).
    rewrite rindex_cons, (rindex_none x post Hpost), (prefix_char_same x post).
    reflexivity.
  - rewrite append_cons, rindex_cons, IH. reflexivity.
Qed.

Lemma substring_middle (pre mid post : string) :
  substring (String.length pre) (String.length mid) (pre +:+ mid +:+ post) = mid.
Proof.
  induction pre as [ | c pre IH ].
  - change (EmptyString +:+ mid +:+ post) with (mid +:+ post). simpl String.length.
    induction mid as [ | d mid IHm ].
    + destruct post; reflexivity.
    + rewrite append_cons. simpl. rewrite IHm. reflexivity.
  - rewrite append_cons. simpl. exact IH.
Qed.

Lemma length_append (s t : string) :
  String.length (s +:+ t) = (String.length s + String.length t)%nat.
Proof.
  induction s as [ | c s IH ]; [ reflexivity | ].
  rewrite append_cons. simpl. rewrite IH. reflexivity.
Qed.

(** The text between the first opening brace and the last closing one
    is what stands between the words around it. *)
Lemma json_str_between (pre mid post : string) :
  lacks "{" pre -> lacks "}" post ->
  Py.find "{" (pre +:+ ("{" +:+ mid +:+ "}") +:+ post) = Z.of_nat (String.length pre)
  /\ Py.rfind "}" (pre +:+ ("{" +:+ mid +:+ "}") +:+ post)
     = Z.of_nat (String.length pre + S (String.length mid))
  /\ Bedrock.json_str (pre +:+ ("{" +:+ mid +:+ "}") +:+ post) = "{" +:+ mid +:+ "}".
Proof.
  intros Hpre Hpost.
  assert (Hfind : Py.find "{" (pre +:+ ("{" +:+ mid +:+ "}") +:+ post)
                  = Z.of_nat (String.length pre)).
  { unfold Py.find.
    change (("{" +:+ mid +:+ "}") +:+ post) with (String "{" ((mid +:+ "}") +:+ post)).
    rewrite (index_first "{" pre _ Hpre). reflexivity. }
  assert (Hrfind : Py.rfind "}" (pre +:+ ("{" +:+ mid +:+ "}") +:+ post)
                   = Z.of_nat (String.length pre + S (String.length mid))).
  { unfold Py.rfind.
    replace (pre +:+ ("{" +:+ mid +:+ "}") +:+ post)
      with ((pre +:+ "{" +:+ mid) +:+ String "}" post).
    - rewrite (rindex_last "}" _ post Hpost).
      rewrite !length_append. reflexivity.
    - rewrite !PipelineFacts.append_assoc. reflexivity. }
  split; [ exact Hfind | ]. split; [ exact Hrfind | ].
  unfold Bedrock.json_str, Py.slice. rewrite Hfind, Hrfind.
  rewrite Nat2Z.id.
  replace (Z.to_nat (Z.of_nat (String.length pre + S (String.length mid)) + 1
                     - Z.of_nat (String.length pre)))
    with (String.length ("{" +:+ mid +:+ "}")).
  - apply substring_middle.
  - change ("{" +:+ mid +:+ "}") with (String "{" (mid +:+ "}")).
    simpl String.length. rewrite length_append. simpl. lia.
Qed.

End TextFacts.

(** ** Properties of the inference-backed classifier *)

(** X18, a reply whose JSON object has none of the expected fields is
    taken as a confident answer, not as a failure: every field gets its
    default, and these are not the fail-safe values: confidence 0.7 and
    requires_human false. *)
Theorem reply_object_without_fields
    (env : Env) (content subject sender : string) (w : World)
    (reply : string) (fields : list (string * json)) :
  bedrock env = true ->
  invoke_model env (length (calls w))
    (Bedrock._create_analysis_prompt content subject sender) = Ok reply ->
  Py.find "{" reply <> (-1)%Z ->
  Py.rfind "}" reply <> (-1)%Z ->
  json_loads (runtime env) (Bedrock.json_str reply) = Ok (JDict fields) ->
  (forall k, In k ["category"; "priority"; "sentiment"; "intent"; "confidence";
                   "keywords"; "requires_human"; "ticket_needed"; "reasoning"] ->
             Value.assoc k fields = None) ->
  exists a w',
    Bedrock.analyze_email env content subject sender w = (Ok a, w')
    /\ Bedrock.category a = JStr "general"
    /\ Bedrock.priority a = JStr "medium"
    /\ Bedrock.sentiment a = JStr "neutral"
    /\ Bedrock.intent a = JStr "support_request"
    /\ Bedrock.confidence a = Finite (7 # 10)
    /\ Bedrock.keywords a = JList []
    /\ Bedrock.requires_human a = JBool false
    /\ Bedrock.ticket_needed a = JBool true
    /\ Bedrock.reasoning a = JStr "AI analysis completed"
    /\ ~ Bedrock.is_fail_safe a.
Proof.
  intros Hon Hcall Hopen Hclose Hjson Hnone.
  unfold Bedrock.analyze_email, Bedrock._call_bedrock_ai, Bedrock._parse_ai_analysis.
  unfold try_except, bind, call, lift, logger, ret, raise, no_commit.
  rewrite Hon. simpl. rewrite Hcall. simpl.
  unfold Bedrock.parse_body. cbv zeta.
  destruct (Z.eqb_spec (Py.find "{" reply) (-1)) as [ H | _ ]; [ contradiction | ].
  destruct (Z.eqb_spec (Py.rfind "}" reply + 1) 0) as [ H | _ ]; [ lia | ].
  simpl orb. cbv iota. rewrite Hjson. unfold rbind, Value.get.
  rewrite !Hnone by (simpl; tauto).
  simpl. do 2 eexists. split; [ reflexivity | ]. simpl.
  repeat (split; [ reflexivity | ]).
  intros (_ & _ & _ & Hconf & _). discriminate.
Qed.

Lemma reply_object_without_fields_witness :
  exists a w',
    Bedrock.analyze_email
      (Script.env true (Script.model (Ok "I would say {} here.") Script.down Script.down)
                  [] [] true true true)
      "URGENT: production is down" "System outage" "Dana Smith <dana@example.com>"
      Script.start = (Ok a, w')
    /\ Bedrock.requires_human a = JBool false
    /\ Bedrock.confidence a = Finite (7 # 10).
Proof.
  destruct (reply_object_without_fields
              (Script.env true (Script.model (Ok "I would say {} here.") Script.down
                                             Script.down)
                          [] [] true true true)
              "URGENT: production is down" "System outage"
              "Dana Smith <dana@example.com>" Script.start "I would say {} here." [])
    as (a & w' & Hrun & _ & _ & _ & _ & Hconf & _ & Hhuman & _).
  - reflexivity.
  - vm_compute. reflexivity.
  - vm_compute. discriminate.
  - vm_compute. discriminate.
  - vm_compute. reflexivity.
  - intros k _. reflexivity.
  - exists a, w'. split; [ exact Hrun | ]. split; [ exact Hhuman | exact Hconf ].
Defined.

(** X19, a confidence that is not a number discards the whole reply:
    when [float] rejects the "confidence" field of an otherwise usable
    JSON object, the Analysis is the fail-safe one, whatever the other
    fields said. *)
Theorem confidence_must_be_a_number
    (env : Env) (content subject sender : string) (w : World)
    (reply : string) (data field : json) :
  bedrock env = true ->
  invoke_model env (length (calls w))
    (Bedrock._create_analysis_prompt content subject sender) = Ok reply ->
  json_loads (runtime env) (Bedrock.json_str reply) = Ok data ->
  Value.get data "confidence" (JFloat (Finite (7 # 10))) = Ok field ->
  is_ok (py_float (runtime env) field) = false ->
  exists w',
    Bedrock.analyze_email env content subject sender w
    = (Ok (Bedrock._fallback_analysis content subject), w')
    /\ Bedrock.is_fail_safe (Bedrock._fallback_analysis content subject).
Proof.
  intros Hon Hcall Hjson Hfield Hfloat.
  assert (Hparse : is_ok (Bedrock.parse_body (runtime env) reply) = false).
  { unfold Bedrock.parse_body. cbv zeta.
    destruct (_ || _); [ reflexivity | ].
    rewrite Hjson. unfold rbind.
    destruct data as [ | | | | | | items ]; try discriminate.
    simpl Value.get in *. inversion Hfield as [ Hf ]. rewrite Hf.
    destruct (py_float (runtime env) field); [ discriminate | reflexivity ]. }
  destruct (BedrockFacts.analyze_email_failure env content subject sender w)
    as (w' & Hrun).
  { right. right. exists reply. split; [ exact Hcall | exact Hparse ]. }
  exists w'. split; [ exact Hrun | apply BedrockFacts.fallback_is_fail_safe ].
Qed.

Lemma confidence_must_be_a_number_witness :
  exists w',
    Bedrock.analyze_email
      (Script.env true
         (Script.model
            (Ok ("{" +:+ Script.key "priority" +:+ ": " +:+ Script.key "low" +:+ ", "
                     +:+ Script.key "confidence" +:+ ": " +:+ Script.key "high" +:+ "}"))
            Script.down Script.down)
         [] [] true true true)
      "URGENT: production is down" "System outage" "Dana Smith <dana@example.com>"
      Script.start
    = (Ok (Bedrock._fallback_analysis "URGENT: production is down" "System outage"), w').
Proof.
  destruct (confidence_must_be_a_number
              (Script.env true
                 (Script.model
                    (Ok ("{" +:+ Script.key "priority" +:+ ": " +:+ Script.key "low"
                             +:+ ", " +:+ Script.key "confidence" +:+ ": "
                             +:+ Script.key "high" +:+ "}"))
                    Script.down Script.down)
                 [] [] true true true)
              "URGENT: production is down" "System outage"
              "Dana Smith <dana@example.com>" Script.start
              ("{" +:+ Script.key "priority" +:+ ": " +:+ Script.key "low" +:+ ", "
                   +:+ Script.key "confidence" +:+ ": " +:+ Script.key "high" +:+ "}")
              (JDict [("priority", JStr "low"); ("confidence", JStr "high")])
              (JStr "high"))
    as (w' & Hrun & _).
  - reflexivity.
  - vm_compute. reflexivity.
  - vm_compute. reflexivity.
  - reflexivity.
  - vm_compute. reflexivity.
  - exists w'. exact Hrun.
Defined.

(** X20, the words around the JSON object are ignored: when nothing
    before the object holds an opening brace and nothing after it a
    closing one, the text handed to the decoder is the object alone,
    and the reply parses to what the object alone parses to. *)
Theorem prose_around_json_is_ignored (rt : Runtime) (pre mid post : string) :
  lacks "{" pre ->
  lacks "}" post ->
  Bedrock.json_str (pre +:+ ("{" +:+ mid +:+ "}") +:+ post) = "{" +:+ mid +:+ "}"
  /\ Bedrock.parse_body rt (pre +:+ ("{" +:+ mid +:+ "}") +:+ post)
     = Bedrock.parse_body rt ("{" +:+ mid +:+ "}").
Proof.
  intros Hpre Hpost.
  destruct (TextFacts.json_str_between pre mid post Hpre Hpost)
    as (Hfind & Hrfind & Hstr).
  destruct (TextFacts.json_str_between EmptyString mid EmptyString)
    as (Hfind0 & Hrfind0 & Hstr0); [ constructor | constructor | ].
  assert (Hnil : forall s, s +:+ EmptyString = s).
  { induction s as [ | c s IH ]; [ reflexivity | ].
    rewrite AddressFacts.append_cons, IH. reflexivity. }
  change (EmptyString +:+ ("{" +:+ mid +:+ "}") +:+ EmptyString)
    with (("{" +:+ mid +:+ "}") +:+ EmptyString) in *.
  rewrite Hnil in Hfind0, Hrfind0, Hstr0.
  split; [ exact Hstr | ].
  unfold Bedrock.parse_body. cbv zeta.
  rewrite Hstr, Hstr0, Hfind, Hrfind, Hfind0, Hrfind0.
  replace ((Z.of_nat (String.length pre) =? -1)%Z) with false
    by (symmetry; apply Z.eqb_neq; lia).
  replace ((Z.of_nat (String.length pre + S (String.length mid)) + 1 =? 0)%Z) with false
    by (symmetry; apply Z.eqb_neq; lia).
  replace ((Z.of_nat (String.length EmptyString) =? -1)%Z) with false
    by (symmetry; apply Z.eqb_neq; simpl; lia).
  replace ((Z.of_nat (String.length EmptyString + S (String.length mid)) + 1 =? 0)%Z)
    with false by (symmetry; apply Z.eqb_neq; lia).
  reflexivity.
Qed.

Lemma prose_around_json_is_ignored_witness :
  Bedrock.json_str "Here is my analysis: {} I hope this helps." = "{}".
Proof.
  apply (proj1 (prose_around_json_is_ignored Ref.runtime "Here is my analysis: "
                  EmptyString " I hope this helps."
                  ltac:(repeat constructor; discriminate)
                  ltac:(repeat constructor; discriminate))).
Defined.

(** ** Reading the mailbox *)

Module InboxFacts.

Import Inbox.

Lemma omap_length_le {A B} (f : A -> option B) (l : list A) :
  (length (omap f l) <= length l)%nat.
Proof.
  induction l as [ | x l IH ]; simpl; [ lia | ].
  unfold omap in IH. destruct (f x); simpl; lia.
Qed.

Lemma plain_data_passed_over (part : json) :
  passed_over part -> plain_data part = Ok None.
Proof.
  intros (mime & Hmime & [ Hother | (body & data & Hbody & Hdata & Hempty) ]);
    unfold plain_data, rbind; rewrite Hmime.
  - rewrite Hother. reflexivity.
  - destruct (is_str mime "text/plain"); [ | reflexivity ].
    rewrite Hbody, Hdata, Hempty. reflexivity.
Qed.

Lemma plain_data_plain_part (part : json) (d : string) :
  plain_part part d -> plain_data part = Ok (Some (JStr d)).
Proof.
  intros (body & Hmime & Hbody & Hdata & Hsome).
  unfold plain_data, rbind. rewrite Hmime. simpl is_str. cbv iota.
  rewrite Hbody, Hdata. simpl.
  destruct (String.eqb_spec d ""); [ contradiction | reflexivity ].
Qed.

Section Mailbox.

Variable b64decode_utf8 : string -> result string.

Lemma first_plain_skips (skipped rest : list json) :
  Forall passed_over skipped ->
  first_plain b64decode_utf8 (skipped ++ rest) = first_plain b64decode_utf8 rest.
Proof.
  induction 1 as [ | part skipped Hpart _ IH ]; [ reflexivity | ].
  simpl. rewrite (plain_data_passed_over part Hpart). exact IH.
Qed.

Lemma first_plain_none (parts : list json) :
  Forall passed_over parts -> first_plain b64decode_utf8 parts = Ok EmptyString.
Proof.
  intros H. rewrite <- (app_nil_r parts). rewrite (first_plain_skips parts [] H).
  reflexivity.
Qed.

(** The value [_extract_email_body] returns does not depend on the
    world it runs in, and it always returns. *)
Lemma extract_email_body_value (payload : json) (w : World) :
  exists w',
    _extract_email_body b64decode_utf8 payload w
    = (Ok (body_of b64decode_utf8 payload), w')
    /\ calls w' = calls w.
Proof.
  unfold _extract_email_body, body_of, try_except, lift, bind, logger, ret.
  destruct (extract_body b64decode_utf8 payload); simpl; eauto.
Qed.

Lemma header_of_pairs (name default : string) (pairs : list (string * string)) :
  header (headers_of pairs) name (JStr default)
  = Ok (JStr (header_value name default pairs)).
Proof.
  unfold header, headers_of, iter, rbind.
  induction pairs as [ | [n v] rest IH ]; [ reflexivity | ].
  simpl. destruct (String.eqb n name); [ reflexivity | exact IH ].
Qed.

(** On a message with an id, a thread id and a payload whose headers
    are well formed, the parse returns the dict, whatever the body. *)
Lemma parse_email_message_ok (message payload id thread : json)
    (pairs : list (string * string)) (w : World) :
  getitem message "payload" = Ok payload ->
  Value.get payload "headers" (JList []) = Ok (headers_of pairs) ->
  getitem message "id" = Ok id ->
  getitem message "threadId" = Ok thread ->
  exists p w',
    _parse_email_message b64decode_utf8 message w = (Ok (Some p), w')
    /\ calls w' = calls w
    /\ p_id p = id
    /\ p_thread_id p = thread
    /\ p_subject p = JStr (header_value "Subject" "No Subject" pairs)
    /\ p_sender p = JStr (header_value "From" "Unknown Sender" pairs)
    /\ p_date p = JStr (header_value "Date" "" pairs)
    /\ p_message_id p = JStr (header_value "Message-ID" "" pairs)
    /\ p_body p = body_of b64decode_utf8 payload.
Proof.
  intros Hpayload Hheaders Hid Hthread.
  unfold _parse_email_message.
  unfold try_except at 1. unfold bind at 1 2 3 4 5 6 7. unfold lift at 1 2 3 4 5 6 7.
  rewrite Hpayload, Hheaders, !header_of_pairs.
  destruct (extract_email_body_value payload w) as (w1 & Hbody & Hcalls).
  unfold bind at 1. rewrite Hbody.
  unfold bind, lift, ret. rewrite Hid, Hthread.
  assert (Hdict : exists items, message = JDict items).
  { destruct message; simpl in Hid; try discriminate. eauto. }
  destruct Hdict as (items & ->). simpl.
  do 2 eexists. split; [ reflexivity | ]. simpl.
  split; [ exact Hcalls | ]. repeat split.
Qed.

Ltac refused e :=
  simpl; eexists;
  (split; [ | right; exists e; split; [ reflexivity | apply last_snoc ] ]);
  first [ reflexivity | eassumption ].

(** The parse never raises: it returns the dict, which takes the
    message to have a payload, an id and a thread id, or it returns
    [None] and logs why. *)
Lemma parse_email_message_cases (message : json) (w : World) :
  exists w',
    calls w' = calls w
    /\ ((exists p,
           _parse_email_message b64decode_utf8 message w = (Ok (Some p), w')
           /\ is_ok (getitem message "payload") = true
           /\ getitem message "id" = Ok (p_id p)
           /\ getitem message "threadId" = Ok (p_thread_id p))
        \/ (exists e,
              _parse_email_message b64decode_utf8 message w = (Ok None, w')
              /\ last (log w')
                 = Some (ERROR, "Failed to parse email message: " +:+ exn_message e))).
Proof.
  destruct (extract_email_body_value
              (match getitem message "payload" with Ok p => p | Raise _ => JNull end) w)
    as (w1 & Hbody & Hcalls).
  unfold _parse_email_message, try_except, bind, lift, logger, ret.
  destruct (getitem message "payload") as [ payload | e ] eqn:Hpayload;
    [ | refused e ].
  destruct (Value.get payload "headers" (JList [])) as [ headers | e ]; [ | refused e ].
  destruct (header headers "Subject" (JStr "No Subject")) as [ subject | e ];
    [ | refused e ].
  destruct (header headers "From" (JStr "Unknown Sender")) as [ sender | e ];
    [ | refused e ].
  destruct (header headers "Date" (JStr "")) as [ date | e ]; [ | refused e ].
  destruct (header headers "Message-ID" (JStr "")) as [ message_id | e ];
    [ | refused e ].
  rewrite Hbody.
  destruct (getitem message "id") as [ id | e ] eqn:Hid; [ | refused e ].
  destruct (getitem message "threadId") as [ thread | e ] eqn:Hthread; [ | refused e ].
  assert (Hdict : exists items, message = JDict items).
  { destruct message; simpl in Hid; try discriminate. eauto. }
  destruct Hdict as (items & ->). simpl.
  eexists. split; [ | left; eexists; split; [ reflexivity | ] ]; [ exact Hcalls | ].
  simpl. repeat split.
Qed.

(** A message that lacks one of the three keys is refused, and the
    refusal logged. *)
Lemma parse_email_message_refused (items : list (string * json)) (w : World) :
  Value.assoc "payload" items = None
  \/ Value.assoc "id" items = None
  \/ Value.assoc "threadId" items = None ->
  exists w' e,
    _parse_email_message b64decode_utf8 (JDict items) w = (Ok None, w')
    /\ calls w' = calls w
    /\ last (log w') = Some (ERROR, "Failed to parse email message: " +:+ exn_message e).
Proof.
  intros Hmissing.
  destruct (parse_email_message_cases (JDict items) w)
    as (w' & Hcalls & [ (p & _ & Hpayload & Hid & Hthread) | (e & Hrun & Hlog) ]).
  - exfalso. simpl in Hpayload, Hid, Hthread.
    destruct Hmissing as [ H | [ H | H ] ]; rewrite H in *; discriminate.
  - exists w', e. split; [ exact Hrun | ]. split; [ exact Hcalls | exact Hlog ].
Qed.

(** The parse returns [parsed], whatever the world it runs in. *)
Lemma parse_email_message_value (message : json) (w : World) :
  exists w',
    _parse_email_message b64decode_utf8 message w
    = (Ok (parsed b64decode_utf8 message), w')
    /\ calls w' = calls w.
Proof.
  destruct (extract_email_body_value
              (match getitem message "payload" with Ok p => p | Raise _ => JNull end) w)
    as (w1 & Hbody & Hcalls).
  unfold _parse_email_message, parsed, try_except, bind, lift, logger, ret, rbind.
  destruct (getitem message "payload") as [ payload | e ]; [ | simpl; eauto ].
  destruct (Value.get payload "headers" (JList [])) as [ headers | e ]; [ | simpl; eauto ].
  destruct (header headers "Subject" (JStr "No Subject")) as [ subject | e ];
    [ | simpl; eauto ].
  destruct (header headers "From" (JStr "Unknown Sender")) as [ sender | e ];
    [ | simpl; eauto ].
  destruct (header headers "Date" (JStr "")) as [ date | e ]; [ | simpl; eauto ].
  destruct (header headers "Message-ID" (JStr "")) as [ message_id | e ];
    [ | simpl; eauto ].
  rewrite Hbody.
  destruct (getitem message "id") as [ id | e ] eqn:Hid; [ | simpl; eauto ].
  destruct (getitem message "threadId") as [ thread | e ]; [ | simpl; eauto ].
  assert (Hdict : exists items, message = JDict items).
  { destruct message; simpl in Hid; try discriminate. eauto. }
  destruct Hdict as (items & ->). simpl. eauto.
Qed.

Variable messages_list : string -> result json.
Variable messages_get : json -> result json.

(** The loop over listed messages keeps the parsable ones, in order. *)
Lemma fetch_each_listed (stubs msgs : list json) (emails : list Parsed) (w : World) :
  Forall2 (listed messages_get) stubs msgs ->
  exists w',
    fetch_each b64decode_utf8 messages_get stubs emails w
    = (Ok (emails ++ omap (parsed b64decode_utf8) msgs)%list, w')
    /\ calls w' = calls w.
Proof.
  intros Hlisted. revert emails w.
  induction Hlisted as [ | stub msg stubs msgs (id & Hid & Hget) _ IH ]; intros emails w.
  - simpl. unfold ret. rewrite app_nil_r. eauto.
  - simpl fetch_each. unfold bind at 1 2 3, lift. rewrite Hid, Hget.
    destruct (parse_email_message_value msg w) as (w1 & Hparse & Hcalls).
    rewrite Hparse. simpl omap.
    destruct (parsed b64decode_utf8 msg) as [ p | ].
    + destruct (IH (emails ++ [p])%list w1) as (w' & Hrun & Hcalls').
      exists w'. rewrite Hrun, <- app_assoc. split; [ reflexivity | congruence ].
    + destruct (IH emails w1) as (w' & Hrun & Hcalls').
      exists w'. rewrite Hrun. split; [ reflexivity | congruence ].
Qed.

(** A listed message that cannot be fetched stops the loop with its
    exception, whatever was collected before. *)
Lemma fetch_each_broken (before after : list json) (msgs : list json)
    (stub : json) (emails : list Parsed) (w : World) :
  Forall2 (listed messages_get) before msgs ->
  is_ok (id <-- getitem stub "id" ; messages_get id) = false ->
  exists w' e,
    fetch_each b64decode_utf8 messages_get (before ++ stub :: after) emails w
    = (Raise e, w')
    /\ calls w' = calls w.
Proof.
  intros Hlisted Hbroken. revert emails w.
  induction Hlisted as [ | s msg before msgs (id & Hid & Hget) _ IH ]; intros emails w.
  - simpl fetch_each. unfold bind at 1 2 3, lift. unfold rbind in Hbroken.
    destruct (getitem stub "id") as [ id | e ]; [ | eauto ].
    destruct (messages_get id) as [ msg | e ]; [ discriminate | eauto ].
  - simpl fetch_each. unfold bind at 1 2 3, lift. rewrite Hid, Hget.
    destruct (parse_email_message_value msg w) as (w1 & Hparse & Hcalls).
    rewrite Hparse.
    destruct (parsed b64decode_utf8 msg) as [ p | ].
    + destruct (IH (emails ++ [p])%list w1) as (w' & e & Hrun & Hcalls').
      exists w', e. rewrite Hrun. split; [ reflexivity | congruence ].
    + destruct (IH emails w1) as (w' & e & Hrun & Hcalls').
      exists w', e. rewrite Hrun. split; [ reflexivity | congruence ].
Qed.

End Mailbox.

End InboxFacts.

(** ** Properties of the mailbox reader *)

(** X21, the body of a multipart message is the first plain-text part
    that has data, decoded and stripped: parts before it that are not
    plain text (a nested multipart among them) or have no data are
    passed over, parts after it are never looked at.  When the decoder
    rejects that part, the body is empty and the failure is logged,
    whatever the later parts hold; and when every part is passed over,
    the body is empty. *)
Theorem body_is_first_plain_part
    (b64decode_utf8 : string -> result string)
    (items : list (string * json)) (parts : list json) (w : World) :
  Value.assoc "parts" items = Some (JList parts) ->
  (forall skipped part rest d,
      parts = (skipped ++ part :: rest)%list ->
      Forall Inbox.passed_over skipped ->
      Inbox.plain_part part d ->
      Inbox._extract_email_body b64decode_utf8 (JDict items) w
      = match b64decode_utf8 d with
        | Ok text => (Ok (Py.strip text), w)
        | Raise e =>
            (Ok EmptyString,
             set_log (log w ++ [(ERROR, "Failed to extract email body: "
                                        +:+ exn_message e)]) w)
        end)
  /\ (Forall Inbox.passed_over parts ->
      Inbox._extract_email_body b64decode_utf8 (JDict items) w = (Ok EmptyString, w)).
Proof.
  intros Hparts.
  assert (Hopen : Inbox.extract_body b64decode_utf8 (JDict items)
                  = rbind (Inbox.first_plain b64decode_utf8 parts)
                          (fun body => Ok (Py.strip body))).
  { unfold Inbox.extract_body, Inbox.has, Inbox.getitem, Inbox.iter, rbind.
    rewrite Hparts. reflexivity. }
  unfold Inbox._extract_email_body, try_except, lift, bind, logger, ret.
  rewrite Hopen. split.
  - intros skipped part rest d -> Hskipped Hplain.
    rewrite (InboxFacts.first_plain_skips b64decode_utf8 skipped _ Hskipped).
    simpl Inbox.first_plain. rewrite (InboxFacts.plain_data_plain_part part d Hplain).
    unfold rbind. simpl Inbox.decode.
    destruct (b64decode_utf8 d); reflexivity.
  - intros Hnone.
    rewrite (InboxFacts.first_plain_none b64decode_utf8 parts Hnone). reflexivity.
Qed.

Lemma body_is_first_plain_part_witness :
  Inbox._extract_email_body
    (fun data => if String.eqb data "IEhlbGxvLCB0ZWFtIA==" then Ok " Hello, team "
                 else Script.down)
    (JDict
       [("mimeType", JStr "multipart/mixed");
        ("parts",
          JList
            [ JDict [("mimeType", JStr "multipart/alternative");
                     ("parts", JList [JDict [("mimeType", JStr "text/plain")]])];
              JDict [("mimeType", JStr "text/plain"); ("body", JDict [("size", JInt 0)])];
              JDict [("mimeType", JStr "text/plain");
                     ("body", JDict [("data", JStr "IEhlbGxvLCB0ZWFtIA==")])];
              JDict [("mimeType", JStr "text/plain");
                     ("body", JDict [("data", JStr "bGF0ZXI=")])] ])])
    Script.start
  = (Ok "Hello, team", Script.start).
Proof.
  refine (proj1 (body_is_first_plain_part
                   (fun data => if String.eqb data "IEhlbGxvLCB0ZWFtIA=="
                                then Ok " Hello, team " else Script.down)
                   [("mimeType", JStr "multipart/mixed");
                    ("parts",
                      JList
                        [ JDict [("mimeType", JStr "multipart/alternative");
                                 ("parts", JList [JDict [("mimeType", JStr "text/plain")]])];
                          JDict [("mimeType", JStr "text/plain");
                                 ("body", JDict [("size", JInt 0)])];
                          JDict [("mimeType", JStr "text/plain");
                                 ("body", JDict [("data", JStr "IEhlbGxvLCB0ZWFtIA==")])];
                          JDict [("mimeType", JStr "text/plain");
                                 ("body", JDict [("data", JStr "bGF0ZXI=")])] ])]
                   _ Script.start eq_refl)
            [ JDict [("mimeType", JStr "multipart/alternative");
                     ("parts", JList [JDict [("mimeType", JStr "text/plain")]])];
              JDict [("mimeType", JStr "text/plain"); ("body", JDict [("size", JInt 0)])] ]
            _ _ "IEhlbGxvLCB0ZWFtIA==" eq_refl _ _).
  - repeat constructor.
    + exists (JStr "multipart/alternative"). split; [ reflexivity | left; reflexivity ].
    + exists (JStr "text/plain"). split; [ reflexivity | right ].
      exists (JDict [("size", JInt 0)]), (JStr ""). repeat split.
  - exists (JDict [("data", JStr "IEhlbGxvLCB0ZWFtIA==")]).
    repeat split. discriminate.
Defined.

(** X22, what a parsed message holds: from a message with a payload,
    an id and a thread id, whose headers are well formed, the parse
    returns a dict whose subject, sender, date and message id are the
    values of the first headers called Subject, From, Date and
    Message-ID, or "No Subject", "Unknown Sender" and the empty string
    when there is none, and whose body is that of the payload; when the
    two ids are strings, the dict carries the five keys the pipeline
    reads. *)
Theorem parse_gives_the_keys
    (b64decode_utf8 : string -> result string)
    (message payload : json) (id thread : string)
    (pairs : list (string * string)) (w : World) :
  Inbox.getitem message "payload" = Ok payload ->
  Value.get payload "headers" (JList []) = Ok (Inbox.headers_of pairs) ->
  Inbox.getitem message "id" = Ok (JStr id) ->
  Inbox.getitem message "threadId" = Ok (JStr thread) ->
  exists p w',
    Inbox._parse_email_message b64decode_utf8 message w = (Ok (Some p), w')
    /\ Inbox.p_date p = JStr (Inbox.header_value "Date" "" pairs)
    /\ Inbox.p_message_id p = JStr (Inbox.header_value "Message-ID" "" pairs)
    /\ carries (Inbox.as_email p) id thread
         (Inbox.header_value "Subject" "No Subject" pairs)
         (Inbox.header_value "From" "Unknown Sender" pairs)
         (Inbox.body_of b64decode_utf8 payload).
Proof.
  intros Hpayload Hheaders Hid Hthread.
  destruct (InboxFacts.parse_email_message_ok b64decode_utf8 message payload
              (JStr id) (JStr thread) pairs w Hpayload Hheaders Hid Hthread)
    as (p & w' & Hrun & _ & Hpid & Hpthread & Hsubject & Hsender & Hdate & Hmid & Hbody).
  exists p, w'. split; [ exact Hrun | ].
  split; [ exact Hdate | ]. split; [ exact Hmid | ].
  unfold carries, Inbox.as_email.
  rewrite Hpid, Hpthread, Hsubject, Hsender, Hdate, Hmid, Hbody.
  unfold Inbox.put at 1 2 3 4 5 6.
  destruct (Inbox.p_snippet p); simpl Inbox.put;
    repeat split; simplify_map_eq; reflexivity.
Qed.

Lemma parse_gives_the_keys_witness :
  exists p w',
    Inbox._parse_email_message (fun _ => Script.down)
      (JDict [("id", JStr "18c2f09e5d1a7b33"); ("threadId", JStr "18c2f09e5d1a7b33");
              ("payload",
                JDict [("mimeType", JStr "text/html");
                       ("headers",
                         Inbox.headers_of
                           [("From", "Dana Smith <dana@example.com>");
                            ("Subject", "System outage");
                            ("Subject", "Fwd: something else")])])])
      Script.start = (Ok (Some p), w')
    /\ Inbox.as_email p !! "subject" = Some "System outage"
    /\ Inbox.as_email p !! "body" = Some EmptyString.
Proof.
  destruct (parse_gives_the_keys (fun _ => Script.down)
              (JDict [("id", JStr "18c2f09e5d1a7b33");
                      ("threadId", JStr "18c2f09e5d1a7b33");
                      ("payload",
                        JDict [("mimeType", JStr "text/html");
                               ("headers",
                                 Inbox.headers_of
                                   [("From", "Dana Smith <dana@example.com>");
                                    ("Subject", "System outage");
                                    ("Subject", "Fwd: something else")])])])
              (JDict [("mimeType", JStr "text/html");
                      ("headers",
                        Inbox.headers_of
                          [("From", "Dana Smith <dana@example.com>");
                           ("Subject", "System outage");
                           ("Subject", "Fwd: something else")])])
              "18c2f09e5d1a7b33" "18c2f09e5d1a7b33"
              [("From", "Dana Smith <dana@example.com>");
               ("Subject", "System outage");
               ("Subject", "Fwd: something else")]
              Script.start eq_refl eq_refl eq_refl eq_refl)
    as (p & w' & Hrun & _ & _ & (_ & _ & Hsubject & _ & Hbody)).
  exists p, w'. split; [ exact Hrun | ]. split; [ exact Hsubject | exact Hbody ].
Defined.

(** X23, a message without a payload, an id or a thread id is refused:
    the parse returns [None] and logs the error, and never raises. *)
Theorem malformed_message_is_refused
    (b64decode_utf8 : string -> result string)
    (items : list (string * json)) (w : World) :
  Value.assoc "payload" items = None
  \/ Value.assoc "id" items = None
  \/ Value.assoc "threadId" items = None ->
  exists w' e,
    Inbox._parse_email_message b64decode_utf8 (JDict items) w = (Ok None, w')
    /\ last (log w') = Some (ERROR, "Failed to parse email message: " +:+ exn_message e)
    /\ Inbox.parsed b64decode_utf8 (JDict items) = None.
Proof.
  intros Hmissing.
  destruct (InboxFacts.parse_email_message_refused b64decode_utf8 items w Hmissing)
    as (w' & e & Hrun & _ & Hlog).
  exists w', e. split; [ exact Hrun | ]. split; [ exact Hlog | ].
  destruct (InboxFacts.parse_email_message_value b64decode_utf8 (JDict items) w)
    as (w1 & Hvalue & _).
  rewrite Hrun in Hvalue. inversion Hvalue. reflexivity.
Qed.

Lemma malformed_message_is_refused_witness :
  exists w',
    Inbox._parse_email_message (fun _ => Script.down)
      (JDict [("id", JStr "18c2f09e5d1a7b33");
              ("payload", JDict [("mimeType", JStr "text/plain")])])
      Script.start = (Ok None, w')
    /\ last (log w') = Some (ERROR, "Failed to parse email message: 'threadId'").
Proof.
  destruct (malformed_message_is_refused (fun _ => Script.down)
              [("id", JStr "18c2f09e5d1a7b33");
               ("payload", JDict [("mimeType", JStr "text/plain")])]
              Script.start (or_intror (or_intror eq_refl)))
    as (w' & e & Hrun & _ & _).
  exists w'. split; [ exact Hrun | ].
  vm_compute in Hrun. inversion Hrun. reflexivity.
Defined.

(** X24, the batch that is fetched: when the mailbox lists the
    messages and hands each of them over, [_fetch_emails] returns the
    parses of those that parse, in the order listed; the others are
    left out, so the batch is never longer than the listing. *)
Theorem fetch_keeps_parsable_in_order
    (b64decode_utf8 : string -> result string)
    (messages_list : string -> result json) (messages_get : json -> result json)
    (query : string) (results listing : json) (stubs msgs : list json) (w : World) :
  messages_list query = Ok results ->
  Value.get results "messages" (JList []) = Ok listing ->
  Inbox.iter listing = Ok stubs ->
  Forall2 (Inbox.listed messages_get) stubs msgs ->
  exists w',
    Inbox._fetch_emails b64decode_utf8 messages_list messages_get query w
    = (Ok (omap (Inbox.parsed b64decode_utf8) msgs), w')
    /\ (length (omap (Inbox.parsed b64decode_utf8) msgs) <= length stubs)%nat.
Proof.
  intros Hlist Hmessages Hiter Hlisted.
  destruct (InboxFacts.fetch_each_listed b64decode_utf8 messages_get stubs msgs [] w
              Hlisted) as (w' & Hrun & _).
  exists w'. split.
  - unfold Inbox._fetch_emails, try_except, bind, lift.
    rewrite Hlist, Hmessages, Hiter, Hrun. reflexivity.
  - rewrite (Forall2_length _ _ _ Hlisted). apply InboxFacts.omap_length_le.
Qed.

(** X25, one message that cannot be fetched loses the batch: when the
    id of a listed message cannot be read, or the mailbox refuses to
    hand the message over, [_fetch_emails] returns the empty list and
    logs the failure, whatever it had parsed of the messages listed
    before. *)
Theorem fetch_fails_as_a_whole
    (b64decode_utf8 : string -> result string)
    (messages_list : string -> result json) (messages_get : json -> result json)
    (query : string) (results listing : json)
    (before after msgs : list json) (stub : json) (w : World) :
  messages_list query = Ok results ->
  Value.get results "messages" (JList []) = Ok listing ->
  Inbox.iter listing = Ok (before ++ stub :: after)%list ->
  Forall2 (Inbox.listed messages_get) before msgs ->
  is_ok (id <-- Inbox.getitem stub "id" ; messages_get id) = false ->
  exists w' e,
    Inbox._fetch_emails b64decode_utf8 messages_list messages_get query w = (Ok [], w')
    /\ last (log w') = Some (ERROR, "Failed to fetch emails: " +:+ exn_message e).
Proof.
  intros Hlist Hmessages Hiter Hlisted Hbroken.
  destruct (InboxFacts.fetch_each_broken b64decode_utf8 messages_get before after msgs
              stub [] w Hlisted Hbroken) as (w1 & e & Hrun & _).
  unfold Inbox._fetch_emails, try_except, bind, lift, logger, ret.
  rewrite Hlist, Hmessages, Hiter, Hrun. simpl.
  do 2 eexists. split; [ reflexivity | apply last_snoc ].
Qed.

Lemma fetch_keeps_parsable_in_order_witness :
  exists p w',
    Inbox._fetch_emails (fun _ => Script.down)
      (fun _ => Ok (JDict [("messages",
                             JList [JDict [("id", JStr "m1")]; JDict [("id", JStr "m2")];
                                    JDict [("id", JStr "m3")]])]))
      (fun id =>
         if Inbox.is_str id "m2" then Ok (JDict [("id", JStr "m2")])
         else Ok (JDict [("id", id); ("threadId", id);
                         ("payload", JDict [("mimeType", JStr "text/html")])]))
      "is:unread newer_than:1h" Script.start
    = (Ok [ {| Inbox.p_id := JStr "m1"; Inbox.p_thread_id := JStr "m1";
               Inbox.p_subject := JStr "No Subject";
               Inbox.p_sender := JStr "Unknown Sender";
               Inbox.p_date := JStr ""; Inbox.p_message_id := JStr "";
               Inbox.p_body := ""; Inbox.p_snippet := JStr "";
               Inbox.p_labels := JList [] |}; p ], w')
    /\ Inbox.p_id p = JStr "m3".
Proof.
  destruct (fetch_keeps_parsable_in_order (fun _ => Script.down)
              (fun _ => Ok (JDict [("messages",
                                     JList [JDict [("id", JStr "m1")];
                                            JDict [("id", JStr "m2")];
                                            JDict [("id", JStr "m3")]])]))
              (fun id =>
                 if Inbox.is_str id "m2" then Ok (JDict [("id", JStr "m2")])
                 else Ok (JDict [("id", id); ("threadId", id);
                                 ("payload", JDict [("mimeType", JStr "text/html")])]))
              "is:unread newer_than:1h"
              (JDict [("messages",
                        JList [JDict [("id", JStr "m1")]; JDict [("id", JStr "m2")];
                               JDict [("id", JStr "m3")]])])
              (JList [JDict [("id", JStr "m1")]; JDict [("id", JStr "m2")];
                      JDict [("id", JStr "m3")]])
              [JDict [("id", JStr "m1")]; JDict [("id", JStr "m2")];
               JDict [("id", JStr "m3")]]
              [ JDict [("id", JStr "m1"); ("threadId", JStr "m1");
                       ("payload", JDict [("mimeType", JStr "text/html")])];
                JDict [("id", JStr "m2")];
                JDict [("id", JStr "m3"); ("threadId", JStr "m3");
                       ("payload", JDict [("mimeType", JStr "text/html")])] ]
              Script.start eq_refl eq_refl eq_refl)
    as (w' & Hrun & _).
  - repeat constructor; eexists; split; reflexivity.
  - eexists. exists w'. split; [ exact Hrun | reflexivity ].
Defined.

Lemma fetch_fails_as_a_whole_witness :
  exists w',
    Inbox._fetch_emails (fun _ => Script.down)
      (fun _ => Ok (JDict [("messages",
                             JList [JDict [("id", JStr "m1")]; JDict [("id", JStr "m2")]])]))
      (fun id =>
         if Inbox.is_str id "m2" then Script.down
         else Ok (JDict [("id", id); ("threadId", id);
                         ("payload", JDict [("mimeType", JStr "text/html")])]))
      "is:unread newer_than:1h" Script.start
    = (Ok [], w')
    /\ last (log w') = Some (ERROR, "Failed to fetch emails: service unavailable").
Proof.
  destruct (fetch_fails_as_a_whole (fun _ => Script.down)
              (fun _ => Ok (JDict [("messages",
                                     JList [JDict [("id", JStr "m1")];
                                            JDict [("id", JStr "m2")]])]))
              (fun id =>
                 if Inbox.is_str id "m2" then Script.down
                 else Ok (JDict [("id", id); ("threadId", id);
                                 ("payload", JDict [("mimeType", JStr "text/html")])]))
              "is:unread newer_than:1h"
              (JDict [("messages",
                        JList [JDict [("id", JStr "m1")]; JDict [("id", JStr "m2")]])])
              (JList [JDict [("id", JStr "m1")]; JDict [("id", JStr "m2")]])
              [JDict [("id", JStr "m1")]] []
              [ JDict [("id", JStr "m1"); ("threadId", JStr "m1");
                       ("payload", JDict [("mimeType", JStr "text/html")])] ]
              (JDict [("id", JStr "m2")])
              Script.start eq_refl eq_refl eq_refl)
    as (w' & e & Hrun & Hlog).
  - repeat constructor; eexists; split; reflexivity.
  - reflexivity.
  - exists w'. split; [ exact Hrun | ].
    vm_compute in Hrun. inversion Hrun. reflexivity.
Defined.

(** ** Similar past issues *)

Module SimilarFacts.

Import Similar.

Lemma past_insert_Forall (P : Past -> Prop) (x : Past) (l : list Past) :
  P x -> Forall P l -> Forall P (insert_desc x l).
Proof.
  intros Hx Hl. induction Hl as [ | y rest Hy Hrest IH ]; simpl.
  - constructor; [ exact Hx | constructor ].
  - destruct (Qle_bool (score y) (score x)).
    + constructor; [ exact Hx | constructor; assumption ].
    + constructor; assumption.
Qed.

Lemma past_sort_Forall (P : Past -> Prop) (l : list Past) :
  Forall P l -> Forall P (sort_desc l).
Proof.
  induction 1 as [ | x rest Hx Hrest IH ]; simpl.
  - constructor.
  - apply past_insert_Forall; assumption.
Qed.

Lemma past_insert_sorted (x : Past) (l : list Past) :
  non_increasing l -> non_increasing (insert_desc x l).
Proof.
  unfold non_increasing.
  induction 1 as [ | y rest Hsorted IH Hy ]; simpl.
  - constructor; constructor.
  - destruct (Qle_bool (score y) (score x)) eqn:E.
    + apply Qle_bool_iff in E.
      constructor; [ constructor; assumption | ].
      constructor; [ exact E | ].
      eapply List.Forall_impl; [ | exact Hy ].
      intros z Hz. simpl in Hz. eapply Qle_trans; eassumption.
    + constructor; [ exact IH | ].
      apply past_insert_Forall; [ | exact Hy ].
      destruct (Qlt_le_dec (score y) (score x)) as [Hlt | Hle]; [ | exact Hle ].
      apply Qlt_le_weak in Hlt. apply Qle_bool_iff in Hlt. congruence.
Qed.

Lemma past_sort_sorted (l : list Past) : non_increasing (sort_desc l).
Proof.
  induction l as [ | x rest IH ]; simpl.
  - constructor.
  - apply past_insert_sorted. exact IH.
Qed.

Lemma firstn_Forall {A} (P : A -> Prop) (n : nat) (l : list A) :
  Forall P l -> Forall P (firstn n l).
Proof.
  intros Hl. revert n.
  induction Hl as [ | x rest Hx _ IH ]; intros [ | n ]; simpl; constructor;
    [ exact Hx | apply IH ].
Qed.

(** A prefix of a sorted list is sorted. *)
Lemma firstn_sorted (n : nat) (l : list Past) :
  non_increasing l -> non_increasing (firstn n l).
Proof.
  unfold non_increasing. intros Hl. revert n.
  induction Hl as [ | x rest Hsorted IH Hx ]; intros [ | n ]; simpl; try constructor.
  - apply IH.
  - apply firstn_Forall. exact Hx.
Qed.

Lemma upto_sorted (limit : Z) (l : list Past) :
  non_increasing l -> non_increasing (upto limit l).
Proof.
  intros Hl. unfold upto. destruct (0 <=? limit)%Z; apply firstn_sorted; exact Hl.
Qed.

Lemma upto_Forall {A} (P : A -> Prop) (limit : Z) (l : list A) :
  Forall P l -> Forall P (upto limit l).
Proof.
  intros Hl. unfold upto. destruct (0 <=? limit)%Z; apply firstn_Forall; exact Hl.
Qed.

Lemma upto_length {A} (limit : Z) (l : list A) :
  (0 <= limit)%Z -> (length (upto limit l) <= Z.to_nat limit)%nat.
Proof.
  intros Hpos. unfold upto.
  destruct (Z.leb_spec 0 limit); [ | lia ].
  rewrite length_firstn. lia.
Qed.

(** The keys of rows that all have a score can be computed. *)
Lemma keys_close (rows : list Past) :
  Forall close rows -> exists ks, keys rows = Ok ks.
Proof.
  induction 1 as [ | r rest (q & Hq & _) _ (ks & IH) ]; simpl; [ eauto | ].
  rewrite Hq, IH. simpl. eauto.
Qed.

Lemma dot_comm (v1 v2 : list Q) : (dot v1 v2 == dot v2 v1)%Q.
Proof.
  revert v2. induction v1 as [ | x r1 IH ]; intros [ | y r2 ]; simpl; try reflexivity.
  rewrite (IH r2), (Qmult_comm x y). reflexivity.
Qed.

Section Search.

Variable env : Env.
Variable norm : list Q -> Q.

(** [cosine_similarity] always returns a number. *)
Lemma cosine_similarity_returns (v1 v2 : list Q) (w : World) :
  exists q w', cosine_similarity norm v1 v2 w = (Ok q, w').
Proof.
  unfold cosine_similarity, try_except, raise, ret, bind, logger.
  destruct (negb _); simpl; [ eauto | ].
  destruct (_ || _); eauto.
Qed.

(** What the loop collects are rows of the history that have a
    description, each with its score, which is above 0.7. *)
Lemma collect_close (rows : list Past) (emb : list Q) (past acc : list Past) (w : World) :
  (forall r, In r past -> In r rows) ->
  Forall (fun r => close r
                   /\ exists r0 q, In r0 rows /\ described r0 <> None
                                   /\ r = with_score r0 q) acc ->
  match collect env norm emb past acc w with
  | (Ok l, _) =>
      Forall (fun r => close r
                       /\ exists r0 q, In r0 rows /\ described r0 <> None
                                       /\ r = with_score r0 q) l
  | (Raise _, _) => True
  end.
Proof.
  revert acc w. induction past as [ | x past IH ]; intros acc w Hin Hacc.
  - exact Hacc.
  - simpl collect.
    assert (Hrest : forall r, In r past -> In r rows) by (intros r Hr; apply Hin; right; exact Hr).
    destruct (described x) as [ text | ] eqn:Hx; [ | apply IH; assumption ].
    unfold bind at 1.
    destruct (Matcher.create_embedding env text w) as [[v | e] w1]; [ | exact I ].
    unfold bind at 1.
    destruct (cosine_similarity_returns emb v w1) as (q & w2 & Hcos). rewrite Hcos.
    destruct (Qle_bool q (7 # 10)) eqn:E; simpl negb; cbv iota.
    + apply IH; assumption.
    + apply IH; [ exact Hrest | ].
      apply Forall_app. split; [ exact Hacc | ].
      constructor; [ | constructor ]. split.
      * exists q. split; [ reflexivity | ].
        destruct (Qlt_le_dec (7 # 10) q) as [ Hlt | Hle ]; [ exact Hlt | ].
        apply Qle_bool_iff in Hle. congruence.
      * exists x, q. split; [ apply Hin; left; reflexivity | ].
        split; [ rewrite Hx; discriminate | reflexivity ].
Qed.

End Search.

End SimilarFacts.

(** ** Properties of the search for similar issues *)

Ltac nothing :=
  do 2 eexists; (split; [ reflexivity | ]); (split; [ constructor | ]);
  (split; [ constructor | ]); (split; [ simpl; lia | constructor ]).

(** X26, similar past issues: the search never raises; every row it
    returns is a row of the customer's history that has a description,
    with a score above 0.7; the rows come best score first; and for a
    limit that is not negative there are at most that many. *)
Theorem similar_issues_are_close_sorted_and_few
    (env : Env) (norm : list Q -> Q)
    (select_interactions : string -> Z -> result (option (list Similar.Past)))
    (issue_description customer_email : string) (limit : Z) (w : World) :
  exists results w',
    Similar.search_similar_issues env norm select_interactions
      issue_description customer_email limit w = (Ok results, w')
    /\ Forall Similar.close results
    /\ Similar.non_increasing results
    /\ ((0 <= limit)%Z -> (length results <= Z.to_nat limit)%nat)
    /\ Forall (fun r =>
                 exists rows r0 q,
                   select_interactions customer_email 50%Z = Ok (Some rows)
                   /\ In r0 rows /\ Similar.described r0 <> None
                   /\ r = Similar.with_score r0 q) results.
Proof.
  unfold Similar.search_similar_issues, try_except.
  unfold bind at 1.
  destruct (Matcher.create_embedding env issue_description w) as [[emb | e] w1];
    [ | nothing ].
  unfold bind at 1. unfold Similar.get_interactions, try_except, bind, lift, logger, raise, ret.
  destruct (select_interactions customer_email 50%Z) as [ data | e ] eqn:Hselect;
    [ | nothing ].
  set (rows := match data with Some (r :: rest) => r :: rest | _ => [] end).
  pose proof (SimilarFacts.collect_close env norm rows emb rows [] w1
                (fun r H => H) (List.Forall_nil _)) as Hcollect.
  destruct (Similar.collect env norm emb rows [] w1) as [[found | e] w2];
    [ | nothing ].
  assert (Hclose : Forall Similar.close found).
  { eapply List.Forall_impl; [ | exact Hcollect ]. intros r (H & _). exact H. }
  destruct (SimilarFacts.keys_close found Hclose) as (ks & Hkeys).
  unfold Similar.sort_by_score, rbind. rewrite Hkeys.
  exists (Similar.upto limit (Similar.sort_desc found)), w2.
  split; [ reflexivity | ].
  split.
  { apply SimilarFacts.upto_Forall. apply SimilarFacts.past_sort_Forall. exact Hclose. }
  split.
  { apply SimilarFacts.upto_sorted. apply SimilarFacts.past_sort_sorted. }
  split.
  { apply SimilarFacts.upto_length. }
  apply SimilarFacts.upto_Forall. apply SimilarFacts.past_sort_Forall.
  eapply List.Forall_impl; [ | exact Hcollect ].
  intros r (_ & r0 & q & Hin & Hdesc & ->).
  destruct data as [ [ | r1 rest ] | ]; try (destruct Hin; fail).
  exists (r1 :: rest), r0, q. repeat split; assumption.
Qed.

(** X27, the cosine similarity is symmetric and never raises: both
    orders of two vectors give the same number, and the number is 0
    when the vectors differ in length or one of the norms is 0. *)
Theorem cosine_similarity_is_symmetric (norm : list Q -> Q) (v1 v2 : list Q) (w : World) :
  exists q1 q2 w1 w2,
    Similar.cosine_similarity norm v1 v2 w = (Ok q1, w1)
    /\ Similar.cosine_similarity norm v2 v1 w = (Ok q2, w2)
    /\ (q1 == q2)%Q
    /\ (length v1 <> length v2 \/ (norm v1 == 0)%Q \/ (norm v2 == 0)%Q -> (q1 == 0)%Q).
Proof.
  unfold Similar.cosine_similarity, try_except, raise, ret, logger.
  rewrite (Nat.eqb_sym (length v2) (length v1)).
  destruct (Nat.eqb_spec (length v1) (length v2)) as [ Hlen | Hlen ]; simpl.
  - rewrite (orb_comm (Qeq_bool (norm v2) 0)).
    destruct (Qeq_bool (norm v1) 0) eqn:E1; simpl.
    + do 4 eexists. repeat split; reflexivity.
    + destruct (Qeq_bool (norm v2) 0) eqn:E2; simpl.
      * do 4 eexists. repeat split; reflexivity.
      * do 4 eexists. split; [ reflexivity | ]. split; [ reflexivity | ]. split.
        -- rewrite (SimilarFacts.dot_comm v1 v2), (Qmult_comm (norm v1) (norm v2)).
           reflexivity.
        -- intros [ H | [ H | H ] ]; [ contradiction | | ];
             apply Qeq_bool_iff in H; congruence.
  - do 4 eexists. repeat split; reflexivity.
Qed.

(** ** Filling the knowledge base *)

Module KnowledgeFacts.

Import Knowledge.

Section Loader.

Variable env : Env.
Variable knowledge_insert : nat -> Entry -> result (option (list json)).
Variable knowledge_select : result (option (list json)).
Variable interactions_update : json -> list Q -> result (option (list json)).
Variable load_file : string -> result json.

(** Asking for an embedding touches neither table. *)
Lemma create_embedding_tables (text : string) (s : Store) :
  knowledge_base (snd (on_world (Matcher.create_embedding env text) s)) = knowledge_base s
  /\ interaction_updates (snd (on_world (Matcher.create_embedding env text) s))
     = interaction_updates s.
Proof.
  unfold on_world. destruct (Matcher.create_embedding env text (world s)). split; reflexivity.
Qed.

(** An entry is inserted exactly when [add_knowledge_entry] returns. *)
Lemma add_knowledge_entry_cases
    (title content category tags steps rate time : json) (s : Store) :
  exists r s',
    add_knowledge_entry env knowledge_insert title content category tags steps rate time s
    = (r, s')
    /\ interaction_updates s' = interaction_updates s
    /\ match r with
       | Ok _ =>
           exists embedding,
             knowledge_base s'
             = (knowledge_base s
                ++ [ {| e_title := title;
                        e_content := content;
                        e_embedding := embedding;
                        e_category := category;
                        e_tags := or_empty_list tags;
                        e_solution_steps := or_empty_list steps;
                        e_success_rate := rate;
                        e_avg_resolution_time := time |} ])%list
       | Raise _ => knowledge_base s' = knowledge_base s
       end.
Proof.
  unfold add_knowledge_entry, insert_knowledge_entry, ktry, kbind, klog, kret, kraise,
    on_world, logger. cbv zeta.
  destruct (Matcher.create_embedding env _ (world s)) as [[embedding | e] w1]; simpl.
  - destruct (knowledge_insert (length (knowledge_base s)) _) as [ data | e ]; simpl.
    + do 2 eexists. split; [ reflexivity | ]. simpl. split; [ reflexivity | ].
      exists embedding. reflexivity.
    + do 2 eexists. split; [ reflexivity | ]. simpl. split; reflexivity.
  - do 2 eexists. split; [ reflexivity | ]. simpl. split; reflexivity.
Qed.

(** Giving one entry its embedding never writes to the knowledge base,
    and updates one row of the interaction history exactly when it
    returns [true]. *)
Lemma update_entry_cases (entry : json) (s : Store) :
  exists r s',
    update_entry env interactions_update entry s = (r, s')
    /\ knowledge_base s' = knowledge_base s
    /\ match r with
       | Ok true =>
           exists id embedding,
             Inbox.getitem entry "id" = Ok id
             /\ interaction_updates s'
                = (interaction_updates s ++ [(id, embedding)])%list
       | _ => interaction_updates s' = interaction_updates s
       end.
Proof.
  unfold update_entry, update_interaction, ktry, kbind, klift, klog, kret, kraise,
    on_world, logger. cbv zeta.
  destruct (Value.get entry "embedding" JNull) as [ embedding | e ]; simpl;
    [ | do 2 eexists; split; [ reflexivity | split; reflexivity ] ].
  destruct (Value.truthy embedding); simpl;
    [ do 2 eexists; split; [ reflexivity | split; reflexivity ] | ].
  destruct (Inbox.getitem entry "title") as [ title | e ]; simpl;
    [ | do 2 eexists; split; [ reflexivity | split; reflexivity ] ].
  destruct (Inbox.getitem entry "content") as [ content | e ]; simpl;
    [ | do 2 eexists; split; [ reflexivity | split; reflexivity ] ].
  destruct (Matcher.create_embedding env _ (world s)) as [[v | e] w1]; simpl;
    [ | do 2 eexists; split; [ reflexivity | split; reflexivity ] ].
  destruct (Inbox.getitem entry "id") as [ id | e ]; simpl;
    [ | do 2 eexists; split; [ reflexivity | split; reflexivity ] ].
  destruct (interactions_update id v) as [ data | e ]; simpl;
    do 2 eexists; (split; [ reflexivity | ]); (split; [ reflexivity | ]); simpl; eauto.
Qed.

Lemma update_each_cases (entries : list json) (count : nat) (s : Store) :
  exists r s',
    update_each env interactions_update entries count s = (r, s')
    /\ knowledge_base s' = knowledge_base s
    /\ exists updates,
         interaction_updates s' = (interaction_updates s ++ updates)%list
         /\ Forall (fun u => exists entry, In entry entries
                                          /\ Inbox.getitem entry "id" = Ok (fst u))
                   updates
         /\ forall n, r = Ok n -> n = (count + length updates)%nat.
Proof.
  revert count s. induction entries as [ | entry rest IH ]; intros count s.
  - exists (Ok count), s. split; [ reflexivity | ]. split; [ reflexivity | ].
    exists []. rewrite app_nil_r. split; [ reflexivity | ].
    split; [ constructor | ]. intros n H. inversion H. simpl. lia.
  - simpl update_each. unfold kbind at 1.
    destruct (update_entry_cases entry s) as (r1 & s1 & Hrun & Hkb & Hupd).
    rewrite Hrun.
    destruct r1 as [ updated | e ].
    + destruct (IH (if updated then S count else count) s1)
        as (r & s' & Hrest & Hkb' & updates & Hupd' & Hids & Hcount).
      exists r, s'. split; [ exact Hrest | ]. split; [ congruence | ].
      destruct updated.
      * destruct Hupd as (id & v & Hid & Hupd).
        exists ((id, v) :: updates). rewrite Hupd', Hupd, <- app_assoc.
        split; [ reflexivity | ]. split.
        -- constructor; [ exists entry; split; [ left; reflexivity | exact Hid ] | ].
           eapply List.Forall_impl; [ | exact Hids ].
           intros u (x & Hx & Hu). exists x. split; [ right; exact Hx | exact Hu ].
        -- intros n Hn. rewrite (Hcount n Hn). simpl. lia.
      * exists updates. rewrite Hupd', Hupd. split; [ reflexivity | ]. split.
        -- eapply List.Forall_impl; [ | exact Hids ].
           intros u (x & Hx & Hu). exists x. split; [ right; exact Hx | exact Hu ].
        -- exact Hcount.
    + exists (Raise e), s1. split; [ reflexivity | ]. split; [ exact Hkb | ].
      exists []. rewrite app_nil_r. split; [ exact Hupd | ].
      split; [ constructor | discriminate ].
Qed.

(** *** Loading a file *)

Hypothesis Hembed : forall now text, is_ok (embeddings_create env now text) = true.
Hypothesis Hinsert : forall n entry, is_ok (knowledge_insert n entry) = true.

(** With an embedding provider and a table that accept everything, an
    entry that has its three keys is added. *)
Lemma load_entry_loadable (entry : json) (s : Store) :
  loadable entry ->
  exists s' row,
    load_entry env knowledge_insert entry s = (Ok tt, s')
    /\ knowledge_base s' = (knowledge_base s ++ [row])%list
    /\ Inbox.getitem entry "title" = Ok (e_title row)
    /\ interaction_updates s' = interaction_updates s.
Proof.
  intros (items & title & content & category & -> & Htitle & Hcontent & Hcategory).
  unfold load_entry, kbind, klift, kret. simpl. rewrite Htitle, Hcontent, Hcategory.
  unfold add_knowledge_entry, insert_knowledge_entry, ktry, kbind, klog, kret, kraise,
    on_world, logger. cbv zeta.
  unfold Matcher.create_embedding, try_except, call, no_commit, bind, raise.
  match goal with
  | |- context [ embeddings_create env ?n ?t ] =>
      pose proof (Hembed n t) as He; destruct (embeddings_create env n t); simpl in He;
      [ | discriminate ]
  end.
  simpl.
  match goal with
  | |- context [ knowledge_insert ?n ?e ] =>
      pose proof (Hinsert n e) as Hi; destruct (knowledge_insert n e); simpl in Hi;
      [ | discriminate ]
  end.
  simpl. do 2 eexists. split; [ reflexivity | ]. simpl.
  split; [ reflexivity | ]. split; reflexivity.
Qed.

Lemma load_each_loadable (good rest : list json) (count : nat) (s : Store) :
  Forall loadable good ->
  exists s1 added,
    load_each env knowledge_insert (good ++ rest) count s
    = load_each env knowledge_insert rest (count + length good) s1
    /\ knowledge_base s1 = (knowledge_base s ++ added)%list
    /\ Forall2 (fun entry row => Inbox.getitem entry "title" = Ok (e_title row)) good added
    /\ interaction_updates s1 = interaction_updates s.
Proof.
  intros Hgood. revert count s.
  induction Hgood as [ | entry good Hentry _ IH ]; intros count s.
  - exists s, []. simpl. rewrite Nat.add_0_r, app_nil_r.
    split; [ reflexivity | ]. split; [ reflexivity | ]. split; [ constructor | reflexivity ].
  - destruct (load_entry_loadable entry s Hentry) as (s0 & row & Hrun & Hkb & Htitle & Hupd).
    destruct (IH (S count) s0) as (s1 & added & Hrest & Hkb1 & Htitles & Hupd1).
    exists s1, (row :: added).
    split.
    { simpl. unfold kbind at 1. rewrite Hrun, Hrest.
      replace (S count + length good)%nat with (count + S (length good))%nat by lia.
      reflexivity. }
    split; [ rewrite Hkb1, Hkb, <- app_assoc; reflexivity | ].
    split; [ constructor; assumption | congruence ].
Qed.

End Loader.

End KnowledgeFacts.

(** ** Properties of the knowledge-base loader *)

(** X28, adding an entry is all or nothing: [add_knowledge_entry]
    appends one row to the knowledge base, holding what it was given
    and the embedding of "title content", exactly when it returns; when
    it raises (no embedding, or the table refuses the row) the table is
    as before. *)
Theorem entry_is_added_iff_it_returns
    (env : Env) (knowledge_insert : nat -> Knowledge.Entry -> result (option (list json)))
    (title content category tags steps rate time : json) (s : Knowledge.Store) :
  exists r s',
    Knowledge.add_knowledge_entry env knowledge_insert title content category tags steps
      rate time s = (r, s')
    /\ Knowledge.interaction_updates s' = Knowledge.interaction_updates s
    /\ match r with
       | Ok _ =>
           exists embedding,
             Knowledge.knowledge_base s'
             = (Knowledge.knowledge_base s
                ++ [ {| Knowledge.e_title := title;
                        Knowledge.e_content := content;
                        Knowledge.e_embedding := embedding;
                        Knowledge.e_category := category;
                        Knowledge.e_tags := Knowledge.or_empty_list tags;
                        Knowledge.e_solution_steps := Knowledge.or_empty_list steps;
                        Knowledge.e_success_rate := rate;
                        Knowledge.e_avg_resolution_time := time |} ])%list
       | Raise _ => Knowledge.knowledge_base s' = Knowledge.knowledge_base s
       end.
Proof.
  apply KnowledgeFacts.add_knowledge_entry_cases.
Qed.

(** X29, [update_knowledge_embeddings] never writes to the knowledge
    base: whatever the tables hold and answer, the rows of the
    knowledge base are as before; the embeddings it computes are sent
    as updates to the interaction history, under the ids of the entries
    read, and when it returns, the number it returns is the number of
    updates accepted. *)
Theorem update_embeddings_never_writes_knowledge_base
    (env : Env) (knowledge_select : result (option (list json)))
    (interactions_update : json -> list Q -> result (option (list json)))
    (s : Knowledge.Store) :
  exists r s' updates,
    Knowledge.update_knowledge_embeddings env knowledge_select interactions_update s
    = (r, s')
    /\ Knowledge.knowledge_base s' = Knowledge.knowledge_base s
    /\ Knowledge.interaction_updates s'
       = (Knowledge.interaction_updates s ++ updates)%list
    /\ (forall n, r = Ok n -> n = length updates)
    /\ Forall (fun u =>
                 exists rows entry,
                   knowledge_select = Ok (Some rows)
                   /\ In entry rows
                   /\ Inbox.getitem entry "id" = Ok (fst u)) updates.
Proof.
  unfold Knowledge.update_knowledge_embeddings, Knowledge.get_knowledge_entries.
  unfold Knowledge.ktry at 1. unfold Knowledge.kbind at 1.
  unfold Knowledge.ktry, Knowledge.kbind at 1, Knowledge.klift, Knowledge.kret.
  destruct knowledge_select as [ data | e ] eqn:Hselect.
  - set (rows := match data with Some (r :: rest) => r :: rest | _ => [] end).
    destruct (KnowledgeFacts.update_each_cases env interactions_update rows 0 s)
      as (r & s' & Hrun & Hkb & updates & Hupd & Hids & Hcount).
    unfold Knowledge.kbind at 1. rewrite Hrun.
    assert (Hrows : Forall (fun u =>
                              exists rows0 entry,
                                Ok data = Ok (Some rows0)
                                /\ In entry rows0
                                /\ Inbox.getitem entry "id" = Ok (fst u)) updates).
    { eapply List.Forall_impl; [ | exact Hids ].
      intros u (entry & Hin & Hid).
      destruct data as [ [ | r1 rest ] | ]; try (destruct Hin; fail).
      exists (r1 :: rest), entry. repeat split; assumption. }
    destruct r as [ n | e ].
    + unfold Knowledge.kbind, Knowledge.klog, Knowledge.on_world, logger. simpl.
      do 3 eexists. split; [ reflexivity | ]. simpl.
      split; [ exact Hkb | ]. split; [ exact Hupd | ].
      split; [ | exact Hrows ].
      intros m Hm. inversion Hm; subst. apply (Hcount m eq_refl).
    + unfold Knowledge.kbind, Knowledge.klog, Knowledge.kraise, Knowledge.on_world, logger.
      simpl. do 3 eexists. split; [ reflexivity | ]. simpl.
      split; [ exact Hkb | ]. split; [ exact Hupd | ].
      split; [ discriminate | exact Hrows ].
  - unfold Knowledge.kbind, Knowledge.klog, Knowledge.kraise, Knowledge.on_world, logger.
    simpl. exists (Raise e). eexists. exists [].
    split; [ reflexivity | ]. simpl. rewrite app_nil_r.
    split; [ reflexivity | ]. split; [ reflexivity | ].
    split; [ discriminate | constructor ].
Qed.

(** X30, loading a file is not rolled back.  With an embedding provider
    and a table that accept everything: when every entry of the file
    has a title, a content and a category, all are added, in order, and
    their number is returned; when an entry lacks its title, the load
    raises the KeyError, and the entries before it stay in the
    knowledge base. *)
Theorem load_is_not_rolled_back
    (env : Env) (knowledge_insert : nat -> Knowledge.Entry -> result (option (list json)))
    (load_file : string -> result json)
    (path : string) (data kb listing : json) (entries : list json) (s : Knowledge.Store) :
  load_file path = Ok data ->
  Value.get data "knowledge_base" (JDict []) = Ok kb ->
  Value.get kb "entries" (JList []) = Ok listing ->
  Inbox.iter listing = Ok entries ->
  (forall now text, is_ok (embeddings_create env now text) = true) ->
  (forall n entry, is_ok (knowledge_insert n entry) = true) ->
  (Forall Knowledge.loadable entries ->
   exists s' added,
     Knowledge.load_knowledge_from_json env knowledge_insert load_file path s
     = (Ok (length entries), s')
     /\ Knowledge.knowledge_base s' = (Knowledge.knowledge_base s ++ added)%list
     /\ Forall2 (fun entry row => Inbox.getitem entry "title" = Ok (Knowledge.e_title row))
                entries added)
  /\ (forall good bad rest e,
        entries = (good ++ bad :: rest)%list ->
        Forall Knowledge.loadable good ->
        Inbox.getitem bad "title" = Raise e ->
        exists s' added,
          Knowledge.load_knowledge_from_json env knowledge_insert load_file path s
          = (Raise e, s')
          /\ Knowledge.knowledge_base s' = (Knowledge.knowledge_base s ++ added)%list
          /\ Forall2 (fun entry row =>
                        Inbox.getitem entry "title" = Ok (Knowledge.e_title row))
                     good added).
Proof.
  intros Hfile Hkb Hentries Hiter Hembed Hinsert.
  split.
  - intros Hgood.
    unfold Knowledge.load_knowledge_from_json.
    unfold Knowledge.ktry, Knowledge.kbind at 1 2 3 4, Knowledge.klift.
    rewrite Hfile, Hkb, Hentries, Hiter.
    destruct (KnowledgeFacts.load_each_loadable env knowledge_insert Hembed Hinsert
                entries [] 0 s Hgood) as (s1 & added & Hrun & Hrows & Htitles & _).
    rewrite app_nil_r in Hrun.
    unfold Knowledge.kbind at 1. rewrite Hrun. simpl.
    unfold Knowledge.kbind, Knowledge.klog, Knowledge.kret, Knowledge.on_world, logger.
    simpl. do 2 eexists. split; [ reflexivity | ]. simpl.
    split; [ exact Hrows | exact Htitles ].
  - intros good bad rest e -> Hgood Hbad.
    unfold Knowledge.load_knowledge_from_json.
    unfold Knowledge.ktry, Knowledge.kbind at 1 2 3 4, Knowledge.klift.
    rewrite Hfile, Hkb, Hentries, Hiter.
    destruct (KnowledgeFacts.load_each_loadable env knowledge_insert Hembed Hinsert
                good (bad :: rest) 0 s Hgood) as (s1 & added & Hrun & Hrows & Htitles & _).
    unfold Knowledge.kbind at 1. rewrite Hrun. simpl Knowledge.load_each.
    unfold Knowledge.kbind at 1. unfold Knowledge.load_entry.
    unfold Knowledge.kbind at 1. unfold Knowledge.klift at 1. rewrite Hbad.
    unfold Knowledge.kbind, Knowledge.klog, Knowledge.kraise, Knowledge.on_world, logger.
    simpl. do 2 eexists. split; [ reflexivity | ]. simpl.
    split; [ exact Hrows | exact Htitles ].
Qed.

Lemma load_is_not_rolled_back_witness :
  exists s' row,
    Knowledge.load_knowledge_from_json
      (Script.env true (Script.model Script.down Script.down Script.down)
                  [] [] true true true)
      (fun _ _ => Ok None)
      (fun _ =>
         Ok (JDict
               [("knowledge_base",
                  JDict
                    [("entries",
                       JList
                         [ JDict [("title", JStr "Password reset");
                                  ("content", JStr "Use the link on the login page.");
                                  ("category", JStr "account")];
                           JDict [("content", JStr "An entry without a title");
                                  ("category", JStr "general")] ])])]))
      "knowledge.json"
      {| Knowledge.world := Script.start;
         Knowledge.knowledge_base := [];
         Knowledge.interaction_updates := [] |}
    = (Raise (KeyError "title"), s')
    /\ Knowledge.knowledge_base s' = [row]
    /\ Knowledge.e_title row = JStr "Password reset".
Proof.
  destruct (proj2 (load_is_not_rolled_back
              (Script.env true (Script.model Script.down Script.down Script.down)
                          [] [] true true true)
              (fun _ _ => Ok None)
              (fun _ =>
                 Ok (JDict
                       [("knowledge_base",
                          JDict
                            [("entries",
                               JList
                                 [ JDict [("title", JStr "Password reset");
                                          ("content",
                                            JStr "Use the link on the login page.");
                                          ("category", JStr "account")];
                                   JDict [("content", JStr "An entry without a title");
                                          ("category", JStr "general")] ])])]))
              "knowledge.json" _ _ _ _
              {| Knowledge.world := Script.start;
                 Knowledge.knowledge_base := [];
                 Knowledge.interaction_updates := [] |}
              eq_refl eq_refl eq_refl eq_refl
              (fun _ _ => eq_refl) (fun _ _ => eq_refl))
              [ JDict [("title", JStr "Password reset");
                       ("content", JStr "Use the link on the login page.");
                       ("category", JStr "account")] ]
              (JDict [("content", JStr "An entry without a title");
                      ("category", JStr "general")])
              [] (KeyError "title") eq_refl)
    as (s' & added & Hrun & Hrows & Htitles).
  - repeat constructor. do 4 eexists. repeat split; reflexivity.
  - reflexivity.
  - inversion Htitles as [ | entry row good rows Htitle Hrest ]; subst.
    inversion Hrest; subst.
    exists s', row. split; [ exact Hrun | ]. split; [ exact Hrows | ].
    simpl in Htitle. inversion Htitle. reflexivity.
Defined.
